(** * cursor-chat-browser: conversation export and single-conversation lookup

    A shallow embedding of the two export routes of the repository
    ([src/app/api/export/route.ts], written against [sqlite3], and the
    [better-sqlite3] revision of that file which the repository also
    holds) and of the lookup route
    [src/app/api/conversations/[id]/route.ts], followed by the properties
    of the normalisation and aggregation pipeline.

    Conventions of the embedding.
    - JavaScript numbers that hold epoch milliseconds, lengths and counts
      are integers well inside the exactly representable range of a
      double; they are modelled by [Z] and [nat], and the one division of
      the code ([sum / messages.length]) by an exact rational.
    - A property that may be absent ([?] in the TypeScript interfaces, or
      read through [?.]) is an [option]; [None] is JavaScript's
      [undefined].
    - [forEach] loops that push onto an array or add to a [Set] are left
      folds over the state they mutate.
    - Code that can throw returns in [Try.t]. The normalisers throw when
      they format a stored timestamp that is no time value; the handlers
      throw on the storage they cannot read. *)

From Stdlib Require Import String List ZArith QArith Qround Lia Bool.
From Stdlib Require Import Sorted Permutation DecimalString DecimalNat Ascii.
Import ListNotations.

Local Open Scope string_scope.
Local Open Scope Z_scope.
Local Open Scope list_scope.

(** ** The JavaScript runtime, as far as the routes use it *)

Module JS.

(** A loosely typed property value, for the fields the code compares
    with [===] without looking at their type first. *)
Inductive value : Type :=
| undefined
| null
| boolean (b : bool)
| number (z : Z)
| str (s : string).

(** [v === 1] *)
Definition strictEqualsOne (v : value) : bool :=
  match v with
  | number 1 => true
  | _ => false
  end.

(** [v === s] for a string literal [s] *)
Definition strictEqualsStr (v : value) (s : string) : bool :=
  match v with
  | str s' => String.eqb s' s
  | _ => false
  end.

(** Truthiness of a string: every string but the empty one. *)
Definition truthyString (s : string) : bool := negb (String.eqb s "").

(** Truthiness of an optional string property. *)
Definition truthyOptString (o : option string) : bool :=
  match o with
  | Some s => truthyString s
  | None => false
  end.

(** [a || b] on an optional number: [a] when it is present and not zero. *)
Definition orNumber (a : option Z) (b : Z) : Z :=
  match a with
  | Some t => if Z.eqb t 0 then b else t
  | None => b
  end.

(** [a || b] on an optional string. *)
Definition orString (a : option string) (b : string) : string :=
  match a with
  | Some s => if truthyString s then s else b
  | None => b
  end.

(** [xs.filter(Boolean)] on strings. *)
Definition filterBoolean (xs : list string) : list string :=
  filter truthyString xs.

(** [Array.prototype.forEach] with a callback that updates state [St]. *)
Definition forEach {A St : Type} (xs : list A) (f : St -> A -> St) (s : St) : St :=
  fold_left f xs s.

(** [forEach] with the [(element, index)] callback. *)
Fixpoint forEachFrom {A St : Type} (index : nat) (xs : list A)
  (f : St -> A -> nat -> St) (s : St) : St :=
  match xs with
  | [] => s
  | x :: xs' => forEachFrom (S index) xs' f (f s x index)
  end.

Definition forEachIndexed {A St : Type} (xs : list A)
  (f : St -> A -> nat -> St) (s : St) : St :=
  forEachFrom 0 xs f s.

(** [arr.push(x)] *)
Definition push {A : Type} (arr : list A) (x : A) : list A := arr ++ [x].

(** [Set<string>]: the elements in insertion order, which is the order
    [Array.from] lists them in. *)
Definition SetOfString := list string.

Definition Set_has (s : SetOfString) (x : string) : bool :=
  existsb (String.eqb x) s.

Definition Set_add (s : SetOfString) (x : string) : SetOfString :=
  if Set_has s x then s else s ++ [x].

Definition Array_from (s : SetOfString) : list string := s.

(** [Math.round]: the integer nearest to [q], ties going up. *)
Definition Math_round (q : Q) : Z := Qfloor (q + (1 # 2))%Q.

(** Template-literal rendering of an array index. *)
Definition indexToString (index : nat) : string :=
  NilEmpty.string_of_uint (Nat.to_uint index).

(** [Array.prototype.sort(compare)]. ECMAScript 2019 requires the sort to
    be stable; with a consistent comparator every stable sort returns the
    same array, here computed by insertion from the right. *)
Fixpoint sortInsert {A : Type} (compare : A -> A -> Z) (x : A) (l : list A)
  : list A :=
  match l with
  | [] => [x]
  | y :: l' =>
      if compare x y <=? 0 then x :: y :: l'
      else y :: sortInsert compare x l'
  end.

Fixpoint Array_sort {A : Type} (compare : A -> A -> Z) (l : list A) : list A :=
  match l with
  | [] => []
  | x :: l' => sortInsert compare x (Array_sort compare l')
  end.

(** A time value: a number of milliseconds at most 8.64e15 away from the
    epoch. [new Date(value)] is a valid date exactly for these; for any
    other number the date is invalid, its [getTime()] is [NaN] and its
    [toISOString()] throws a [RangeError]. *)
Definition isTimeValue (value : Z) : bool :=
  (-8640000000000000 <=? value) && (value <=? 8640000000000000).

(** [new Date(value).getTime()]; [None] is [NaN]. *)
Definition getTime (value : Z) : option Z :=
  if isTimeValue value then Some value else None.

(** The text [Date.prototype.toISOString] returns for the valid date of
    time value [t], by the civil calendar of ECMAScript (proleptic
    Gregorian, UTC). [new Date()], the date of the clock, is always
    valid; a date made from a stored number need not be, see
    [formatTimestamp]. *)
Fixpoint zeros (n : nat) : string :=
  match n with
  | O => ""
  | S n' => ("0" ++ zeros n')%string
  end.

Definition padded (width : nat) (n : Z) : string :=
  let digits := NilEmpty.string_of_uint (N.to_uint (Z.to_N n)) in
  (zeros (width - String.length digits) ++ digits)%string.

Definition isoString (t : Z) : string :=
  let day := t / 86400000 in
  let ms := t mod 86400000 in
  let z := day + 719468 in
  let era := z / 146097 in
  let doe := z - era * 146097 in
  let yoe := (doe - doe / 1460 + doe / 36524 - doe / 146096) / 365 in
  let doy := doe - (365 * yoe + yoe / 4 - yoe / 100) in
  let mp := (5 * doy + 2) / 153 in
  let d := doy - (153 * mp + 2) / 5 + 1 in
  let m := if mp <? 10 then mp + 3 else mp - 9 in
  let y := yoe + era * 400 + (if m <=? 2 then 1 else 0) in
  let sign : string := if y <? 0 then "-" else "+" in
  let year :=
    if (0 <=? y) && (y <=? 9999) then padded 4 y
    else (sign ++ padded 6 (Z.abs y))%string in
  (year ++ "-" ++ padded 2 m ++ "-" ++ padded 2 d
   ++ "T" ++ padded 2 (ms / 3600000)
   ++ ":" ++ padded 2 (ms / 60000 mod 60)
   ++ ":" ++ padded 2 (ms / 1000 mod 60)
   ++ "." ++ padded 3 (ms mod 1000) ++ "Z")%string.

End JS.

(** ** The raw records of [@/types/workspace] *)

(** Modelled from the spec: the interfaces of [@/types/workspace]
    ([ComposerChat], [ComposerData], [ChatTab] and what they contain) are
    imported by the routes but are not among the sources. The records
    below carry the fields the routes read, with the optionality the
    routes guard against and that section 3 of the specification gives
    (a bubble has a role discriminant, a text, an optional explicit
    timestamp, an optional selection list and an optional model
    identifier). *)
Module Selection.
Record t : Type := mk { text : string }.
End Selection.

Module Uri.
Record t : Type := mk { fsPath : option string }.
End Uri.

Module FileSelection.
Record t : Type := mk { uri : option Uri.t }.
End FileSelection.

Module FolderSelection.
Record t : Type := mk { path : string }.
End FolderSelection.

Module Doc.
Record t : Type := mk { title : string; content : string }.
End Doc.

Module Commit.
Record t : Type := mk { hash : string; message : string }.
End Commit.

Module ComposerContext.
Record t : Type := mk {
  selections : option (list Selection.t);
  fileSelections : option (list FileSelection.t);
  folderSelections : option (list FolderSelection.t);
  selectedDocs : option (list Doc.t);
  selectedCommits : option (list Commit.t)
}.
End ComposerContext.

Module ComposerMessage.
Record t : Type := mk {
  bubbleId : string;
  type : JS.value;
  text : string;
  timestamp : Z;
  context : option ComposerContext.t
}.
End ComposerMessage.

Module ComposerChat.
Record t : Type := mk {
  composerId : string;
  name : option string;
  createdAt : Z;
  lastUpdatedAt : Z;
  conversation : option (list ComposerMessage.t);
  context : option ComposerContext.t
}.
End ComposerChat.

Module ComposerData.
Record t : Type := mk { allComposers : option (list ComposerChat.t) }.
End ComposerData.

Module ChatBubble.
Record t : Type := mk {
  type : JS.value;
  text : option string;
  timestamp : option Z;
  selections : option (list Selection.t);
  modelType : option string
}.
End ChatBubble.

Module ChatTab.
Record t : Type := mk {
  id : string;
  tabId : option string;
  title : string;
  timestamp : Z;
  bubbles : list ChatBubble.t
}.
End ChatTab.

Module ChatData.
Record t : Type := mk { tabs : option (list ChatTab.t) }.
End ChatData.

(** ** The export format (interfaces declared by both export routes) *)

Module ExportedContext.
Record t : Type := mk {
  codeSelections : option (list string);
  files : option (list string);
  folders : option (list string);
  docs : option (list Doc.t);
  commits : option (list Commit.t)
}.
Definition empty : t := mk None None None None None.
End ExportedContext.

Module ExportedMetadata.
Record t : Type := mk {
  modelType : option string;
  bubbleId : option string
}.
End ExportedMetadata.

Module ExportedMessage.
Record t : Type := mk {
  id : string;
  role : string;
  content : string;
  timestamp : Z;
  formattedTimestamp : string;
  context : option ExportedContext.t;
  metadata : option ExportedMetadata.t
}.
End ExportedMessage.

Module WorkspaceRef.
Record t : Type := mk { id : string; folder : option string }.
End WorkspaceRef.

Module Summary.
(** [hasCodeContext] is declared [boolean]; the expression the composer
    normaliser stores there can also evaluate to [undefined], hence the
    [option]. *)
Record t : Type := mk {
  messageCount : nat;
  userMessageCount : nat;
  assistantMessageCount : nat;
  hasCodeContext : option bool;
  filesReferenced : list string;
  averageMessageLength : Z
}.
End Summary.

Module ExportedConversation.
Record t : Type := mk {
  id : string;
  type : string;
  title : string;
  messages : list ExportedMessage.t;
  createdAt : Z;
  lastUpdatedAt : Z;
  formattedCreatedAt : string;
  formattedLastUpdatedAt : string;
  workspace : WorkspaceRef.t;
  summary : Summary.t
}.
End ExportedConversation.

Module ExportMetadata.
Record t : Type := mk {
  exportVersion : string;
  source : string;
  description : string
}.
End ExportMetadata.

Module ExportData.
Record t : Type := mk {
  exportedAt : string;
  exportedAtTimestamp : Z;
  totalConversations : nat;
  totalMessages : nat;
  conversations : list ExportedConversation.t;
  metadata : ExportMetadata.t
}.
End ExportData.

(** ** Paths

    [path.join(workspacePath, workspaceId, 'state.vscdb')] joins its
    arguments with the separator and normalises the result: empty
    segments and [.] are dropped, and [..] takes back the segment before
    it. What is computed here is the part of the joined path below
    [workspacePath]: the directory the [workspaceId] of a request leads
    to, as segments. A [..] with nothing before it to take back stays; it
    leads above [workspacePath]. *)

Module Path.

(** The segments of a path, between its separators. *)
Fixpoint segmentsFrom (current : string) (path : string) : list string :=
  match path with
  | EmptyString => [current]
  | String c rest =>
      if Ascii.eqb c "/"%char then current :: segmentsFrom "" rest
      else segmentsFrom (current ++ String c "")%string rest
  end.

Definition segments (path : string) : list string := segmentsFrom "" path.

(** Normalisation, onto the segments kept so far (the last one first). *)
Fixpoint normalizeOnto (kept : list string) (rest : list string)
  : list string :=
  match rest with
  | [] => rev kept
  | segment :: rest' =>
      if String.eqb segment "" || String.eqb segment "." then
        normalizeOnto kept rest'
      else if String.eqb segment ".." then
        match kept with
        | last :: before =>
            if String.eqb last ".." then normalizeOnto (".." :: kept) rest'
            else normalizeOnto before rest'
        | [] => normalizeOnto [".."] rest'
        end
      else normalizeOnto (segment :: kept) rest'
  end.

(** Where [workspaceId] leads, from [workspacePath]. *)
Definition relative (workspaceId : string) : list string :=
  normalizeOnto [] (segments workspaceId).

(** A plain name, as [readdir] lists them: it leads to the entry of
    that name. *)
Definition plain (name : string) : Prop := relative name = [name].

End Path.

(** ** The workspace storage the routes read

    What [fs.readdir], [existsSync], [fs.readFile], the SQLite driver and
    [JSON.parse] can answer, as the state the handlers are run against. *)

Module Disk.

(** A stored text handed to [JSON.parse] and read at once: [Malformed]
    when [JSON.parse] throws, or returns [null] so that the property read
    that follows throws in its place; [Parsed] when it returns a value of
    the shape the route casts it to. *)
Inductive Blob (A : Type) : Type :=
| Malformed
| Parsed (a : A).
Arguments Malformed {A}.
Arguments Parsed {A} a.

(** The two rows of [ItemTable] the routes select. [None] is a missing
    row or an empty value, which [result?.value] treats alike. *)
Record Store : Type := mkStore {
  composerData : option (Blob ComposerData.t);
  chatdata : option (Blob ChatData.t)
}.

(** A [state.vscdb] file. [Unreadable]: the driver cannot open it.
    [NotADatabase]: the driver opens it, since SQLite reads nothing of a
    file it opens, and every query on it throws. [Readable]: it answers
    the queries with its rows. *)
Inductive StoreFile : Type :=
| Unreadable
| NotADatabase
| Readable (db : Store).

Record WorkspaceJson : Type := mkWorkspaceJson { folder : option string }.

(** An entry of the workspace storage directory. A directory may hold a
    [state.vscdb] and a [workspace.json] ([None]: the file is missing). *)
Inductive Dirent : Type :=
| File (name : string)
| Directory (name : string) (stateVscdb : option StoreFile)
    (workspaceJson : option (Blob WorkspaceJson)).

Definition nameOf (entry : Dirent) : string :=
  match entry with
  | File name => name
  | Directory name _ _ => name
  end.

(** What [fs.readdir(workspacePath)] answers; [None]: it rejects. *)
Definition t : Type := option (list Dirent).

(** The listed directory of a name. *)
Definition isDirectoryNamed (name : string) (entry : Dirent) : bool :=
  match entry with
  | File _ => false
  | Directory name' _ _ => String.eqb name' name
  end.

Definition findDirectory (entries : list Dirent) (name : string)
  : option Dirent :=
  find (isDirectoryNamed name) entries.

(** The storage as the lookup reaches into it, by path and without
    listing anything. [storage] is the listing of [workspacePath]; the
    [state.vscdb] of a listed directory is the one the listing shows.
    [elsewhere] is the [state.vscdb] found at any other place a path
    leads to: below a listed directory, above [workspacePath], through a
    listed entry that is no directory itself (a link), or at a name the
    listing spells otherwise (a volume that ignores case). *)
Record Volume : Type := mkVolume {
  storage : t;
  elsewhere : list string -> option StoreFile
}.

(** The file at [path.join(workspacePath, workspaceId, 'state.vscdb')];
    [None] when [existsSync] answers false. *)
Definition stateVscdbOf (disk : Volume) (workspaceId : string)
  : option StoreFile :=
  match Path.relative workspaceId, storage disk with
  | [name], Some entries =>
      match findDirectory entries name with
      | Some (Directory _ stateVscdb _) => stateVscdb
      | _ => elsewhere disk [name]
      end
  | place, _ => elsewhere disk place
  end.

(** A volume on which nothing is reached but the listed directories. *)
Definition only (disk : t) : Volume := mkVolume disk (fun _ => None).

End Disk.

(** ** Exceptions *)

Module Try.

Inductive t (A : Type) : Type :=
| Throws
| Returns (a : A).
Arguments Throws {A}.
Arguments Returns {A} a.

Definition bind {A B : Type} (c : t A) (k : A -> t B) : t B :=
  match c with
  | Throws => Throws
  | Returns a => k a
  end.

(** [for (const x of xs) { ... }] over a body that may throw. *)
Fixpoint forOf {A St : Type} (xs : list A) (body : St -> A -> t St) (s : St)
  : t St :=
  match xs with
  | [] => Returns s
  | x :: xs' => bind (body s x) (forOf xs' body)
  end.

(** [xs.forEach(x => ...)] with a callback that may throw. *)
Definition forEach {A St : Type} (xs : list A) (f : St -> A -> t St) (s : St)
  : t St :=
  forOf xs f s.

(** [xs.forEach((x, index) => ...)] with a callback that may throw. *)
Fixpoint forEachFrom {A St : Type} (index : nat) (xs : list A)
  (f : St -> A -> nat -> t St) (s : St) : t St :=
  match xs with
  | [] => Returns s
  | x :: xs' => bind (f s x index) (forEachFrom (S index) xs' f)
  end.

Definition forEachIndexed {A St : Type} (xs : list A)
  (f : St -> A -> nat -> t St) (s : St) : t St :=
  forEachFrom 0 xs f s.

(** Whether an attempt threw, and the results of the attempts of a list
    that returned. *)
Definition throws {A : Type} (attempt : t A) : bool :=
  match attempt with
  | Throws => true
  | Returns _ => false
  end.

Definition returned {A : Type} (attempts : list (t A)) : list A :=
  flat_map
    (fun attempt =>
       match attempt with
       | Returns a => [a]
       | Throws => []
       end)
    attempts.

(** [await fs.readdir(workspacePath, { withFileTypes: true })] *)
Definition readdir (disk : Disk.t) : t (list Disk.Dirent) :=
  match disk with
  | Some entries => Returns entries
  | None => Throws
  end.

(** [await open(...)] / [new Database(...)]: the handle of the file. *)
Definition openStore (file : Disk.StoreFile) : t Disk.StoreFile :=
  match file with
  | Disk.Unreadable => Throws
  | _ => Returns file
  end.

(** [await db.get(...)] / [db.prepare(...).get()] on a handle, for the
    row read by [row]; the row found, or [None]. *)
Definition get {A : Type} (db : Disk.StoreFile)
  (row : Disk.Store -> option (Disk.Blob A)) : t (option (Disk.Blob A)) :=
  match db with
  | Disk.Readable store => Returns (row store)
  | _ => Throws
  end.

(** [JSON.parse(text)], and the first property read of its value. *)
Definition JSON_parse {A : Type} (blob : Disk.Blob A) : t A :=
  match blob with
  | Disk.Malformed => Throws
  | Disk.Parsed a => Returns a
  end.

(** Calling a method on a property that must be an array: a [TypeError]
    when the property is [undefined]. *)
Definition required {A : Type} (o : option A) : t A :=
  match o with
  | Some a => Returns a
  | None => Throws
  end.

End Try.

Declare Scope try_scope.
Delimit Scope try_scope with try.
Notation "x <- c ;; k" := (Try.bind c (fun x => k))
  (at level 61, c at next level, right associativity) : try_scope.

(** ** The [GET] handler of the export routes

    The handler is the same text in both copies of [route.ts] up to the
    SQLite driver; it is stated once over the two normalisers it calls. *)

Module ExportHandler.
Section Handler.

Variable processComposerChat
  : ComposerChat.t -> string -> option string -> Try.t ExportedConversation.t.
Variable processChatTab
  : ChatTab.t -> string -> option string -> Try.t ExportedConversation.t.

(** The query string of the request. *)
Record Request : Type := mkRequest {
  includeChatsParam : option string;
  includeComposersParam : option string
}.

(** [searchParams.get(name) !== 'false'] *)
Definition notFalse (param : option string) : bool :=
  match param with
  | Some v => negb (String.eqb v "false")
  | None => true
  end.

Inductive Response : Type :=
| Ok (exportData : ExportData.t)
| InternalServerError.

(** The [try { JSON.parse(readFile(workspace.json)) } catch {}] block. *)
Definition readWorkspaceFolder
  (workspaceJson : option (Disk.Blob Disk.WorkspaceJson)) : option string :=
  match workspaceJson with
  | Some (Disk.Parsed workspaceData) => Disk.folder workspaceData
  | _ => None
  end.

Local Open Scope try_scope.

(** The body of [for (const entry of entries)]. *)
Definition exportEntry (includeChats includeComposers : bool)
  (conversations : list ExportedConversation.t) (entry : Disk.Dirent)
  : Try.t (list ExportedConversation.t) :=
  match entry with
  | Disk.File _ => Try.Returns conversations
  | Disk.Directory name stateVscdb workspaceJson =>
      match stateVscdb with
      | None => Try.Returns conversations (* continue *)
      | Some file =>
          (* Get workspace folder info *)
          let workspaceFolder := readWorkspaceFolder workspaceJson in
          db <- Try.openStore file ;;
          (* Get composer chats *)
          conversations <-
            (if includeComposers then
               composerResult <- Try.get db Disk.composerData ;;
               match composerResult with
               | Some value =>
                   composerData <- Try.JSON_parse value ;;
                   allComposers <-
                     Try.required (ComposerData.allComposers composerData) ;;
                   Try.forEach allComposers
                     (fun conversations composer =>
                        conversation <-
                          processComposerChat composer name workspaceFolder ;;
                        Try.Returns (JS.push conversations conversation))
                     conversations
               | None => Try.Returns conversations
               end
             else Try.Returns conversations) ;;
          (* Get chat tabs (AI Chat) *)
          conversations <-
            (if includeChats then
               chatResult <- Try.get db Disk.chatdata ;;
               match chatResult with
               | Some value =>
                   chatData <- Try.JSON_parse value ;;
                   match ChatData.tabs chatData with
                   | Some tabs =>
                       Try.forEach tabs
                         (fun conversations tab =>
                            conversation <-
                              processChatTab tab name workspaceFolder ;;
                            Try.Returns (JS.push conversations conversation))
                         conversations
                   | None => Try.Returns conversations
                   end
               | None => Try.Returns conversations
               end
             else Try.Returns conversations) ;;
          Try.Returns conversations
      end
  end.

(** [(a, b) => b.lastUpdatedAt - a.lastUpdatedAt] *)
Definition byLastUpdated (a b : ExportedConversation.t) : Z :=
  ExportedConversation.lastUpdatedAt b - ExportedConversation.lastUpdatedAt a.

(** Everything inside the [try] of [GET] up to the sort: the list of
    conversations in enumeration order. *)
Definition collect (request : Request) (disk : Disk.t)
  : Try.t (list ExportedConversation.t) :=
  let includeChats := notFalse (includeChatsParam request) in
  let includeComposers := notFalse (includeComposersParam request) in
  entries <- Try.readdir disk ;;
  Try.forOf entries (exportEntry includeChats includeComposers) [].

(** [now] is the clock read by [new Date()] and [Date.now()]; the date
    of the clock is valid, and [exportedAt] is its text. *)
Definition GET (now : Z) (request : Request) (disk : Disk.t) : Response :=
  match collect request disk with
  | Try.Returns conversations =>
      (* Sort by last updated *)
      let conversations := JS.Array_sort byLastUpdated conversations in
      let totalMessages :=
        fold_left
          (fun sum conv =>
             (sum + length (ExportedConversation.messages conv))%nat)
          conversations 0%nat in
      Ok (ExportData.mk
            (JS.isoString now)
            now
            (length conversations)
            totalMessages
            conversations
            (ExportMetadata.mk "1.0.0" "cursor-chat-browser"
               "Exported conversation data for semantic search and pattern analysis"))
  | Try.Throws => InternalServerError
  end.

End Handler.
End ExportHandler.

(** ** [src/app/api/export/route.ts] *)

Module ExportRoute.

Local Open Scope try_scope.

(** [new Date(timestamp).toISOString()]: a [RangeError] when
    [timestamp] is no time value. *)
Definition formatTimestamp (timestamp : Z) : Try.t string :=
  if JS.isTimeValue timestamp then Try.Returns (JS.isoString timestamp)
  else Try.Throws.

(** [file.uri?.fsPath] *)
Definition fsPathOf (file : FileSelection.t) : option string :=
  match FileSelection.uri file with
  | Some u => Uri.fsPath u
  | None => None
  end.

(** The body shared by the two inner loops of [extractFilePaths]:
    [if (file.uri?.fsPath) files.add(file.uri.fsPath)]. *)
Definition addFile (files : JS.SetOfString) (file : FileSelection.t)
  : JS.SetOfString :=
  match fsPathOf file with
  | Some p => if JS.truthyString p then JS.Set_add files p else files
  | None => files
  end.

(** [ctx?.fileSelections] *)
Definition fileSelectionsOf (ctx : option ComposerContext.t)
  : option (list FileSelection.t) :=
  match ctx with
  | Some c => ComposerContext.fileSelections c
  | None => None
  end.

Definition extractFilePaths (composer : ComposerChat.t) : list string :=
  let files : JS.SetOfString := [] in
  (* From main context *)
  let files :=
    match fileSelectionsOf (ComposerChat.context composer) with
    | Some selections => JS.forEach selections addFile files
    | None => files
    end in
  (* From conversation messages *)
  let files :=
    match ComposerChat.conversation composer with
    | Some conversation =>
        JS.forEach conversation
          (fun files msg =>
             match fileSelectionsOf (ComposerMessage.context msg) with
             | Some selections => JS.forEach selections addFile files
             | None => files
             end)
          files
    | None => files
    end in
  JS.Array_from files.

(** The [context] object built for one composer message. *)
Definition composerMessageContext (ctx : option ComposerContext.t)
  : ExportedContext.t :=
  match ctx with
  | None => ExportedContext.empty
  | Some c =>
      ExportedContext.mk
        (option_map
           (fun l => JS.filterBoolean (map Selection.text l))
           (ComposerContext.selections c))
        (option_map
           (fun l =>
              flat_map
                (fun f =>
                   match fsPathOf f with
                   | Some p => if JS.truthyString p then [p] else []
                   | None => []
                   end) l)
           (ComposerContext.fileSelections c))
        (option_map (map FolderSelection.path)
           (ComposerContext.folderSelections c))
        (option_map
           (map (fun d => Doc.mk (Doc.title d) (Doc.content d)))
           (ComposerContext.selectedDocs c))
        (option_map
           (map (fun c' => Commit.mk (Commit.hash c') (Commit.message c')))
           (ComposerContext.selectedCommits c))
  end.

(** The object pushed for one composer message. *)
Definition composerMessage (msg : ComposerMessage.t) : Try.t ExportedMessage.t :=
  formattedTimestamp <- formatTimestamp (ComposerMessage.timestamp msg) ;;
  Try.Returns
    (ExportedMessage.mk
       (ComposerMessage.bubbleId msg)
       (if JS.strictEqualsOne (ComposerMessage.type msg)
        then "user" else "assistant")
       (ComposerMessage.text msg)
       (ComposerMessage.timestamp msg)
       formattedTimestamp
       (Some (composerMessageContext (ComposerMessage.context msg)))
       (Some (ExportedMetadata.mk None (Some (ComposerMessage.bubbleId msg))))).

(** [messages.reduce((sum, m) => sum + m.content.length, 0)] *)
Definition totalLength (messages : list ExportedMessage.t) : nat :=
  fold_left
    (fun sum m => (sum + String.length (ExportedMessage.content m))%nat)
    messages 0%nat.

(** [messages.length > 0 ? reduce(...) / messages.length : 0] *)
Definition avgLength (messages : list ExportedMessage.t) : Q :=
  if (0 <? length messages)%nat
  then (inject_Z (Z.of_nat (totalLength messages))
        / inject_Z (Z.of_nat (length messages)))%Q
  else 0%Q.

Definition roleIs (r : string) (m : ExportedMessage.t) : bool :=
  String.eqb (ExportedMessage.role m) r.

(** [composer.context?.selections] *)
Definition selectionsOf (ctx : option ComposerContext.t)
  : option (list Selection.t) :=
  match ctx with
  | Some c => ComposerContext.selections c
  | None => None
  end.

(** [allFiles.length > 0 ||
     (composer.context?.selections && composer.context.selections.length > 0)]:
    when no file is referenced the value is that of the parenthesis, which
    is [undefined] when the thread has no context or no selection list. *)
Definition composerHasCodeContext (allFiles : list string)
  (composer : ComposerChat.t) : option bool :=
  if (0 <? length allFiles)%nat then Some true
  else
    match selectionsOf (ComposerChat.context composer) with
    | Some selections => Some (0 <? length selections)%nat
    | None => None
    end.

Definition processComposerChat (composer : ComposerChat.t)
  (workspaceId : string) (workspaceFolder : option string)
  : Try.t ExportedConversation.t :=
  let messages : list ExportedMessage.t := [] in
  (* Process conversation messages *)
  messages <-
    match ComposerChat.conversation composer with
    | Some conversation =>
        if (0 <? length conversation)%nat
        then Try.forEach conversation
               (fun messages msg =>
                  message <- composerMessage msg ;;
                  Try.Returns (JS.push messages message))
               messages
        else Try.Returns messages
    | None => Try.Returns messages
    end ;;
  let userMessages := filter (roleIs "user") messages in
  let assistantMessages := filter (roleIs "assistant") messages in
  let allFiles := extractFilePaths composer in
  let hasCodeContext := composerHasCodeContext allFiles composer in
  let avgLength := avgLength messages in
  formattedCreatedAt <- formatTimestamp (ComposerChat.createdAt composer) ;;
  formattedLastUpdatedAt <-
    formatTimestamp (ComposerChat.lastUpdatedAt composer) ;;
  Try.Returns
    (ExportedConversation.mk
       (ComposerChat.composerId composer)
       "composer"
       (JS.orString (ComposerChat.name composer) "Untitled")
       messages
       (ComposerChat.createdAt composer)
       (ComposerChat.lastUpdatedAt composer)
       formattedCreatedAt
       formattedLastUpdatedAt
       (WorkspaceRef.mk workspaceId workspaceFolder)
       (Summary.mk
          (length messages)
          (length userMessages)
          (length assistantMessages)
          hasCodeContext
          allFiles
          (JS.Math_round avgLength))).

(** [bubble.selections?.map(s => s.text).filter(Boolean)] *)
Definition bubbleCodeSelections (bubble : ChatBubble.t)
  : option (list string) :=
  option_map (fun l => JS.filterBoolean (map Selection.text l))
    (ChatBubble.selections bubble).

(** [b.selections && b.selections.length > 0], as [some] coerces it. *)
Definition bubbleHasSelections (b : ChatBubble.t) : bool :=
  match ChatBubble.selections b with
  | Some selections => (0 <? length selections)%nat
  | None => false
  end.

(** The object pushed for the bubble at [index], whose text is [text]. *)
Definition bubbleMessage (chatTab : ChatTab.t) (timestamp : Z)
  (bubble : ChatBubble.t) (index : nat) (text : string)
  : Try.t ExportedMessage.t :=
  formattedTimestamp <- formatTimestamp (timestamp + Z.of_nat index * 1000) ;;
  Try.Returns
    (ExportedMessage.mk
       (ChatTab.id chatTab ++ "-" ++ JS.indexToString index)
       (if JS.strictEqualsStr (ChatBubble.type bubble) "ai"
        then "assistant" else "user")
       text
       (timestamp + Z.of_nat index * 1000) (* Approximate timestamps *)
       formattedTimestamp
       (Some (ExportedContext.mk (bubbleCodeSelections bubble)
                None None None None))
       (Some (ExportedMetadata.mk (ChatBubble.modelType bubble) None))).

(** The callback of [chatTab.bubbles.forEach((bubble, index) => ...)]:
    [if (bubble.text) messages.push({...})]. *)
Definition pushBubble (chatTab : ChatTab.t) (timestamp : Z)
  (messages : list ExportedMessage.t) (bubble : ChatBubble.t) (index : nat)
  : Try.t (list ExportedMessage.t) :=
  match ChatBubble.text bubble with
  | Some text =>
      if JS.truthyString text
      then message <- bubbleMessage chatTab timestamp bubble index text ;;
           Try.Returns (JS.push messages message)
      else Try.Returns messages
  | None => Try.Returns messages
  end.

(** [new Date(chatTab.timestamp).getTime()] is the identity on a time
    value. On any other number it is [NaN], and so is every timestamp
    computed from it: the first [formatTimestamp] throws, that of a
    message or else that of [formattedCreatedAt]. *)
Definition processChatTab (chatTab : ChatTab.t)
  (workspaceId : string) (workspaceFolder : option string)
  : Try.t ExportedConversation.t :=
  let messages : list ExportedMessage.t := [] in
  match JS.getTime (ChatTab.timestamp chatTab) with
  | None => Try.Throws
  | Some timestamp =>
      (* Process chat bubbles *)
      messages <-
        Try.forEachIndexed (ChatTab.bubbles chatTab)
          (pushBubble chatTab timestamp) messages ;;
      let userMessages := filter (roleIs "user") messages in
      let assistantMessages := filter (roleIs "assistant") messages in
      let hasCodeContext :=
        existsb bubbleHasSelections (ChatTab.bubbles chatTab) in
      let avgLength := avgLength messages in
      formattedCreatedAt <- formatTimestamp timestamp ;;
      formattedLastUpdatedAt <- formatTimestamp timestamp ;;
      Try.Returns
        (ExportedConversation.mk
           (ChatTab.id chatTab)
           "chat"
           (ChatTab.title chatTab)
           messages
           timestamp
           timestamp
           formattedCreatedAt
           formattedLastUpdatedAt
           (WorkspaceRef.mk workspaceId workspaceFolder)
           (Summary.mk
              (length messages)
              (length userMessages)
              (length assistantMessages)
              (Some hasCodeContext)
              []
              (JS.Math_round avgLength)))
  end.

Definition GET
  : Z -> ExportHandler.Request -> Disk.t -> ExportHandler.Response :=
  ExportHandler.GET processComposerChat processChatTab.

End ExportRoute.

(** ** The [better-sqlite3] revision of the export route

    The second copy of [route.ts] in the repository. Its interfaces,
    [formatTimestamp], [extractFilePaths] and [processComposerChat] are
    the same text as in [ExportRoute]; [processChatTab] differs. *)

Module ExportRouteBetterSqlite.

Local Open Scope try_scope.

Definition formatTimestamp : Z -> Try.t string := ExportRoute.formatTimestamp.

Definition extractFilePaths : ComposerChat.t -> list string :=
  ExportRoute.extractFilePaths.

Definition processComposerChat
  : ComposerChat.t -> string -> option string -> Try.t ExportedConversation.t :=
  ExportRoute.processComposerChat.

(** The object pushed for the bubble at [index], whose text is [text]. *)
Definition bubbleMessage (chatTab : ChatTab.t) (timestamp : Z)
  (bubble : ChatBubble.t) (index : nat) (text : string)
  : Try.t ExportedMessage.t :=
  formattedTimestamp <-
    formatTimestamp
      (JS.orNumber (ChatBubble.timestamp bubble)
         (timestamp + Z.of_nat index * 1000)) ;;
  Try.Returns
    (ExportedMessage.mk
       (ChatTab.id chatTab ++ "-" ++ JS.indexToString index)
       (if JS.strictEqualsStr (ChatBubble.type bubble) "ai"
        then "assistant" else "user")
       text
       (JS.orNumber (ChatBubble.timestamp bubble)
          (timestamp + Z.of_nat index * 1000))
       formattedTimestamp
       (Some ExportedContext.empty)
       (Some (ExportedMetadata.mk None None))).

(** The callback of [chatTab.bubbles.forEach((bubble, index) => ...)]:
    [if (bubble.text) messages.push({...})]. *)
Definition pushBubble (chatTab : ChatTab.t) (timestamp : Z)
  (messages : list ExportedMessage.t) (bubble : ChatBubble.t) (index : nat)
  : Try.t (list ExportedMessage.t) :=
  match ChatBubble.text bubble with
  | Some text =>
      if JS.truthyString text
      then message <- bubbleMessage chatTab timestamp bubble index text ;;
           Try.Returns (JS.push messages message)
      else Try.Returns messages
  | None => Try.Returns messages
  end.

Definition processChatTab (chatTab : ChatTab.t)
  (workspaceId : string) (workspaceFolder : option string)
  : Try.t ExportedConversation.t :=
  let messages : list ExportedMessage.t := [] in
  let timestamp := ChatTab.timestamp chatTab in
  (* Process chat bubbles *)
  messages <-
    Try.forEachIndexed (ChatTab.bubbles chatTab)
      (pushBubble chatTab timestamp) messages ;;
  let userMessages := filter (ExportRoute.roleIs "user") messages in
  let assistantMessages := filter (ExportRoute.roleIs "assistant") messages in
  let avgLength := ExportRoute.avgLength messages in
  formattedCreatedAt <- formatTimestamp timestamp ;;
  formattedLastUpdatedAt <- formatTimestamp timestamp ;;
  Try.Returns
    (ExportedConversation.mk
       (ChatTab.id chatTab)
       "chat"
       (ChatTab.title chatTab)
       messages
       timestamp
       timestamp
       formattedCreatedAt
       formattedLastUpdatedAt
       (WorkspaceRef.mk workspaceId workspaceFolder)
       (Summary.mk
          (length messages)
          (length userMessages)
          (length assistantMessages)
          (Some false)
          []
          (JS.Math_round avgLength))).

Definition GET
  : Z -> ExportHandler.Request -> Disk.t -> ExportHandler.Response :=
  ExportHandler.GET processComposerChat processChatTab.

End ExportRouteBetterSqlite.

(** ** What the normalisers return

    A normaliser throws only where it formats a timestamp. [Returned]
    and [ReturnedBetterSqlite] are the normalisers with every formatted
    timestamp taken as the text of its time value: the message and the
    conversation a normaliser returns, whenever it returns. *)

Module Returned.

Definition composerMessage (msg : ComposerMessage.t) : ExportedMessage.t :=
  ExportedMessage.mk
    (ComposerMessage.bubbleId msg)
    (if JS.strictEqualsOne (ComposerMessage.type msg)
     then "user" else "assistant")
    (ComposerMessage.text msg)
    (ComposerMessage.timestamp msg)
    (JS.isoString (ComposerMessage.timestamp msg))
    (Some (ExportRoute.composerMessageContext (ComposerMessage.context msg)))
    (Some (ExportedMetadata.mk None (Some (ComposerMessage.bubbleId msg)))).

Definition processComposerChat (composer : ComposerChat.t)
  (workspaceId : string) (workspaceFolder : option string)
  : ExportedConversation.t :=
  let messages : list ExportedMessage.t := [] in
  let messages :=
    match ComposerChat.conversation composer with
    | Some conversation =>
        if (0 <? length conversation)%nat
        then JS.forEach conversation
               (fun messages msg => JS.push messages (composerMessage msg))
               messages
        else messages
    | None => messages
    end in
  let userMessages := filter (ExportRoute.roleIs "user") messages in
  let assistantMessages := filter (ExportRoute.roleIs "assistant") messages in
  let allFiles := ExportRoute.extractFilePaths composer in
  let hasCodeContext := ExportRoute.composerHasCodeContext allFiles composer in
  let avgLength := ExportRoute.avgLength messages in
  ExportedConversation.mk
    (ComposerChat.composerId composer)
    "composer"
    (JS.orString (ComposerChat.name composer) "Untitled")
    messages
    (ComposerChat.createdAt composer)
    (ComposerChat.lastUpdatedAt composer)
    (JS.isoString (ComposerChat.createdAt composer))
    (JS.isoString (ComposerChat.lastUpdatedAt composer))
    (WorkspaceRef.mk workspaceId workspaceFolder)
    (Summary.mk
       (length messages)
       (length userMessages)
       (length assistantMessages)
       hasCodeContext
       allFiles
       (JS.Math_round avgLength)).

Definition bubbleMessage (chatTab : ChatTab.t) (timestamp : Z)
  (bubble : ChatBubble.t) (index : nat) (text : string) : ExportedMessage.t :=
  ExportedMessage.mk
    (ChatTab.id chatTab ++ "-" ++ JS.indexToString index)
    (if JS.strictEqualsStr (ChatBubble.type bubble) "ai"
     then "assistant" else "user")
    text
    (timestamp + Z.of_nat index * 1000)
    (JS.isoString (timestamp + Z.of_nat index * 1000))
    (Some (ExportedContext.mk (ExportRoute.bubbleCodeSelections bubble)
             None None None None))
    (Some (ExportedMetadata.mk (ChatBubble.modelType bubble) None)).

Definition pushBubble (chatTab : ChatTab.t) (timestamp : Z)
  (messages : list ExportedMessage.t) (bubble : ChatBubble.t) (index : nat)
  : list ExportedMessage.t :=
  match ChatBubble.text bubble with
  | Some text =>
      if JS.truthyString text
      then JS.push messages (bubbleMessage chatTab timestamp bubble index text)
      else messages
  | None => messages
  end.

Definition processChatTab (chatTab : ChatTab.t)
  (workspaceId : string) (workspaceFolder : option string)
  : ExportedConversation.t :=
  let messages : list ExportedMessage.t := [] in
  let timestamp := ChatTab.timestamp chatTab in
  let messages :=
    JS.forEachIndexed (ChatTab.bubbles chatTab)
      (pushBubble chatTab timestamp) messages in
  let userMessages := filter (ExportRoute.roleIs "user") messages in
  let assistantMessages := filter (ExportRoute.roleIs "assistant") messages in
  let hasCodeContext :=
    existsb ExportRoute.bubbleHasSelections (ChatTab.bubbles chatTab) in
  let avgLength := ExportRoute.avgLength messages in
  ExportedConversation.mk
    (ChatTab.id chatTab)
    "chat"
    (ChatTab.title chatTab)
    messages
    timestamp
    timestamp
    (JS.isoString timestamp)
    (JS.isoString timestamp)
    (WorkspaceRef.mk workspaceId workspaceFolder)
    (Summary.mk
       (length messages)
       (length userMessages)
       (length assistantMessages)
       (Some hasCodeContext)
       []
       (JS.Math_round avgLength)).

End Returned.

Module ReturnedBetterSqlite.

Definition bubbleMessage (chatTab : ChatTab.t) (timestamp : Z)
  (bubble : ChatBubble.t) (index : nat) (text : string) : ExportedMessage.t :=
  ExportedMessage.mk
    (ChatTab.id chatTab ++ "-" ++ JS.indexToString index)
    (if JS.strictEqualsStr (ChatBubble.type bubble) "ai"
     then "assistant" else "user")
    text
    (JS.orNumber (ChatBubble.timestamp bubble)
       (timestamp + Z.of_nat index * 1000))
    (JS.isoString
       (JS.orNumber (ChatBubble.timestamp bubble)
          (timestamp + Z.of_nat index * 1000)))
    (Some ExportedContext.empty)
    (Some (ExportedMetadata.mk None None)).

Definition pushBubble (chatTab : ChatTab.t) (timestamp : Z)
  (messages : list ExportedMessage.t) (bubble : ChatBubble.t) (index : nat)
  : list ExportedMessage.t :=
  match ChatBubble.text bubble with
  | Some text =>
      if JS.truthyString text
      then JS.push messages (bubbleMessage chatTab timestamp bubble index text)
      else messages
  | None => messages
  end.

Definition processChatTab (chatTab : ChatTab.t)
  (workspaceId : string) (workspaceFolder : option string)
  : ExportedConversation.t :=
  let messages : list ExportedMessage.t := [] in
  let timestamp := ChatTab.timestamp chatTab in
  let messages :=
    JS.forEachIndexed (ChatTab.bubbles chatTab)
      (pushBubble chatTab timestamp) messages in
  let userMessages := filter (ExportRoute.roleIs "user") messages in
  let assistantMessages := filter (ExportRoute.roleIs "assistant") messages in
  let avgLength := ExportRoute.avgLength messages in
  ExportedConversation.mk
    (ChatTab.id chatTab)
    "chat"
    (ChatTab.title chatTab)
    messages
    timestamp
    timestamp
    (JS.isoString timestamp)
    (JS.isoString timestamp)
    (WorkspaceRef.mk workspaceId workspaceFolder)
    (Summary.mk
       (length messages)
       (length userMessages)
       (length assistantMessages)
       (Some false)
       []
       (JS.Math_round avgLength)).

End ReturnedBetterSqlite.

(** ** [src/app/api/conversations/[id]/route.ts] *)

Module ConversationRoute.

(** The path segment [params.id] and the query string. *)
Record Request : Type := mkRequest {
  id : string;
  workspaceIdParam : option string;
  typeParam : option string
}.

(** The [conversation] of a success body: the entry found in the store,
    handed back as it was parsed. *)
Inductive Conversation : Type :=
| Composer (composer : ComposerChat.t)
| Chat (chat : ChatTab.t).

Record Metadata : Type := mkMetadata {
  metaId : string;
  metaType : string;
  metaWorkspaceId : string
}.

Inductive Response : Type :=
| Ok (conversation : Conversation) (metadata : Metadata)
| BadRequest (error : string)
| NotFound (error : string)
| InternalServerError.

(** [c.composerId === params.id] *)
Definition matchesComposer (id : string) (c : ComposerChat.t) : bool :=
  String.eqb (ComposerChat.composerId c) id.

(** [t.tabId === params.id] *)
Definition matchesTab (id : string) (t : ChatTab.t) : bool :=
  match ChatTab.tabId t with
  | Some tabId => String.eqb tabId id
  | None => false
  end.

(** [if (!Array.isArray(composer.conversation)) composer.conversation = []] *)
Definition ensureConversation (composer : ComposerChat.t) : ComposerChat.t :=
  match ComposerChat.conversation composer with
  | Some _ => composer
  | None =>
      ComposerChat.mk
        (ComposerChat.composerId composer)
        (ComposerChat.name composer)
        (ComposerChat.createdAt composer)
        (ComposerChat.lastUpdatedAt composer)
        (Some [])
        (ComposerChat.context composer)
  end.

Local Open Scope try_scope.

(** The two branches on [type] inside the [try]; [Returns None] is the
    fall-through to the final 404. *)
Definition search (db : Disk.StoreFile) (type id workspaceId : string)
  : Try.t (option (Conversation * Metadata)) :=
  if String.eqb type "composer" then
    (* Get composer from state.vscdb *)
    result <- Try.get db Disk.composerData ;;
    match result with
    | Some value =>
        data <- Try.JSON_parse value ;;
        allComposers <- Try.required (ComposerData.allComposers data) ;;
        match find (matchesComposer id) allComposers with
        | Some composer =>
            (* Ensure conversation array exists *)
            let composer := ensureConversation composer in
            Try.Returns
              (Some (Composer composer,
                     mkMetadata (ComposerChat.composerId composer)
                       "composer" workspaceId))
        | None => Try.Returns None
        end
    | None => Try.Returns None
    end
  else if String.eqb type "chat" then
    result <- Try.get db Disk.chatdata ;;
    match result with
    | Some value =>
        data <- Try.JSON_parse value ;;
        tabs <- Try.required (ChatData.tabs data) ;;
        match find (matchesTab id) tabs with
        | Some chat =>
            Try.Returns
              (Some (Chat chat,
                     mkMetadata
                       (match ChatTab.tabId chat with
                        | Some tabId => tabId
                        | None => ""
                        end)
                       "chat" workspaceId))
        | None => Try.Returns None
        end
    | None => Try.Returns None
    end
  else Try.Returns None.

Definition GET (request : Request) (disk : Disk.Volume) : Response :=
  match workspaceIdParam request, typeParam request with
  | Some workspaceId, Some type =>
      if negb (JS.truthyString workspaceId) || negb (JS.truthyString type)
      then BadRequest "Missing required parameters"
      else if negb (String.eqb type "chat") && negb (String.eqb type "composer")
      then BadRequest "Invalid type"
      else
        match Disk.stateVscdbOf disk workspaceId with
        | None => NotFound "Workspace not found"
        | Some file =>
            match (db <- Try.openStore file ;;
                   search db type (id request) workspaceId) with
            | Try.Returns (Some (conversation, metadata)) =>
                Ok conversation metadata
            | Try.Returns None => NotFound "Conversation not found"
            | Try.Throws => InternalServerError
            end
        end
  | _, _ => BadRequest "Missing required parameters"
  end.

End ConversationRoute.

(** ** Response bodies as JSON

    [NextResponse.json] serialises the body with [JSON.stringify]; two
    bodies are the same bytes exactly when they are the same tree of
    keys and values in the same order. A property whose value is
    [undefined] is left out. *)

Module Json.

#[warnings="-register-all"]
Inductive t : Type :=
| null
| bool (b : Datatypes.bool)
| number (z : Z)
| string (s : String.string)
| array (items : list t)
| object (properties : list (String.string * t)).

Definition property {A : Type} (key : String.string) (render : A -> t)
  (value : option A) : list (String.string * t) :=
  match value with
  | Some a => [(key, render a)]
  | None => []
  end.

Definition always {A : Type} (key : String.string) (render : A -> t)
  (value : A) : list (String.string * t) :=
  [(key, render value)].

Definition strings (l : list String.string) : t := array (map string l).

Definition ofNat (n : nat) : t := number (Z.of_nat n).

Definition ofDoc (d : Doc.t) : t :=
  object [("title", string (Doc.title d)); ("content", string (Doc.content d))].

Definition ofCommit (c : Commit.t) : t :=
  object [("hash", string (Commit.hash c));
          ("message", string (Commit.message c))].

Definition ofSelection (s : Selection.t) : t :=
  object [("text", string (Selection.text s))].

Definition ofUri (u : Uri.t) : t :=
  object (property "fsPath" string (Uri.fsPath u)).

Definition ofFileSelection (f : FileSelection.t) : t :=
  object (property "uri" ofUri (FileSelection.uri f)).

Definition ofFolderSelection (f : FolderSelection.t) : t :=
  object [("path", string (FolderSelection.path f))].

Definition listOf {A : Type} (render : A -> t) (l : list A) : t :=
  array (map render l).

Definition ofValue (key : String.string) (v : JS.value)
  : list (String.string * t) :=
  match v with
  | JS.undefined => []
  | JS.null => [(key, null)]
  | JS.boolean b => [(key, bool b)]
  | JS.number z => [(key, number z)]
  | JS.str s => [(key, string s)]
  end.

(** *** The raw records, as stored *)

Definition ofComposerContext (c : ComposerContext.t) : t :=
  object
    (property "selections" (listOf ofSelection) (ComposerContext.selections c)
     ++ property "fileSelections" (listOf ofFileSelection)
          (ComposerContext.fileSelections c)
     ++ property "folderSelections" (listOf ofFolderSelection)
          (ComposerContext.folderSelections c)
     ++ property "selectedDocs" (listOf ofDoc) (ComposerContext.selectedDocs c)
     ++ property "selectedCommits" (listOf ofCommit)
          (ComposerContext.selectedCommits c)).

Definition ofComposerMessage (m : ComposerMessage.t) : t :=
  object
    (always "bubbleId" string (ComposerMessage.bubbleId m)
     ++ ofValue "type" (ComposerMessage.type m)
     ++ always "text" string (ComposerMessage.text m)
     ++ always "timestamp" number (ComposerMessage.timestamp m)
     ++ property "context" ofComposerContext (ComposerMessage.context m)).

Definition ofComposerChat (c : ComposerChat.t) : t :=
  object
    (always "composerId" string (ComposerChat.composerId c)
     ++ property "name" string (ComposerChat.name c)
     ++ always "createdAt" number (ComposerChat.createdAt c)
     ++ always "lastUpdatedAt" number (ComposerChat.lastUpdatedAt c)
     ++ property "conversation" (listOf ofComposerMessage)
          (ComposerChat.conversation c)
     ++ property "context" ofComposerContext (ComposerChat.context c)).

Definition ofChatBubble (b : ChatBubble.t) : t :=
  object
    (ofValue "type" (ChatBubble.type b)
     ++ property "text" string (ChatBubble.text b)
     ++ property "timestamp" number (ChatBubble.timestamp b)
     ++ property "selections" (listOf ofSelection) (ChatBubble.selections b)
     ++ property "modelType" string (ChatBubble.modelType b)).

Definition ofChatTab (c : ChatTab.t) : t :=
  object
    (always "id" string (ChatTab.id c)
     ++ property "tabId" string (ChatTab.tabId c)
     ++ always "title" string (ChatTab.title c)
     ++ always "timestamp" number (ChatTab.timestamp c)
     ++ always "bubbles" (listOf ofChatBubble) (ChatTab.bubbles c)).

(** *** The export format *)

Definition ofExportedContext (c : ExportedContext.t) : t :=
  object
    (property "codeSelections" strings (ExportedContext.codeSelections c)
     ++ property "files" strings (ExportedContext.files c)
     ++ property "folders" strings (ExportedContext.folders c)
     ++ property "docs" (listOf ofDoc) (ExportedContext.docs c)
     ++ property "commits" (listOf ofCommit) (ExportedContext.commits c)).

Definition ofExportedMetadata (m : ExportedMetadata.t) : t :=
  object
    (property "modelType" string (ExportedMetadata.modelType m)
     ++ property "bubbleId" string (ExportedMetadata.bubbleId m)).

Definition ofExportedMessage (m : ExportedMessage.t) : t :=
  object
    (always "id" string (ExportedMessage.id m)
     ++ always "role" string (ExportedMessage.role m)
     ++ always "content" string (ExportedMessage.content m)
     ++ always "timestamp" number (ExportedMessage.timestamp m)
     ++ always "formattedTimestamp" string
          (ExportedMessage.formattedTimestamp m)
     ++ property "context" ofExportedContext (ExportedMessage.context m)
     ++ property "metadata" ofExportedMetadata (ExportedMessage.metadata m)).

Definition ofWorkspaceRef (w : WorkspaceRef.t) : t :=
  object
    (always "id" string (WorkspaceRef.id w)
     ++ property "folder" string (WorkspaceRef.folder w)).

Definition ofSummary (s : Summary.t) : t :=
  object
    (always "messageCount" ofNat (Summary.messageCount s)
     ++ always "userMessageCount" ofNat (Summary.userMessageCount s)
     ++ always "assistantMessageCount" ofNat
          (Summary.assistantMessageCount s)
     ++ property "hasCodeContext" bool (Summary.hasCodeContext s)
     ++ always "filesReferenced" strings (Summary.filesReferenced s)
     ++ always "averageMessageLength" number
          (Summary.averageMessageLength s)).

Definition ofExportedConversation (c : ExportedConversation.t) : t :=
  object
    (always "id" string (ExportedConversation.id c)
     ++ always "type" string (ExportedConversation.type c)
     ++ always "title" string (ExportedConversation.title c)
     ++ always "messages" (listOf ofExportedMessage)
          (ExportedConversation.messages c)
     ++ always "createdAt" number (ExportedConversation.createdAt c)
     ++ always "lastUpdatedAt" number (ExportedConversation.lastUpdatedAt c)
     ++ always "formattedCreatedAt" string
          (ExportedConversation.formattedCreatedAt c)
     ++ always "formattedLastUpdatedAt" string
          (ExportedConversation.formattedLastUpdatedAt c)
     ++ always "workspace" ofWorkspaceRef (ExportedConversation.workspace c)
     ++ always "summary" ofSummary (ExportedConversation.summary c)).

(** The [conversation] property of a lookup body. *)
Definition ofLookupConversation (c : ConversationRoute.Conversation) : t :=
  match c with
  | ConversationRoute.Composer composer => ofComposerChat composer
  | ConversationRoute.Chat chat => ofChatTab chat
  end.

End Json.

(** ** Vocabulary of the properties *)

Module Spec.

(** The canonical conversations: what the normalisers of the two export
    routes return. *)
Inductive Canonical : ExportedConversation.t -> Prop :=
| fromComposer (composer : ComposerChat.t) (workspaceId : string)
    (workspaceFolder : option string) (c : ExportedConversation.t) :
    ExportRoute.processComposerChat composer workspaceId workspaceFolder
    = Try.Returns c ->
    Canonical c
| fromChatTab (chatTab : ChatTab.t) (workspaceId : string)
    (workspaceFolder : option string) (c : ExportedConversation.t) :
    ExportRoute.processChatTab chatTab workspaceId workspaceFolder
    = Try.Returns c ->
    Canonical c
| fromChatTabBetterSqlite (chatTab : ChatTab.t) (workspaceId : string)
    (workspaceFolder : option string) (c : ExportedConversation.t) :
    ExportRouteBetterSqlite.processChatTab chatTab workspaceId workspaceFolder
    = Try.Returns c ->
    Canonical c.

(** The raw messages of a thread, none when it has no message list. *)
Definition conversationOf (composer : ComposerChat.t)
  : list ComposerMessage.t :=
  match ComposerChat.conversation composer with
  | Some conversation => conversation
  | None => []
  end.

(** The elements of a list with their zero-based positions. *)
Fixpoint indexedFrom {A : Type} (index : nat) (l : list A) : list (nat * A) :=
  match l with
  | [] => []
  | x :: l' => (index, x) :: indexedFrom (S index) l'
  end.

Definition hasText (p : nat * ChatBubble.t) : bool :=
  JS.truthyOptString (ChatBubble.text (snd p)).

(** The bubbles of a tab that have a non-empty text, with their
    positions among all the bubbles of the tab. *)
Definition keptBubbles (chatTab : ChatTab.t) : list (nat * ChatBubble.t) :=
  filter hasText (indexedFrom 0 (ChatTab.bubbles chatTab)).

Definition textOf (bubble : ChatBubble.t) : string :=
  match ChatBubble.text bubble with
  | Some text => text
  | None => ""
  end.

(** Every timestamp the normaliser formats is a time value: for a
    thread those of its messages, [createdAt] and [lastUpdatedAt]; for a
    tab its own timestamp and the one given to each bubble that has a
    text. *)
Definition datableThread (composer : ComposerChat.t) : bool :=
  forallb (fun msg => JS.isTimeValue (ComposerMessage.timestamp msg))
    (conversationOf composer)
  && JS.isTimeValue (ComposerChat.createdAt composer)
  && JS.isTimeValue (ComposerChat.lastUpdatedAt composer).

Definition datableTab (chatTab : ChatTab.t) : bool :=
  JS.isTimeValue (ChatTab.timestamp chatTab)
  && forallb
       (fun p =>
          JS.isTimeValue (ChatTab.timestamp chatTab + Z.of_nat (fst p) * 1000))
       (keptBubbles chatTab).

Definition datableTabBetterSqlite (chatTab : ChatTab.t) : bool :=
  JS.isTimeValue (ChatTab.timestamp chatTab)
  && forallb
       (fun p =>
          JS.isTimeValue
            (JS.orNumber (ChatBubble.timestamp (snd p))
               (ChatTab.timestamp chatTab + Z.of_nat (fst p) * 1000)))
       (keptBubbles chatTab).

(** The closed set of roles. *)
Definition closedRole (m : ExportedMessage.t) : Prop :=
  ExportedMessage.role m = "user" \/ ExportedMessage.role m = "assistant".

(** The file paths a context refers to, as the normaliser lists them in
    the [files] of a message context: the [fsPath] of every file
    selection that has a non-empty one. *)
Definition contextFiles (ctx : option ComposerContext.t) : list string :=
  match ExportedContext.files (ExportRoute.composerMessageContext ctx) with
  | Some files => files
  | None => []
  end.

(** Sum of the content lengths of a message list. *)
Definition contentLength (messages : list ExportedMessage.t) : Z :=
  Z.of_nat
    (list_sum
       (map (fun m => String.length (ExportedMessage.content m)) messages)).

(** [k] is [sum / n] rounded to the nearest integer, a tie going up:
    [k - 1/2 <= sum / n < k + 1/2]. *)
Definition roundsHalfUp (sum n k : Z) : Prop :=
  (2 * k - 1) * n <= 2 * sum < (2 * k + 1) * n.

(** Scenario A of the specification: a thread of two messages. *)
Definition scenarioA : ComposerChat.t :=
  ComposerChat.mk "thread-a" None 100 200
    (Some [ComposerMessage.mk "m1" (JS.number 1) "Hi" 100 None;
           ComposerMessage.mk "m2" (JS.number 2) "Hello" 200 None])
    None.

(** Scenario B of the specification: a tab anchored at 1000 whose second
    bubble alone has a timestamp of its own. *)
Definition scenarioB : ChatTab.t :=
  ChatTab.mk "tab-b" None "Scenario B" 1000
    [ChatBubble.mk (JS.str "user") (Some "one") None None None;
     ChatBubble.mk (JS.str "ai") (Some "two") (Some 5000) None None;
     ChatBubble.mk (JS.str "user") (Some "three") None None None].

(** One pass of [fileSelections.forEach(...)] of [extractFilePaths],
    over the file selections of an optional context. *)
Definition addContext (files : JS.SetOfString) (ctx : option ComposerContext.t)
  : JS.SetOfString :=
  match ExportRoute.fileSelectionsOf ctx with
  | Some selections => JS.forEach selections ExportRoute.addFile files
  | None => files
  end.

(** *** Chat timestamps, as the specification states them *)

(** A bubble's own timestamp when it has one, and otherwise the anchor
    plus 1000 ms per position. *)
Definition explicitOrOffset (anchor : Z) (p : nat * ChatBubble.t) : Z :=
  match ChatBubble.timestamp (snd p) with
  | Some t => t
  | None => anchor + Z.of_nat (fst p) * 1000
  end.

Definition timestampRule
  (normalize
     : ChatTab.t -> string -> option string -> Try.t ExportedConversation.t)
  : Prop :=
  forall chatTab ws folder c,
    normalize chatTab ws folder = Try.Returns c ->
    map ExportedMessage.timestamp (ExportedConversation.messages c)
    = map (explicitOrOffset (ChatTab.timestamp chatTab)) (keptBubbles chatTab).

(** A tab anchored at 1000 whose only bubble carries the timestamp 0. *)
Definition zeroStamped : ChatTab.t :=
  ChatTab.mk "tab-z" None "Epoch" 1000
    [ChatBubble.mk (JS.str "user") (Some "one") (Some 0) None None].

(** *** Code context, as the specification states it *)

Definition threadSelections (composer : ComposerChat.t) : list Selection.t :=
  match ExportRoute.selectionsOf (ComposerChat.context composer) with
  | Some selections => selections
  | None => []
  end.

(** The condition for a composer conversation [c] normalised from
    [composer]. *)
Definition composerCodeContext (composer : ComposerChat.t)
  (c : ExportedConversation.t) : Prop :=
  Summary.filesReferenced (ExportedConversation.summary c) <> []
  \/ threadSelections composer <> [].

(** The condition for a chat tab. *)
Definition chatCodeContext (chatTab : ChatTab.t) : Prop :=
  exists bubble selections,
    In bubble (ChatTab.bubbles chatTab)
    /\ ChatBubble.selections bubble = Some selections
    /\ selections <> [].

(** [hasCodeContext] is a boolean, true exactly under [condition]. *)
Definition hasCodeContextRule (condition : Prop) (c : ExportedConversation.t)
  : Prop :=
  exists b : bool,
    Summary.hasCodeContext (ExportedConversation.summary c) = Some b
    /\ (b = true <-> condition).

(** A thread with no context and no message list. *)
Definition bareThread : ComposerChat.t :=
  ComposerChat.mk "thread-0" None 100 100 None None.

(** A tab whose only bubble carries one selection. *)
Definition tabWithSelection : ChatTab.t :=
  ChatTab.mk "tab-s" None "Selection" 1000
    [ChatBubble.mk (JS.str "user") (Some "explain this") None
       (Some [Selection.mk "let x = 1"]) None].

(** *** Bulk export *)

(** A request without query parameters: both kinds are included. *)
Definition fullRequest : ExportHandler.Request :=
  ExportHandler.mkRequest None None.

Section Conversations.

Variable processComposerChat
  : ComposerChat.t -> string -> option string -> Try.t ExportedConversation.t.
Variable processChatTab
  : ChatTab.t -> string -> option string -> Try.t ExportedConversation.t.

(** A composer row the handler cannot use: malformed JSON, JSON without
    an [allComposers] array, or a thread the normaliser throws on. *)
Definition composerRowFails (name : string) (folder : option string)
  (row : option (Disk.Blob ComposerData.t)) : bool :=
  match row with
  | Some Disk.Malformed => true
  | Some (Disk.Parsed data) =>
      match ComposerData.allComposers data with
      | Some composers =>
          existsb
            (fun composer =>
               Try.throws (processComposerChat composer name folder))
            composers
      | None => true
      end
  | None => false
  end.

(** A chat row the handler cannot use: malformed JSON, or a tab the
    normaliser throws on. *)
Definition chatRowFails (name : string) (folder : option string)
  (row : option (Disk.Blob ChatData.t)) : bool :=
  match row with
  | Some Disk.Malformed => true
  | Some (Disk.Parsed data) =>
      match ChatData.tabs data with
      | Some tabs =>
          existsb (fun tab => Try.throws (processChatTab tab name folder)) tabs
      | None => false
      end
  | None => false
  end.

(** A workspace that makes the export fail: its store cannot be opened;
    or a kind is requested and the store is no database; or the row of a
    requested kind cannot be used. Entries that are no directory and
    directories without a store are not among them. *)
Definition entryFails (includeChats includeComposers : bool)
  (entry : Disk.Dirent) : bool :=
  match entry with
  | Disk.Directory _ (Some Disk.Unreadable) _ => true
  | Disk.Directory _ (Some Disk.NotADatabase) _ =>
      includeComposers || includeChats
  | Disk.Directory name (Some (Disk.Readable db)) workspaceJson =>
      let folder := ExportHandler.readWorkspaceFolder workspaceJson in
      (includeComposers && composerRowFails name folder (Disk.composerData db))
      || (includeChats && chatRowFails name folder (Disk.chatdata db))
  | _ => false
  end.

Definition composerConversations (name : string) (folder : option string)
  (row : option (Disk.Blob ComposerData.t)) : list ExportedConversation.t :=
  match row with
  | Some (Disk.Parsed data) =>
      match ComposerData.allComposers data with
      | Some composers =>
          Try.returned
            (map (fun composer => processComposerChat composer name folder)
               composers)
      | None => []
      end
  | _ => []
  end.

Definition chatConversations (name : string) (folder : option string)
  (row : option (Disk.Blob ChatData.t)) : list ExportedConversation.t :=
  match row with
  | Some (Disk.Parsed data) =>
      match ChatData.tabs data with
      | Some tabs =>
          Try.returned (map (fun tab => processChatTab tab name folder) tabs)
      | None => []
      end
  | _ => []
  end.

(** The conversations of one workspace, threads before tabs. *)
Definition entryConversations (includeChats includeComposers : bool)
  (entry : Disk.Dirent) : list ExportedConversation.t :=
  match entry with
  | Disk.Directory name (Some (Disk.Readable db)) workspaceJson =>
      let folder := ExportHandler.readWorkspaceFolder workspaceJson in
      (if includeComposers
       then composerConversations name folder (Disk.composerData db)
       else [])
      ++ (if includeChats
          then chatConversations name folder (Disk.chatdata db)
          else [])
  | _ => []
  end.

End Conversations.

(** The claim of partial-failure tolerance: whenever the directory can
    be listed the export succeeds. *)
Definition succeedsWheneverListed
  (GET : Z -> ExportHandler.Request -> Disk.t -> ExportHandler.Response)
  : Prop :=
  forall now request entries,
    exists exportData,
      GET now request (Some entries) = ExportHandler.Ok exportData.

(** Non-increasing [lastUpdatedAt]. *)
Definition notOlder (a b : ExportedConversation.t) : Prop :=
  ExportedConversation.lastUpdatedAt b <= ExportedConversation.lastUpdatedAt a.

(** The conversations of a list updated at [t], in the order of the list. *)
Definition updatedAt (t : Z) (l : list ExportedConversation.t)
  : list ExportedConversation.t :=
  filter (fun c => ExportedConversation.lastUpdatedAt c =? t) l.

(** Two workspaces. The first holds the thread of scenario A (updated at
    200), a thread updated at 1000 and the tab of scenario B (anchored at
    1000); the second holds a thread updated at 200. *)
Definition threadC : ComposerChat.t :=
  ComposerChat.mk "thread-c" (Some "Refactor") 900 1000
    (Some [ComposerMessage.mk "m1" (JS.number 1) "Rename it" 950 None])
    None.

Definition threadD : ComposerChat.t :=
  ComposerChat.mk "thread-d" None 150 200 None None.

Definition workspaceA : Disk.Dirent :=
  Disk.Directory "ws-a"
    (Some (Disk.Readable
             (Disk.mkStore
                (Some (Disk.Parsed (ComposerData.mk (Some [scenarioA; threadC]))))
                (Some (Disk.Parsed (ChatData.mk (Some [scenarioB])))))))
    (Some (Disk.Parsed (Disk.mkWorkspaceJson (Some "/home/dev/project")))).

Definition workspaceB : Disk.Dirent :=
  Disk.Directory "ws-b"
    (Some (Disk.Readable
             (Disk.mkStore
                (Some (Disk.Parsed (ComposerData.mk (Some [threadD]))))
                None)))
    None.

Definition sampleDisk : Disk.t := Some [workspaceA; workspaceB].

(** A workspace whose composer row is not JSON. *)
Definition workspaceBroken : Disk.Dirent :=
  Disk.Directory "ws-broken"
    (Some (Disk.Readable (Disk.mkStore (Some Disk.Malformed) None)))
    None.

Definition brokenEntries : list Disk.Dirent := [workspaceBroken; workspaceB].

(** What the sqlite3 route answers for [sampleDisk] at time 0. *)
Definition sampleExport : ExportData.t :=
  ExportData.mk "1970-01-01T00:00:00.000Z" 0 4 6
    [Returned.processComposerChat threadC "ws-a" (Some "/home/dev/project");
     Returned.processChatTab scenarioB "ws-a" (Some "/home/dev/project");
     Returned.processComposerChat scenarioA "ws-a" (Some "/home/dev/project");
     Returned.processComposerChat threadD "ws-b" None]
    (ExportMetadata.mk "1.0.0" "cursor-chat-browser"
       "Exported conversation data for semantic search and pattern analysis").

(** *** Lookup of an exported conversation *)

(** The lookup request for an exported conversation: its id, its type
    and the id of its workspace. *)
Definition lookupRequestFor (c : ExportedConversation.t)
  : ConversationRoute.Request :=
  ConversationRoute.mkRequest
    (ExportedConversation.id c)
    (Some (WorkspaceRef.id (ExportedConversation.workspace c)))
    (Some (ExportedConversation.type c)).

(** The lookup of [c] succeeds and answers with the id of [c]. *)
Definition roundTrips (disk : Disk.Volume) (c : ExportedConversation.t)
  : Prop :=
  exists conversation metadata,
    ConversationRoute.GET (lookupRequestFor c) disk
    = ConversationRoute.Ok conversation metadata
    /\ ConversationRoute.metaId metadata = ExportedConversation.id c.

(** A directory listing: the names are distinct, and each is a plain
    name. *)
Definition listing (entries : list Disk.Dirent) : Prop :=
  NoDup (map Disk.nameOf entries)
  /\ Forall (fun entry => Path.plain (Disk.nameOf entry)) entries.

(** Every stored tab carries a [tabId] equal to its [id]. *)
Definition tabIdsAgree (entries : list Disk.Dirent) : Prop :=
  forall name db workspaceJson data tabs tab,
    In (Disk.Directory name (Some (Disk.Readable db)) workspaceJson) entries ->
    Disk.chatdata db = Some (Disk.Parsed data) ->
    ChatData.tabs data = Some tabs ->
    In tab tabs ->
    ChatTab.tabId tab = Some (ChatTab.id tab).

(** The body of a lookup and a canonical conversation are the same
    bytes. *)
Definition sameShape (conversation : ConversationRoute.Conversation)
  (c : ExportedConversation.t) : Prop :=
  Json.ofLookupConversation conversation = Json.ofExportedConversation c.

(** A thread whose context and whose messages name the same file. *)
Definition threadWithSharedFile : ComposerChat.t :=
  let selected (p : string) :=
    FileSelection.mk (Some (Uri.mk (Some p))) in
  let context (paths : list string) :=
    Some (ComposerContext.mk None (Some (map selected paths)) None None None) in
  ComposerChat.mk "thread-f" None 100 300
    (Some [ComposerMessage.mk "m1" (JS.number 1) "Fix it" 100
             (context ["/src/b.ts"; "/src/a.ts"]);
           ComposerMessage.mk "m2" (JS.number 2) "Done" 200
             (context ["/src/a.ts"; "/src/c.ts"; ""])])
    (context ["/src/a.ts"]).

End Spec.

(** ** More of the runtime: thrown values, [fetch], JSON values *)

Module Runtime.

(** What a [catch] clause receives: an [Error] object with its message,
    which is a [TypeError] or not, or a value that is no [Error]. *)
Inductive Thrown : Type :=
| Error (isTypeError : bool) (message : string)
| NotAnError.

Inductive Outcome (A : Type) : Type :=
| Throws (thrown : Thrown)
| Returns (a : A).
Arguments Throws {A} thrown.
Arguments Returns {A} a.

Definition bind {A B : Type} (c : Outcome A) (k : A -> Outcome B)
  : Outcome B :=
  match c with
  | Throws thrown => Throws thrown
  | Returns a => k a
  end.

(** [s.includes(sub)] *)
Definition includes (s sub : string) : bool :=
  match String.index 0 sub s with
  | Some _ => true
  | None => false
  end.

(** [s.split(c)[0]]: the part of [s] before the first [c]. *)
Fixpoint beforeFirst (c : Ascii.ascii) (s : string) : string :=
  match s with
  | EmptyString => EmptyString
  | String a s' => if Ascii.eqb a c then EmptyString else String a (beforeFirst c s')
  end.

(** [b.toString()] *)
Definition booleanToString (b : bool) : string :=
  if b then "true" else "false".

(** Truthiness of a JSON value. *)
Definition truthy (v : Json.t) : bool :=
  match v with
  | Json.null => false
  | Json.bool b => b
  | Json.number z => negb (z =? 0)
  | Json.string s => JS.truthyString s
  | Json.array _ => true
  | Json.object _ => true
  end.

(** The value of a property in a list of properties with distinct keys. *)
Definition lookup (key : string) (properties : list (string * Json.t))
  : option Json.t :=
  option_map snd (find (fun p => String.eqb (fst p) key) properties).

(** [v.key] for a parsed JSON value [v] and a key that is no built-in
    property: a [TypeError] on [null], the property of an object,
    [undefined] on anything else. *)
Definition getProperty (v : Json.t) (key : string)
  : Outcome (option Json.t) :=
  match v with
  | Json.null => Throws (Error true "Cannot read properties of null")
  | Json.object properties => Returns (lookup key properties)
  | _ => Returns None
  end.

(** [x || fallback] for an optional JSON value and a string literal. *)
Definition orFallback (x : option Json.t) (fallback : string) : Json.t :=
  match x with
  | Some v => if truthy v then v else Json.string fallback
  | None => Json.string fallback
  end.

(** Assignment to a property: in place when the key exists, at the end
    otherwise. *)
Fixpoint setProperty (key : string) (v : Json.t)
  (properties : list (string * Json.t)) : list (string * Json.t) :=
  match properties with
  | [] => [(key, v)]
  | (k, x) :: rest =>
      if String.eqb k key then (k, v) :: rest
      else (k, x) :: setProperty key v rest
  end.

(** The own enumerable properties a spread copies. *)
Definition ownProperties (v : Json.t) : list (string * Json.t) :=
  match v with
  | Json.object properties => properties
  | Json.array items =>
      map (fun p => (JS.indexToString (fst p), snd p)) (Spec.indexedFrom 0 items)
  | Json.string s =>
      map (fun p => (JS.indexToString (fst p),
                     Json.string (String (snd p) EmptyString)))
        (Spec.indexedFrom 0 (list_ascii_of_string s))
  | _ => []
  end.

(** [{ ...base, ...v }] on property lists, in the order of assignment
    (the runtime lists the keys that are array indices first). *)
Definition spread (base : list (string * Json.t)) (v : Json.t)
  : list (string * Json.t) :=
  fold_left (fun properties p => setProperty (fst p) (snd p) properties)
    (ownProperties v) base.

End Runtime.

(** ** [src/app/export/page.tsx] *)

Module ExportPage.
Section Page.

(** The parsed body of a response ([any] in the page). *)
Variable Data : Type.

(** The three pieces of state of [ExportPage], and the files the page
    has made the browser download. *)
Record State : Type := mkState {
  isExporting : bool;
  exportData : option Data;
  error : option string;
  downloads : list (string * Data)
}.

(** What the page reads of a response. *)
Record Response : Type := mkResponse {
  ok : bool;
  json : Runtime.Outcome Data
}.

(** [new URLSearchParams({ includeChats: includeChats.toString(),
    includeComposers: includeComposers.toString() })], as the query the
    export route receives. *)
Definition params (includeChats includeComposers : bool)
  : ExportHandler.Request :=
  ExportHandler.mkRequest
    (Some (Runtime.booleanToString includeChats))
    (Some (Runtime.booleanToString includeComposers)).

(** [`cursor-conversations-${new Date().toISOString().split('T')[0]}.json`]
    at the clock reading [now], whose date is valid. *)
Definition downloadName (now : Z) : string :=
  ("cursor-conversations-"
   ++ Runtime.beforeFirst "T"%char (JS.isoString now) ++ ".json")%string.

(** [handleExport]: [fetch] is the server behind [/api/export], [now]
    the clock at the time of the download. The calls on the document
    that make the browser save the file do not throw. *)
Definition handleExport (now : Z)
  (fetch : ExportHandler.Request -> Runtime.Outcome Response)
  (includeChats includeComposers : bool) (page : State) : State :=
  (* setIsExporting(true); setError(null) *)
  let page :=
    mkState true (exportData page) None (downloads page) in
  let attempt : Runtime.Outcome State :=
    Runtime.bind (fetch (params includeChats includeComposers))
      (fun response =>
         if negb (ok response)
         then Runtime.Throws (Runtime.Error false "Export failed")
         else
           Runtime.bind (json response)
             (fun data =>
                (* setExportData(data), then the download *)
                Runtime.Returns
                  (mkState (isExporting page) (Some data) (error page)
                     (downloads page ++ [(downloadName now, data)])))) in
  let page :=
    match attempt with
    | Runtime.Returns page' => page'
    | Runtime.Throws err =>
        mkState (isExporting page) (exportData page)
          (Some (match err with
                 | Runtime.Error _ message => message
                 | Runtime.NotAnError => "Export failed"
                 end))
          (downloads page)
    end in
  (* finally *)
  mkState false (exportData page) (error page) (downloads page).

End Page.

Arguments mkState {Data}.
Arguments isExporting {Data}.
Arguments exportData {Data}.
Arguments error {Data}.
Arguments downloads {Data}.
Arguments mkResponse {Data}.
Arguments ok {Data}.
Arguments json {Data}.
Arguments handleExport {Data}.

(** The body of an answer of the export route. *)
Inductive Body : Type :=
| Exported (exportData : ExportData.t)
| Failure (error : string).

(** The export route behind [fetch]: 200 with the export, or 500 with
    [{ error: 'Failed to export data' }]. *)
Definition served
  (GET : Z -> ExportHandler.Request -> Disk.t -> ExportHandler.Response)
  (serverNow : Z) (disk : Disk.t) (request : ExportHandler.Request)
  : Runtime.Outcome (Response Body) :=
  match GET serverNow request disk with
  | ExportHandler.Ok exportData =>
      Runtime.Returns
        (mkResponse true (Runtime.Returns (Exported exportData)))
  | ExportHandler.InternalServerError =>
      Runtime.Returns
        (mkResponse false (Runtime.Returns (Failure "Failed to export data")))
  end.

(** The page before any export. *)
Definition initial : State Body := mkState false None None [].

End ExportPage.

(** ** The routes in front of the Python backend

    The semantic search route ([POST]), the index route ([POST],
    [DELETE]) and the health route ([GET]) forward to the backend with
    [fetch] and answer with [NextResponse.json]. *)

Module BackendProxy.

(** [process.env.PYTHON_BACKEND_URL || 'http://localhost:8000'] *)
Definition PYTHON_BACKEND_URL (env : option string) : string :=
  JS.orString env "http://localhost:8000".

(** A call of [fetch] and what comes back. *)
Record Call : Type := mkCall {
  url : string;
  method : string;
  body : option Json.t
}.

Record Response : Type := mkResponse {
  status : nat;
  json : Runtime.Outcome Json.t
}.

(** [response.ok] *)
Definition ok (response : Response) : bool :=
  (200 <=? status response)%nat && (status response <=? 299)%nat.

Definition Fetch : Type := Call -> Runtime.Outcome Response.

(** An answer of a route. *)
Record Answer : Type := mkAnswer {
  answerStatus : nat;
  answerBody : Json.t
}.

(** [NextResponse.json(body, { status })]: a [RangeError] for a status
    outside 200 to 599, a [TypeError] for a status that admits no body. *)
Definition NextResponse_json (body : Json.t) (status : nat)
  : Runtime.Outcome Answer :=
  if (status <? 200)%nat || (599 <? status)%nat
  then Runtime.Throws
         (Runtime.Error false "status must be in the range of 200 to 599")
  else if existsb (Nat.eqb status) [204; 205; 304]%nat
  then Runtime.Throws
         (Runtime.Error true "Invalid response status code")
  else Runtime.Returns (mkAnswer status body).

(** The [catch] of the two [POST] handlers. *)
Definition unavailableOr500 (env : option string) (thrown : Runtime.Thrown)
  : Answer :=
  match thrown with
  | Runtime.Error true message =>
      (* Check if Python backend is running *)
      if Runtime.includes message "fetch" then
        mkAnswer 503
          (Json.object
             [("error", Json.string "Python backend not available");
              ("message",
               Json.string
                 ("Make sure the Python backend is running at "
                  ++ PYTHON_BACKEND_URL env));
              ("hint", Json.string "Run: cd python-backend && python app.py")])
      else
        mkAnswer 500
          (Json.object [("error", Json.string "Internal server error")])
  | _ =>
      mkAnswer 500
        (Json.object [("error", Json.string "Internal server error")])
  end.

(** What the three forwarding handlers do with the response of the
    backend: the error of a response that is not ok is answered with its
    status and [error.detail || fallback], the body of an ok response is
    answered as it is. *)
Definition relay (fallback : string) (response : Response)
  : Runtime.Outcome Answer :=
  if negb (ok response) then
    Runtime.bind (json response) (fun error =>
    Runtime.bind (Runtime.getProperty error "detail") (fun detail =>
    NextResponse_json
      (Json.object [("error", Runtime.orFallback detail fallback)])
      (status response)))
  else
    Runtime.bind (json response) (fun results =>
    Runtime.Returns (mkAnswer 200 results)).

(** [POST] of the semantic search route; [requestJson] is
    [await request.json()]. *)
Definition searchPOST (env : option string)
  (requestJson : Runtime.Outcome Json.t) (fetch : Fetch) : Answer :=
  match
    Runtime.bind requestJson (fun body =>
    Runtime.bind
      (fetch (mkCall (PYTHON_BACKEND_URL env ++ "/search") "POST" (Some body)))
      (relay "Search failed"))
  with
  | Runtime.Returns answer => answer
  | Runtime.Throws thrown => unavailableOr500 env thrown
  end.

(** [POST] of the index route. *)
Definition indexPOST (env : option string)
  (requestJson : Runtime.Outcome Json.t) (fetch : Fetch) : Answer :=
  match
    Runtime.bind requestJson (fun exportData =>
    (* Forward to Python backend for indexing *)
    Runtime.bind
      (fetch (mkCall (PYTHON_BACKEND_URL env ++ "/index") "POST"
                (Some (Json.object [("export_data", exportData)]))))
      (relay "Indexing failed"))
  with
  | Runtime.Returns answer => answer
  | Runtime.Throws thrown => unavailableOr500 env thrown
  end.

(** [DELETE] of the index route. *)
Definition indexDELETE (env : option string) (fetch : Fetch) : Answer :=
  match
    Runtime.bind
      (fetch (mkCall (PYTHON_BACKEND_URL env ++ "/index") "DELETE" None))
      (relay "Clear index failed")
  with
  | Runtime.Returns answer => answer
  | Runtime.Throws _ =>
      mkAnswer 500
        (Json.object [("error", Json.string "Internal server error")])
  end.

(** [GET] of the health route. *)
Definition healthGET (env : option string) (fetch : Fetch) : Answer :=
  match
    Runtime.bind
      (fetch (mkCall (PYTHON_BACKEND_URL env ++ "/health") "GET" None))
      (fun response =>
         if negb (ok response) then
           NextResponse_json
             (Json.object
                [("available", Json.bool false);
                 ("error", Json.string "Backend returned error")])
             (status response)
         else
           Runtime.bind (json response) (fun health =>
           Runtime.Returns
             (mkAnswer 200
                (Json.object
                   (Runtime.spread [("available", Json.bool true)] health)))))
  with
  | Runtime.Returns answer => answer
  | Runtime.Throws _ =>
      mkAnswer 200
        (Json.object
           [("available", Json.bool false);
            ("error", Json.string "Backend not reachable");
            ("backend_url", Json.string (PYTHON_BACKEND_URL env));
            ("hint",
             Json.string "Start with: cd python-backend && python app.py")])
  end.

End BackendProxy.

(** ** Vocabulary of the further properties *)

Module Vocabulary.

(** The elements of a list in the order of their first occurrence. *)
Fixpoint firstOccurrences (l : list string) : list string :=
  match l with
  | [] => []
  | x :: l' =>
      x :: filter (fun y => negb (String.eqb x y)) (firstOccurrences l')
  end.

(** Every mention of a file in a thread: those of the thread-level
    context, then those of each message in turn. *)
Definition fileMentions (composer : ComposerChat.t) : list string :=
  Spec.contextFiles (ComposerChat.context composer)
  ++ flat_map (fun msg => Spec.contextFiles (ComposerMessage.context msg))
       (Spec.conversationOf composer).

(** The [files] and the [codeSelections] of an exported message. *)
Definition filesOf (m : ExportedMessage.t) : list string :=
  match ExportedMessage.context m with
  | Some context =>
      match ExportedContext.files context with
      | Some files => files
      | None => []
      end
  | None => []
  end.

Definition codeSelectionsOf (m : ExportedMessage.t) : list string :=
  match ExportedMessage.context m with
  | Some context =>
      match ExportedContext.codeSelections context with
      | Some selections => selections
      | None => []
      end
  | None => []
  end.

(** An entry that is a directory holding a [state.vscdb]. *)
Definition hasStore (entry : Disk.Dirent) : bool :=
  match entry with
  | Disk.Directory _ (Some _) _ => true
  | _ => false
  end.

(** The same entry with the chat row, respectively the composer row, of
    its store removed. *)
Definition withoutChatRow (entry : Disk.Dirent) : Disk.Dirent :=
  match entry with
  | Disk.Directory name (Some (Disk.Readable db)) workspaceJson =>
      Disk.Directory name
        (Some (Disk.Readable (Disk.mkStore (Disk.composerData db) None)))
        workspaceJson
  | _ => entry
  end.

Definition withoutComposerRow (entry : Disk.Dirent) : Disk.Dirent :=
  match entry with
  | Disk.Directory name (Some (Disk.Readable db)) workspaceJson =>
      Disk.Directory name
        (Some (Disk.Readable (Disk.mkStore None (Disk.chatdata db))))
        workspaceJson
  | _ => entry
  end.

(** The request of the page's "Composer only" button. *)
Definition composerOnlyRequest : ExportHandler.Request :=
  ExportHandler.mkRequest (Some "false") (Some "true").

(** A listing with a stray file, a workspace without a store, a
    workspace whose chat row is not JSON and the two sample workspaces. *)
Definition workspaceEmpty : Disk.Dirent :=
  Disk.Directory "ws-empty" None
    (Some (Disk.Parsed (Disk.mkWorkspaceJson (Some "/tmp/empty")))).

Definition workspaceBadChat : Disk.Dirent :=
  Disk.Directory "ws-bad-chat"
    (Some (Disk.Readable
             (Disk.mkStore
                (Some (Disk.Parsed (ComposerData.mk (Some [Spec.threadD]))))
                (Some Disk.Malformed))))
    (Some Disk.Malformed).

Definition mixedEntries : list Disk.Dirent :=
  [Disk.File "notes.txt"; workspaceEmpty; Spec.workspaceA; workspaceBadChat].

(** The same entry with a chat row that parses but has no [tabs]
    removed. *)
Definition withoutTablessChatRow (entry : Disk.Dirent) : Disk.Dirent :=
  match entry with
  | Disk.Directory name (Some (Disk.Readable db)) workspaceJson =>
      match Disk.chatdata db with
      | Some (Disk.Parsed data) =>
          match ChatData.tabs data with
          | None =>
              Disk.Directory name
                (Some (Disk.Readable (Disk.mkStore (Disk.composerData db) None)))
                workspaceJson
          | Some _ => entry
          end
      | _ => entry
      end
  | _ => entry
  end.

(** A status in the range of [response.ok]. *)
Definition successful (status : nat) : Prop := (200 <= status <= 299)%nat.

(** The backend answered [call] with an ok response whose body is the
    JSON value [results]. *)
Definition answeredWith (fetch : BackendProxy.Fetch) (call : BackendProxy.Call)
  (results : Json.t) : Prop :=
  exists status,
    fetch call
    = Runtime.Returns (BackendProxy.mkResponse status (Runtime.Returns results))
    /\ successful status.

(** The calls the four handlers make. *)
Definition searchCall (env : option string) (body : Json.t)
  : BackendProxy.Call :=
  BackendProxy.mkCall
    (BackendProxy.PYTHON_BACKEND_URL env ++ "/search") "POST" (Some body).

Definition indexCall (env : option string) (exportData : Json.t)
  : BackendProxy.Call :=
  BackendProxy.mkCall
    (BackendProxy.PYTHON_BACKEND_URL env ++ "/index") "POST"
    (Some (Json.object [("export_data", exportData)])).

Definition clearCall (env : option string) : BackendProxy.Call :=
  BackendProxy.mkCall
    (BackendProxy.PYTHON_BACKEND_URL env ++ "/index") "DELETE" None.

Definition healthCall (env : option string) : BackendProxy.Call :=
  BackendProxy.mkCall
    (BackendProxy.PYTHON_BACKEND_URL env ++ "/health") "GET" None.

(** The properties of the body of an answer. *)
Definition answerProperties (answer : BackendProxy.Answer)
  : list (string * Json.t) :=
  match BackendProxy.answerBody answer with
  | Json.object properties => properties
  | _ => []
  end.

(** A backend nothing listens at, and one that rejects a query. *)
Definition unreachable : BackendProxy.Fetch :=
  fun _ => Runtime.Throws (Runtime.Error true "fetch failed").

Definition rejecting : BackendProxy.Fetch :=
  fun _ =>
    Runtime.Returns
      (BackendProxy.mkResponse 422
         (Runtime.Returns
            (Json.object [("detail", Json.string "query must not be empty")]))).

Definition healthy : BackendProxy.Fetch :=
  fun _ =>
    Runtime.Returns
      (BackendProxy.mkResponse 200
         (Runtime.Returns
            (Json.object [("status", Json.string "healthy");
                          ("indexed", Json.number 42)]))).

(** The [detail] of the error body of the backend, when it has a
    truthy one. *)
Definition detailOf (error : Json.t) : option Json.t :=
  match error with
  | Json.object properties =>
      match Runtime.lookup "detail" properties with
      | Some detail => if Runtime.truthy detail then Some detail else None
      | None => None
      end
  | _ => None
  end.

(** [answer] passes on the error of the backend: its status, and as
    [error] its detail or else the handler's own message. *)
Definition passesOn (status : nat) (error : Json.t) (fallback : string)
  (answer : BackendProxy.Answer) : Prop :=
  BackendProxy.answerStatus answer = status
  /\ BackendProxy.answerBody answer
     = Json.object
         [("error",
           match detailOf error with
           | Some detail => detail
           | None => Json.string fallback
           end)].

(** The keys of the properties of a JSON value are distinct. *)
Definition distinctKeys (v : Json.t) : Prop :=
  NoDup (map fst (Runtime.ownProperties v)).

(** The request that leaves both kinds out. *)
Definition nothingRequested : ExportHandler.Request :=
  ExportHandler.mkRequest (Some "false") (Some "false").

(** A workspace whose [state.vscdb] is no database, and a workspace
    with a thread created at a number that is no time value. *)
Definition workspaceNotADatabase : Disk.Dirent :=
  Disk.Directory "ws-text" (Some Disk.NotADatabase) None.

Definition threadOutOfRange : ComposerChat.t :=
  ComposerChat.mk "thread-x" None 8640000000000001 200 None None.

Definition workspaceOutOfRange : Disk.Dirent :=
  Disk.Directory "ws-x"
    (Some (Disk.Readable
             (Disk.mkStore
                (Some (Disk.Parsed (ComposerData.mk (Some [threadOutOfRange]))))
                None)))
    None.

(** A tab of four bubbles, the second without a text, none with a
    timestamp of its own other than 0. *)
Definition unstampedTab : ChatTab.t :=
  ChatTab.mk "tab-u" None "Unstamped" 1000
    [ChatBubble.mk (JS.str "user") (Some "one") None None None;
     ChatBubble.mk (JS.str "ai") None None None None;
     ChatBubble.mk (JS.str "ai") (Some "three") (Some 0) None None;
     ChatBubble.mk (JS.str "user") (Some "four") None None None].

(** [c] is the conversation an export route makes, in the workspace
    [name], of the entry a lookup handed back. *)
Definition exportedFrom (conversation : ConversationRoute.Conversation)
  (name : string) (folder : option string) (c : ExportedConversation.t)
  : Prop :=
  match conversation with
  | ConversationRoute.Composer composer =>
      ExportRoute.processComposerChat composer name folder = Try.Returns c
  | ConversationRoute.Chat chat =>
      ExportRoute.processChatTab chat name folder = Try.Returns c
      \/ ExportRouteBetterSqlite.processChatTab chat name folder
         = Try.Returns c
  end.

(** The query parameter of the export that switches a kind. *)
Definition kindParam (type : string) (request : ExportHandler.Request)
  : option string :=
  if String.eqb type "composer"
  then ExportHandler.includeComposersParam request
  else ExportHandler.includeChatsParam request.

(** Every thread and every tab stored in [entries] whose kind is
    included, in a listed directory with a readable store, has its
    conversation in [conversations]. *)
Definition includesTheKinds
  (processComposerChat
     : ComposerChat.t -> string -> option string -> Try.t ExportedConversation.t)
  (processChatTab
     : ChatTab.t -> string -> option string -> Try.t ExportedConversation.t)
  (includeChats includeComposers : bool) (entries : list Disk.Dirent)
  (conversations : list ExportedConversation.t) : Prop :=
  forall name db workspaceJson,
    In (Disk.Directory name (Some (Disk.Readable db)) workspaceJson) entries ->
    let folder := ExportHandler.readWorkspaceFolder workspaceJson in
    (includeComposers = true ->
     forall data composers composer,
       Disk.composerData db = Some (Disk.Parsed data) ->
       ComposerData.allComposers data = Some composers ->
       In composer composers ->
       exists c,
         processComposerChat composer name folder = Try.Returns c
         /\ In c conversations)
    /\ (includeChats = true ->
        forall data tabs tab,
          Disk.chatdata db = Some (Disk.Parsed data) ->
          ChatData.tabs data = Some tabs ->
          In tab tabs ->
          exists c,
            processChatTab tab name folder = Try.Returns c
            /\ In c conversations).

End Vocabulary.

(** * Properties *)

(** ** Loops as list functions *)

Lemma forEach_push {A B : Type} (f : A -> B) (xs : list A) (acc : list B) :
  JS.forEach xs (fun acc x => JS.push acc (f x)) acc = acc ++ map f xs.
Proof.
  unfold JS.forEach, JS.push.
  revert acc; induction xs as [|x xs IH]; intros acc; simpl.
  - now rewrite app_nil_r.
  - rewrite IH, <- app_assoc. reflexivity.
Qed.

Lemma composer_messages (composer : ComposerChat.t) (ws : string)
  (folder : option string) :
  ExportedConversation.messages
    (Returned.processComposerChat composer ws folder)
  = map Returned.composerMessage (Spec.conversationOf composer).
Proof.
  unfold Returned.processComposerChat, Spec.conversationOf; simpl.
  destruct (ComposerChat.conversation composer) as [conversation|]; [|reflexivity].
  destruct conversation as [|msg rest]; [reflexivity|].
  change (0 <? length (msg :: rest))%nat with true; cbv iota.
  now rewrite forEach_push.
Qed.

Section ChatLoop.

Variable bubbleMessage : ChatBubble.t -> nat -> string -> ExportedMessage.t.
Variable pushBubble
  : list ExportedMessage.t -> ChatBubble.t -> nat -> list ExportedMessage.t.
Hypothesis pushBubble_eq : forall messages bubble index,
  pushBubble messages bubble index
  = if Spec.hasText (index, bubble)
    then messages ++ [bubbleMessage bubble index (Spec.textOf bubble)]
    else messages.

Lemma forEachFrom_pushBubble (bubbles : list ChatBubble.t) :
  forall (index : nat) (acc : list ExportedMessage.t),
  JS.forEachFrom index bubbles pushBubble acc
  = acc ++ map (fun p => bubbleMessage (snd p) (fst p) (Spec.textOf (snd p)))
             (filter Spec.hasText (Spec.indexedFrom index bubbles)).
Proof.
  induction bubbles as [|b bs IH]; intros index acc; simpl.
  - now rewrite app_nil_r.
  - rewrite IH, pushBubble_eq.
    destruct (Spec.hasText (index, b)); simpl.
    + now rewrite <- app_assoc.
    + reflexivity.
Qed.

End ChatLoop.

Lemma pushBubble_hasText (chatTab : ChatTab.t) (timestamp : Z)
  (messages : list ExportedMessage.t) (bubble : ChatBubble.t) (index : nat) :
  Returned.pushBubble chatTab timestamp messages bubble index
  = if Spec.hasText (index, bubble)
    then messages
         ++ [Returned.bubbleMessage chatTab timestamp bubble index
               (Spec.textOf bubble)]
    else messages.
Proof.
  unfold Returned.pushBubble, Spec.hasText, Spec.textOf, JS.push; simpl.
  destruct (ChatBubble.text bubble) as [text|]; reflexivity.
Qed.

Lemma pushBubble_betterSqlite_hasText (chatTab : ChatTab.t) (timestamp : Z)
  (messages : list ExportedMessage.t) (bubble : ChatBubble.t) (index : nat) :
  ReturnedBetterSqlite.pushBubble chatTab timestamp messages bubble index
  = if Spec.hasText (index, bubble)
    then messages
         ++ [ReturnedBetterSqlite.bubbleMessage chatTab timestamp bubble
               index (Spec.textOf bubble)]
    else messages.
Proof.
  unfold ReturnedBetterSqlite.pushBubble, Spec.hasText, Spec.textOf, JS.push.
  simpl. destruct (ChatBubble.text bubble) as [text|]; reflexivity.
Qed.

Lemma chat_messages (chatTab : ChatTab.t) (ws : string)
  (folder : option string) :
  ExportedConversation.messages (Returned.processChatTab chatTab ws folder)
  = map (fun p =>
           Returned.bubbleMessage chatTab (ChatTab.timestamp chatTab)
             (snd p) (fst p) (Spec.textOf (snd p)))
      (Spec.keptBubbles chatTab).
Proof.
  unfold Returned.processChatTab, JS.forEachIndexed, Spec.keptBubbles; simpl.
  now rewrite (forEachFrom_pushBubble _ _ (pushBubble_hasText chatTab _)).
Qed.

Lemma chat_messages_betterSqlite (chatTab : ChatTab.t) (ws : string)
  (folder : option string) :
  ExportedConversation.messages
    (ReturnedBetterSqlite.processChatTab chatTab ws folder)
  = map (fun p =>
           ReturnedBetterSqlite.bubbleMessage chatTab
             (ChatTab.timestamp chatTab) (snd p) (fst p) (Spec.textOf (snd p)))
      (Spec.keptBubbles chatTab).
Proof.
  unfold ReturnedBetterSqlite.processChatTab, JS.forEachIndexed,
    Spec.keptBubbles; simpl.
  now rewrite
    (forEachFrom_pushBubble _ _ (pushBubble_betterSqlite_hasText chatTab _)).
Qed.

(** ** When the normalisers return *)

Lemma forEach_guarded {A B : Type} (ok : A -> bool) (f : A -> Try.t B)
  (g : A -> B) (xs : list A) :
  (forall x, f x = if ok x then Try.Returns (g x) else Try.Throws) ->
  forall acc,
  Try.forEach xs
    (fun acc x => Try.bind (f x) (fun b => Try.Returns (JS.push acc b))) acc
  = if forallb ok xs
    then Try.Returns (JS.forEach xs (fun acc x => JS.push acc (g x)) acc)
    else Try.Throws.
Proof.
  intros Hf. unfold Try.forEach, JS.forEach.
  induction xs as [|x xs IH]; intros acc; cbn [Try.forOf forallb fold_left];
    [reflexivity|].
  rewrite Hf. destruct (ok x); cbn [Try.bind andb]; [apply IH|reflexivity].
Qed.

Lemma forallb_kept {A : Type} (keep ok : A -> bool) (l : list A) :
  forallb (fun x => negb (keep x) || ok x) l = forallb ok (filter keep l).
Proof.
  induction l as [|x l IH]; cbn [forallb filter]; [reflexivity|].
  destruct (keep x); cbn [negb orb forallb]; now rewrite IH.
Qed.

Lemma forEachFrom_guarded (ok : nat * ChatBubble.t -> bool)
  (attempt
     : list ExportedMessage.t -> ChatBubble.t -> nat
       -> Try.t (list ExportedMessage.t))
  (push : list ExportedMessage.t -> ChatBubble.t -> nat -> list ExportedMessage.t)
  (bubbles : list ChatBubble.t) :
  (forall messages bubble index,
     attempt messages bubble index
     = if negb (Spec.hasText (index, bubble)) || ok (index, bubble)
       then Try.Returns (push messages bubble index)
       else Try.Throws) ->
  forall index acc,
  Try.forEachFrom index bubbles attempt acc
  = if forallb ok (filter Spec.hasText (Spec.indexedFrom index bubbles))
    then Try.Returns (JS.forEachFrom index bubbles push acc)
    else Try.Throws.
Proof.
  intros Hattempt.
  induction bubbles as [|b bs IH]; intros index acc;
    cbn [Try.forEachFrom JS.forEachFrom Spec.indexedFrom filter forallb];
    [reflexivity|].
  rewrite Hattempt.
  destruct (Spec.hasText (index, b)); cbn [negb orb forallb].
  - destruct (ok (index, b)); cbn [Try.bind andb]; [apply IH|reflexivity].
  - cbn [Try.bind]. apply IH.
Qed.

Lemma composerMessage_spec (msg : ComposerMessage.t) :
  ExportRoute.composerMessage msg
  = if JS.isTimeValue (ComposerMessage.timestamp msg)
    then Try.Returns (Returned.composerMessage msg)
    else Try.Throws.
Proof.
  unfold ExportRoute.composerMessage, ExportRoute.formatTimestamp.
  destruct (JS.isTimeValue _); reflexivity.
Qed.

(** A thread is normalised exactly when every timestamp to format is a
    time value. *)
Lemma processComposerChat_spec (composer : ComposerChat.t) (ws : string)
  (folder : option string) :
  ExportRoute.processComposerChat composer ws folder
  = if Spec.datableThread composer
    then Try.Returns (Returned.processComposerChat composer ws folder)
    else Try.Throws.
Proof.
  unfold ExportRoute.processComposerChat, Returned.processComposerChat,
    Spec.datableThread, Spec.conversationOf, ExportRoute.formatTimestamp.
  destruct (ComposerChat.conversation composer) as [[|msg rest]|];
    cbn [length Nat.ltb Nat.leb forallb andb Try.bind];
    try (destruct (JS.isTimeValue (ComposerChat.createdAt composer));
         cbn [Try.bind andb]; [|reflexivity];
         destruct (JS.isTimeValue (ComposerChat.lastUpdatedAt composer));
         reflexivity).
  change (0 <? S (length rest))%nat with true. cbv iota.
  rewrite (forEach_guarded _ _ _ (msg :: rest) composerMessage_spec).
  cbn [forallb].
  destruct (JS.isTimeValue (ComposerMessage.timestamp msg) && forallb _ rest);
    cbn [Try.bind andb]; [|reflexivity].
  destruct (JS.isTimeValue (ComposerChat.createdAt composer));
    cbn [Try.bind andb]; [|reflexivity].
  destruct (JS.isTimeValue (ComposerChat.lastUpdatedAt composer)); reflexivity.
Qed.

Lemma pushBubble_spec (chatTab : ChatTab.t) (timestamp : Z)
  (messages : list ExportedMessage.t) (bubble : ChatBubble.t) (index : nat) :
  ExportRoute.pushBubble chatTab timestamp messages bubble index
  = if negb (Spec.hasText (index, bubble))
       || JS.isTimeValue (timestamp + Z.of_nat (fst (index, bubble)) * 1000)
    then Try.Returns (Returned.pushBubble chatTab timestamp messages bubble index)
    else Try.Throws.
Proof.
  unfold ExportRoute.pushBubble, Returned.pushBubble, Spec.hasText,
    JS.truthyOptString, ExportRoute.bubbleMessage, ExportRoute.formatTimestamp.
  cbn [fst snd].
  destruct (ChatBubble.text bubble) as [text|]; [|reflexivity].
  destruct (JS.truthyString text); cbn [negb orb]; [|reflexivity].
  destruct (JS.isTimeValue _); reflexivity.
Qed.

Lemma pushBubble_betterSqlite_spec (chatTab : ChatTab.t) (timestamp : Z)
  (messages : list ExportedMessage.t) (bubble : ChatBubble.t) (index : nat) :
  ExportRouteBetterSqlite.pushBubble chatTab timestamp messages bubble index
  = if negb (Spec.hasText (index, bubble))
       || JS.isTimeValue
            (JS.orNumber (ChatBubble.timestamp (snd (index, bubble)))
               (timestamp + Z.of_nat (fst (index, bubble)) * 1000))
    then Try.Returns
           (ReturnedBetterSqlite.pushBubble chatTab timestamp messages bubble
              index)
    else Try.Throws.
Proof.
  unfold ExportRouteBetterSqlite.pushBubble, ReturnedBetterSqlite.pushBubble,
    Spec.hasText, JS.truthyOptString, ExportRouteBetterSqlite.bubbleMessage,
    ExportRouteBetterSqlite.formatTimestamp, ExportRoute.formatTimestamp.
  cbn [fst snd].
  destruct (ChatBubble.text bubble) as [text|]; [|reflexivity].
  destruct (JS.truthyString text); cbn [negb orb]; [|reflexivity].
  destruct (JS.isTimeValue _); reflexivity.
Qed.

(** A tab is normalised exactly when every timestamp to format is a
    time value. *)
Lemma processChatTab_spec (chatTab : ChatTab.t) (ws : string)
  (folder : option string) :
  ExportRoute.processChatTab chatTab ws folder
  = if Spec.datableTab chatTab
    then Try.Returns (Returned.processChatTab chatTab ws folder)
    else Try.Throws.
Proof.
  unfold ExportRoute.processChatTab, Returned.processChatTab, Spec.datableTab,
    Spec.keptBubbles, JS.getTime, Try.forEachIndexed, JS.forEachIndexed,
    ExportRoute.formatTimestamp.
  destruct (JS.isTimeValue (ChatTab.timestamp chatTab)) eqn:Hanchor;
    cbn [andb]; [|reflexivity].
  rewrite (forEachFrom_guarded
             (fun p =>
                JS.isTimeValue
                  (ChatTab.timestamp chatTab + Z.of_nat (fst p) * 1000))
             _ _ _ (pushBubble_spec chatTab (ChatTab.timestamp chatTab))).
  destruct (forallb _ _); cbn [Try.bind]; [|reflexivity].
  rewrite Hanchor. reflexivity.
Qed.

Lemma processChatTab_betterSqlite_spec (chatTab : ChatTab.t) (ws : string)
  (folder : option string) :
  ExportRouteBetterSqlite.processChatTab chatTab ws folder
  = if Spec.datableTabBetterSqlite chatTab
    then Try.Returns (ReturnedBetterSqlite.processChatTab chatTab ws folder)
    else Try.Throws.
Proof.
  unfold ExportRouteBetterSqlite.processChatTab,
    ReturnedBetterSqlite.processChatTab, Spec.datableTabBetterSqlite,
    Spec.keptBubbles, Try.forEachIndexed, JS.forEachIndexed,
    ExportRouteBetterSqlite.formatTimestamp, ExportRoute.formatTimestamp.
  rewrite (forEachFrom_guarded
             (fun p =>
                JS.isTimeValue
                  (JS.orNumber (ChatBubble.timestamp (snd p))
                     (ChatTab.timestamp chatTab + Z.of_nat (fst p) * 1000)))
             _ _ _
             (pushBubble_betterSqlite_spec chatTab (ChatTab.timestamp chatTab))).
  destruct (JS.isTimeValue (ChatTab.timestamp chatTab)) eqn:Hanchor;
    destruct (forallb _ _); cbn [Try.bind andb]; reflexivity.
Qed.

(** What a normaliser returns is what [Returned] says. *)
Lemma processComposerChat_returns (composer : ComposerChat.t) (ws : string)
  (folder : option string) (c : ExportedConversation.t) :
  ExportRoute.processComposerChat composer ws folder = Try.Returns c ->
  c = Returned.processComposerChat composer ws folder.
Proof.
  rewrite processComposerChat_spec.
  destruct (Spec.datableThread composer); [|discriminate].
  intros H. now injection H.
Qed.

Lemma processChatTab_returns (chatTab : ChatTab.t) (ws : string)
  (folder : option string) (c : ExportedConversation.t) :
  ExportRoute.processChatTab chatTab ws folder = Try.Returns c ->
  c = Returned.processChatTab chatTab ws folder.
Proof.
  rewrite processChatTab_spec.
  destruct (Spec.datableTab chatTab); [|discriminate].
  intros H. now injection H.
Qed.

Lemma processChatTab_betterSqlite_returns (chatTab : ChatTab.t) (ws : string)
  (folder : option string) (c : ExportedConversation.t) :
  ExportRouteBetterSqlite.processChatTab chatTab ws folder = Try.Returns c ->
  c = ReturnedBetterSqlite.processChatTab chatTab ws folder.
Proof.
  rewrite processChatTab_betterSqlite_spec.
  destruct (Spec.datableTabBetterSqlite chatTab); [|discriminate].
  intros H. now injection H.
Qed.

(** The conversation behind a returned result, in place of the result. *)
Ltac returned H :=
  first [apply processComposerChat_returns in H
        |apply processChatTab_returns in H
        |apply processChatTab_betterSqlite_returns in H];
  match type of H with ?c = _ => subst c end.

Ltac canonical H :=
  destruct H as [composer ws folder c H|chatTab ws folder c H
                |chatTab ws folder c H];
  returned H.

(** ** Roles *)

Lemma composerMessage_role (msg : ComposerMessage.t) :
  (ComposerMessage.type msg = JS.number 1 ->
   ExportedMessage.role (Returned.composerMessage msg) = "user")
  /\ (ComposerMessage.type msg <> JS.number 1 ->
      ExportedMessage.role (Returned.composerMessage msg) = "assistant").
Proof.
  unfold Returned.composerMessage; simpl. split.
  - intros ->. reflexivity.
  - intros Hne. destruct (ComposerMessage.type msg) as [| |b|z|s]; try reflexivity.
    destruct z as [|p|p]; try reflexivity.
    destruct p; try reflexivity. congruence.
Qed.

Lemma strictEqualsStr_spec (v : JS.value) (s : string) :
  JS.strictEqualsStr v s = true <-> v = JS.str s.
Proof.
  destruct v as [| |b|z|s']; simpl; try (split; [discriminate|congruence]).
  rewrite String.eqb_eq. split; congruence.
Qed.

Lemma bubbleRole_cases (v : JS.value) :
  (v = JS.str "ai" ->
   (if JS.strictEqualsStr v "ai" then "assistant" else "user") = "assistant")
  /\ (v <> JS.str "ai" ->
      (if JS.strictEqualsStr v "ai" then "assistant" else "user") = "user").
Proof.
  pose proof (strictEqualsStr_spec v "ai") as H.
  destruct (JS.strictEqualsStr v "ai"); split; intros Hv; try reflexivity.
  - exfalso. apply Hv, H. reflexivity.
  - apply H in Hv. discriminate.
Qed.

Lemma Forall2_map_right {A B : Type} (R : A -> B -> Prop) (f : A -> B)
  (l : list A) : (forall x, R x (f x)) -> Forall2 R l (map f l).
Proof. intros H. induction l; simpl; constructor; auto. Qed.

Lemma Forall_map_image {A B : Type} (P : B -> Prop) (f : A -> B) (l : list A) :
  (forall x, P (f x)) -> Forall P (map f l).
Proof. intros H. induction l; simpl; constructor; auto. Qed.

Lemma canonical_roles (c : ExportedConversation.t) :
  Spec.Canonical c -> Forall Spec.closedRole (ExportedConversation.messages c).
Proof.
  intros Hc. canonical Hc.
  - rewrite composer_messages. apply Forall_map_image. intros msg.
    unfold Spec.closedRole, Returned.composerMessage; simpl.
    destruct (JS.strictEqualsOne _); auto.
  - rewrite chat_messages. apply Forall_map_image. intros p.
    unfold Spec.closedRole, Returned.bubbleMessage; simpl.
    destruct (JS.strictEqualsStr _ _); auto.
  - rewrite chat_messages_betterSqlite. apply Forall_map_image. intros p.
    unfold Spec.closedRole, ReturnedBetterSqlite.bubbleMessage; simpl.
    destruct (JS.strictEqualsStr _ _); auto.
Qed.

(** C10. Every message of every canonical conversation has role "user"
    or "assistant", whatever the raw discriminant is: a composer message
    whose [type] is the number 1 becomes "user" and any other value
    becomes "assistant"; a bubble whose [type] is the string "ai" becomes
    "assistant" and any other value becomes "user" (in both export
    routes, for the bubbles that have a text). *)
Theorem role_is_user_or_assistant :
  (forall c, Spec.Canonical c ->
     Forall Spec.closedRole (ExportedConversation.messages c))
  /\ (forall composer ws folder c,
        ExportRoute.processComposerChat composer ws folder = Try.Returns c ->
        Forall2
          (fun msg m =>
             (ComposerMessage.type msg = JS.number 1 ->
              ExportedMessage.role m = "user")
             /\ (ComposerMessage.type msg <> JS.number 1 ->
                 ExportedMessage.role m = "assistant"))
          (Spec.conversationOf composer)
          (ExportedConversation.messages c))
  /\ (forall chatTab ws folder,
        let bubbleRule (p : nat * ChatBubble.t) (m : ExportedMessage.t) :=
          (ChatBubble.type (snd p) = JS.str "ai" ->
           ExportedMessage.role m = "assistant")
          /\ (ChatBubble.type (snd p) <> JS.str "ai" ->
              ExportedMessage.role m = "user") in
        (forall c,
           ExportRoute.processChatTab chatTab ws folder = Try.Returns c ->
           Forall2 bubbleRule (Spec.keptBubbles chatTab)
             (ExportedConversation.messages c))
        /\ (forall c,
              ExportRouteBetterSqlite.processChatTab chatTab ws folder
              = Try.Returns c ->
              Forall2 bubbleRule (Spec.keptBubbles chatTab)
                (ExportedConversation.messages c))).
Proof.
  split; [exact canonical_roles|]. split.
  - intros composer ws folder c Hc. returned Hc. rewrite composer_messages.
    apply Forall2_map_right. exact composerMessage_role.
  - intros chatTab ws folder bubbleRule. split; intros c Hc; returned Hc.
    + rewrite chat_messages. apply Forall2_map_right. intros p.
      exact (bubbleRole_cases (ChatBubble.type (snd p))).
    + rewrite chat_messages_betterSqlite. apply Forall2_map_right. intros p.
      exact (bubbleRole_cases (ChatBubble.type (snd p))).
Qed.

(** ** Counts *)

Lemma canonical_counts (c : ExportedConversation.t) :
  Spec.Canonical c ->
  let s := ExportedConversation.summary c in
  let messages := ExportedConversation.messages c in
  Summary.messageCount s = length messages
  /\ Summary.userMessageCount s
     = length (filter (ExportRoute.roleIs "user") messages)
  /\ Summary.assistantMessageCount s
     = length (filter (ExportRoute.roleIs "assistant") messages)
  /\ Summary.averageMessageLength s
     = JS.Math_round (ExportRoute.avgLength messages).
Proof. intros Hc. canonical Hc; repeat split; reflexivity. Qed.

Lemma role_partition (messages : list ExportedMessage.t) :
  Forall Spec.closedRole messages ->
  (length (filter (ExportRoute.roleIs "user") messages)
   + length (filter (ExportRoute.roleIs "assistant") messages))%nat
  = length messages.
Proof.
  induction 1 as [|m ms Hm _ IH]; [reflexivity|].
  unfold ExportRoute.roleIs in *. cbn [filter].
  destruct Hm as [-> | ->]; simpl; lia.
Qed.

(** C7. In every canonical conversation the user and assistant counts
    add up to [messageCount], which is the length of [messages]. *)
Theorem counts_add_up (c : ExportedConversation.t) :
  Spec.Canonical c ->
  (Summary.userMessageCount (ExportedConversation.summary c)
   + Summary.assistantMessageCount (ExportedConversation.summary c))%nat
  = Summary.messageCount (ExportedConversation.summary c)
  /\ Summary.messageCount (ExportedConversation.summary c)
     = length (ExportedConversation.messages c).
Proof.
  intros Hc. destruct (canonical_counts c Hc) as (Hn & Hu & Ha & _).
  rewrite Hn, Hu, Ha. split; [|reflexivity].
  apply role_partition, canonical_roles, Hc.
Qed.

Lemma counts_add_up_scenarioA :
  exists c,
    ExportRoute.processComposerChat Spec.scenarioA "workspace" None
    = Try.Returns c
    /\ Summary.messageCount (ExportedConversation.summary c) = 2%nat
    /\ (Summary.userMessageCount (ExportedConversation.summary c)
        + Summary.assistantMessageCount (ExportedConversation.summary c))%nat
       = Summary.messageCount (ExportedConversation.summary c)
    /\ Summary.messageCount (ExportedConversation.summary c)
       = length (ExportedConversation.messages c).
Proof.
  eexists. split; [reflexivity|]. split; [reflexivity|].
  exact (counts_add_up _
           (Spec.fromComposer Spec.scenarioA "workspace" None _ eq_refl)).
Defined.

(** ** Average message length *)

Lemma Math_round_div (s : Z) (n : nat) :
  (0 < n)%nat ->
  JS.Math_round (inject_Z s / inject_Z (Z.of_nat n))
  = (2 * s + Z.of_nat n) / (2 * Z.of_nat n).
Proof.
  intros Hn. unfold JS.Math_round.
  destruct (Z.of_nat n) as [|p|p] eqn:Hp; try lia.
  unfold Qdiv, Qinv, inject_Z, Qmult, Qplus, Qfloor.
  cbn -[Z.mul Z.add Z.div Pos.mul].
  f_equal; lia.
Qed.

Lemma roundsHalfUp_div (s n : Z) :
  0 < n -> Spec.roundsHalfUp s n ((2 * s + n) / (2 * n)).
Proof.
  intros Hn. unfold Spec.roundsHalfUp.
  pose proof (Z.div_mod (2 * s + n) (2 * n) ltac:(lia)) as Hdm.
  pose proof (Z.mod_pos_bound (2 * s + n) (2 * n) ltac:(lia)) as Hb.
  nia.
Qed.

Lemma roundsHalfUp_unique (s n k k' : Z) :
  0 < n -> Spec.roundsHalfUp s n k -> Spec.roundsHalfUp s n k' -> k = k'.
Proof. unfold Spec.roundsHalfUp. intros. nia. Qed.

Lemma totalLength_sum (messages : list ExportedMessage.t) :
  Z.of_nat (ExportRoute.totalLength messages) = Spec.contentLength messages.
Proof.
  unfold ExportRoute.totalLength, Spec.contentLength. f_equal.
  rewrite <- (Nat.add_0_l (list_sum _)). generalize 0%nat.
  induction messages as [|m ms IH]; intros acc; simpl; [lia|].
  rewrite IH. lia.
Qed.

Lemma avgLength_rounded (messages : list ExportedMessage.t) :
  (messages = [] -> JS.Math_round (ExportRoute.avgLength messages) = 0)
  /\ (messages <> [] ->
      Spec.roundsHalfUp (Spec.contentLength messages)
        (Z.of_nat (length messages))
        (JS.Math_round (ExportRoute.avgLength messages))).
Proof.
  unfold ExportRoute.avgLength. split.
  - intros ->. reflexivity.
  - intros Hne. destruct messages as [|m ms]; [congruence|].
    change (0 <? length (m :: ms))%nat with true. cbv iota.
    rewrite Math_round_div by (simpl; lia).
    rewrite totalLength_sum. apply roundsHalfUp_div. simpl length. lia.
Qed.

(** C9. In every canonical conversation [averageMessageLength] is 0 when
    there is no message, and otherwise the mean content length rounded to
    the nearest integer with a tie going up (the integer [k] with
    [k - 1/2 <= sum / messageCount < k + 1/2]); the thread of scenario A,
    with contents of lengths 2 and 5, has average 4. *)
Theorem averageMessageLength_rounds_half_up :
  (forall c, Spec.Canonical c ->
     let s := ExportedConversation.summary c in
     let messages := ExportedConversation.messages c in
     (messages = [] -> Summary.averageMessageLength s = 0)
     /\ (messages <> [] ->
         Spec.roundsHalfUp (Spec.contentLength messages)
           (Z.of_nat (Summary.messageCount s))
           (Summary.averageMessageLength s)))
  /\ (exists c,
        ExportRoute.processComposerChat Spec.scenarioA "workspace" None
        = Try.Returns c
        /\ map (fun m => String.length (ExportedMessage.content m))
             (ExportedConversation.messages c) = [2%nat; 5%nat]
        /\ Summary.averageMessageLength (ExportedConversation.summary c) = 4).
Proof.
  split.
  - intros c Hc s messages.
    destruct (canonical_counts c Hc) as (Hn & _ & _ & Havg).
    fold s messages in Hn, Havg. rewrite Hn, Havg.
    apply avgLength_rounded.
  - eexists. split; [reflexivity|]. split; reflexivity.
Qed.

Lemma averageMessageLength_scenarioA :
  Spec.roundsHalfUp 7 2 4.
Proof.
  pose proof
    (proj1 averageMessageLength_rounds_half_up _
       (Spec.fromComposer Spec.scenarioA "workspace" None _ eq_refl))
    as [_ H].
  apply H. discriminate.
Defined.

(** ** Referenced files *)

Lemma Set_has_In (s : JS.SetOfString) (x : string) :
  JS.Set_has s x = true <-> In x s.
Proof.
  unfold JS.Set_has. rewrite existsb_exists. split.
  - intros (y & Hy & Heq). apply String.eqb_eq in Heq. now subst.
  - intros H. exists x. split; [assumption|apply String.eqb_refl].
Qed.

Lemma Set_add_In (s : JS.SetOfString) (x p : string) :
  In p (JS.Set_add s x) <-> In p s \/ p = x.
Proof.
  unfold JS.Set_add. destruct (JS.Set_has s x) eqn:Hhas.
  - apply Set_has_In in Hhas. split; [auto|]. intros [H| ->]; assumption.
  - rewrite in_app_iff. simpl. intuition congruence.
Qed.

Lemma Set_add_NoDup (s : JS.SetOfString) (x : string) :
  NoDup s -> NoDup (JS.Set_add s x).
Proof.
  intros Hs. unfold JS.Set_add. destruct (JS.Set_has s x) eqn:Hhas; [assumption|].
  assert (Hnot : ~ In x s).
  { intros Hin. apply Set_has_In in Hin. congruence. }
  clear Hhas. induction Hs as [|y s Hy Hs IH]; simpl.
  - constructor; [intros []|constructor].
  - constructor.
    + rewrite in_app_iff. simpl. intros [H|[H|[]]]; [auto|].
      apply Hnot. left. congruence.
    + apply IH. intros H. apply Hnot. now right.
Qed.

(** The path one file selection contributes. *)
Lemma addFile_In (s : JS.SetOfString) (file : FileSelection.t) (p : string) :
  In p (ExportRoute.addFile s file)
  <-> In p s
      \/ In p (match ExportRoute.fsPathOf file with
               | Some q => if JS.truthyString q then [q] else []
               | None => []
               end).
Proof.
  unfold ExportRoute.addFile.
  destruct (ExportRoute.fsPathOf file) as [q|]; [|simpl; tauto].
  destruct (JS.truthyString q); [|simpl; tauto].
  rewrite Set_add_In. simpl. intuition congruence.
Qed.

Lemma addFile_NoDup (s : JS.SetOfString) (file : FileSelection.t) :
  NoDup s -> NoDup (ExportRoute.addFile s file).
Proof.
  intros Hs. unfold ExportRoute.addFile.
  destruct (ExportRoute.fsPathOf file) as [q|]; [|assumption].
  destruct (JS.truthyString q); [|assumption].
  now apply Set_add_NoDup.
Qed.

Lemma addContext_In (ctx : option ComposerContext.t) (p : string) :
  forall s, In p (Spec.addContext s ctx) <-> In p s \/ In p (Spec.contextFiles ctx).
Proof.
  unfold Spec.addContext, Spec.contextFiles, ExportRoute.composerMessageContext,
    ExportRoute.fileSelectionsOf.
  destruct ctx as [c|]; [|simpl; tauto]. simpl.
  destruct (ComposerContext.fileSelections c) as [selections|]; [|simpl; tauto].
  simpl. unfold JS.forEach.
  induction selections as [|file rest IH]; intros s; simpl; [tauto|].
  rewrite IH, addFile_In, in_app_iff. tauto.
Qed.

Lemma addContext_NoDup (ctx : option ComposerContext.t) :
  forall s, NoDup s -> NoDup (Spec.addContext s ctx).
Proof.
  unfold Spec.addContext. destruct (ExportRoute.fileSelectionsOf ctx) as [sels|];
    [|auto].
  unfold JS.forEach. induction sels as [|file rest IH]; intros s Hs; simpl;
    [assumption|].
  apply IH, addFile_NoDup, Hs.
Qed.

Lemma addMessages_In (conversation : list ComposerMessage.t) (p : string) :
  forall s,
  In p (fold_left (fun files msg => Spec.addContext files (ComposerMessage.context msg))
          conversation s)
  <-> In p s
      \/ exists msg, In msg conversation
                     /\ In p (Spec.contextFiles (ComposerMessage.context msg)).
Proof.
  induction conversation as [|msg rest IH]; intros s; simpl.
  - split; [auto|]. intros [H|(msg & [] & _)]. exact H.
  - rewrite IH, addContext_In. split.
    + intros [[H|H]|(m & Hm & Hp)]; eauto 6.
    + intros [H|(m & [<-|Hm] & Hp)]; eauto 6.
Qed.

Lemma addMessages_NoDup (conversation : list ComposerMessage.t) :
  forall s, NoDup s ->
  NoDup (fold_left
           (fun files msg => Spec.addContext files (ComposerMessage.context msg))
           conversation s).
Proof.
  induction conversation as [|msg rest IH]; intros s Hs; simpl; [assumption|].
  apply IH, addContext_NoDup, Hs.
Qed.

Lemma extractFilePaths_fold (composer : ComposerChat.t) :
  ExportRoute.extractFilePaths composer
  = fold_left (fun files msg => Spec.addContext files (ComposerMessage.context msg))
      (Spec.conversationOf composer)
      (Spec.addContext [] (ComposerChat.context composer)).
Proof.
  unfold ExportRoute.extractFilePaths, Spec.conversationOf, JS.Array_from.
  fold (Spec.addContext [] (ComposerChat.context composer)).
  destruct (ComposerChat.conversation composer); reflexivity.
Qed.

(** C8. [summary.filesReferenced] of a composer conversation has no
    duplicate, and its elements are exactly the file paths of the
    thread-level context together with those of every message's context
    (a file selection without a path, or with an empty one, names no
    file). *)
Theorem filesReferenced_is_duplicate_free_union
  (composer : ComposerChat.t) (ws : string) (folder : option string)
  (c : ExportedConversation.t) :
  ExportRoute.processComposerChat composer ws folder = Try.Returns c ->
  let files := Summary.filesReferenced (ExportedConversation.summary c) in
  NoDup files
  /\ forall p,
       In p files
       <-> In p (Spec.contextFiles (ComposerChat.context composer))
           \/ exists msg,
                In msg (Spec.conversationOf composer)
                /\ In p (Spec.contextFiles (ComposerMessage.context msg)).
Proof.
  intros Hc. returned Hc. simpl. rewrite extractFilePaths_fold. split.
  - apply addMessages_NoDup, addContext_NoDup. constructor.
  - intros p. rewrite addMessages_In, addContext_In. simpl. tauto.
Qed.

Lemma filesReferenced_sharedFile :
  exists c,
    ExportRoute.processComposerChat Spec.threadWithSharedFile "workspace" None
    = Try.Returns c
    /\ Summary.filesReferenced (ExportedConversation.summary c)
       = ["/src/a.ts"; "/src/b.ts"; "/src/c.ts"]
    /\ NoDup (Summary.filesReferenced (ExportedConversation.summary c)).
Proof.
  eexists. split; [reflexivity|]. split; [reflexivity|].
  apply (filesReferenced_is_duplicate_free_union Spec.threadWithSharedFile
           "workspace" None _ eq_refl).
Defined.

(** ** Chat timestamps *)

Lemma timestamps_sqlite (chatTab : ChatTab.t) (ws : string)
  (folder : option string) :
  map ExportedMessage.timestamp
    (ExportedConversation.messages (Returned.processChatTab chatTab ws folder))
  = map (fun p => ChatTab.timestamp chatTab + Z.of_nat (fst p) * 1000)
      (Spec.keptBubbles chatTab).
Proof. rewrite chat_messages, map_map. reflexivity. Qed.

Lemma orNumber_cases (explicit : option Z) (fallback : Z) :
  (forall t, explicit = Some t -> t <> 0 -> JS.orNumber explicit fallback = t)
  /\ (explicit = None \/ explicit = Some 0 ->
      JS.orNumber explicit fallback = fallback).
Proof.
  unfold JS.orNumber. split.
  - intros t -> Ht. destruct (Z.eqb_spec t 0); congruence.
  - intros [-> | ->]; reflexivity.
Qed.

(** C2, the claim as stated fails. The sqlite3 route gives the bubbles
    of scenario B the timestamps 1000, 2000, 3000, not 1000, 5000, 3000;
    the better-sqlite3 route gives a bubble whose own timestamp is 0 the
    synthesised one. *)
Lemma timestamp_rule_counterexample :
  ((exists c,
      ExportRoute.processChatTab Spec.scenarioB "workspace" None
      = Try.Returns c
      /\ map ExportedMessage.timestamp (ExportedConversation.messages c)
         = [1000; 2000; 3000])
   /\ ~ Spec.timestampRule ExportRoute.processChatTab)
  /\ ((exists c,
         ExportRouteBetterSqlite.processChatTab Spec.zeroStamped
           "workspace" None
         = Try.Returns c
         /\ map ExportedMessage.timestamp (ExportedConversation.messages c)
            = [1000])
      /\ ~ Spec.timestampRule ExportRouteBetterSqlite.processChatTab).
Proof.
  split; (split; [eexists; split; reflexivity|]); intros H.
  - specialize (H Spec.scenarioB "workspace" None _ eq_refl). discriminate H.
  - specialize (H Spec.zeroStamped "workspace" None _ eq_refl). discriminate H.
Qed.

(** C2, amended. In the better-sqlite3 route a message's timestamp is
    the bubble's own timestamp when it has one that is not 0, and
    otherwise the tab's timestamp plus 1000 ms times the bubble's
    position; scenario B gives 1000, 5000, 3000. In the sqlite3 route
    every message's timestamp is the tab's timestamp plus 1000 ms times
    the bubble's position; scenario B gives 1000, 2000, 3000. *)
Theorem chat_timestamps :
  (forall chatTab ws folder c,
     ExportRouteBetterSqlite.processChatTab chatTab ws folder = Try.Returns c ->
     Forall2
       (fun p m =>
          let offset :=
            ChatTab.timestamp chatTab + Z.of_nat (fst p) * 1000 in
          (forall t, ChatBubble.timestamp (snd p) = Some t -> t <> 0 ->
                     ExportedMessage.timestamp m = t)
          /\ (ChatBubble.timestamp (snd p) = None
              \/ ChatBubble.timestamp (snd p) = Some 0 ->
              ExportedMessage.timestamp m = offset))
       (Spec.keptBubbles chatTab)
       (ExportedConversation.messages c))
  /\ (forall chatTab ws folder c,
        ExportRoute.processChatTab chatTab ws folder = Try.Returns c ->
        Forall2
          (fun p m =>
             ExportedMessage.timestamp m
             = ChatTab.timestamp chatTab + Z.of_nat (fst p) * 1000)
          (Spec.keptBubbles chatTab)
          (ExportedConversation.messages c))
  /\ (exists c,
        ExportRouteBetterSqlite.processChatTab Spec.scenarioB "workspace" None
        = Try.Returns c
        /\ map ExportedMessage.timestamp (ExportedConversation.messages c)
           = [1000; 5000; 3000])
  /\ (exists c,
        ExportRoute.processChatTab Spec.scenarioB "workspace" None
        = Try.Returns c
        /\ map ExportedMessage.timestamp (ExportedConversation.messages c)
           = [1000; 2000; 3000]).
Proof.
  split; [|split; [|split; eexists; split; reflexivity]].
  - intros chatTab ws folder c Hc. returned Hc.
    rewrite chat_messages_betterSqlite.
    apply Forall2_map_right. intros p. exact (orNumber_cases _ _).
  - intros chatTab ws folder c Hc. returned Hc. rewrite chat_messages.
    apply Forall2_map_right. reflexivity.
Qed.

(** ** Code context *)

Lemma length_positive {A : Type} (l : list A) :
  (0 <? length l)%nat = true <-> l <> [].
Proof.
  destruct l; simpl; split; try congruence; try discriminate; reflexivity.
Qed.

Lemma composer_hasCodeContext (composer : ComposerChat.t) (ws : string)
  (folder : option string) :
  let c := Returned.processComposerChat composer ws folder in
  Summary.hasCodeContext (ExportedConversation.summary c) = Some true
  <-> Spec.composerCodeContext composer c.
Proof.
  unfold Spec.composerCodeContext, Spec.threadSelections; simpl.
  unfold ExportRoute.composerHasCodeContext.
  destruct (ExportRoute.extractFilePaths composer) as [|f files]; simpl.
  - destruct (ExportRoute.selectionsOf (ComposerChat.context composer))
      as [[|sel sels]|]; simpl; split; intros H;
      try discriminate H; try reflexivity;
      try (right; discriminate); destruct H as [H|H]; congruence.
  - split; [left; discriminate|reflexivity].
Qed.

Lemma bubbleHasSelections_exists (bubbles : list ChatBubble.t) :
  existsb ExportRoute.bubbleHasSelections bubbles = true
  <-> exists bubble selections,
        In bubble bubbles
        /\ ChatBubble.selections bubble = Some selections
        /\ selections <> [].
Proof.
  rewrite existsb_exists. unfold ExportRoute.bubbleHasSelections. split.
  - intros (b & Hin & Hb).
    destruct (ChatBubble.selections b) as [sels|] eqn:Hs; [|discriminate].
    exists b, sels. rewrite length_positive in Hb. auto.
  - intros (b & sels & Hin & Hs & Hne). exists b. split; [assumption|].
    rewrite Hs. now apply length_positive.
Qed.

(** C5, the claim as stated fails. For a thread with no context and no
    referenced file [hasCodeContext] is left undefined, which is no
    boolean; in the better-sqlite3 route a tab whose bubble carries a
    selection has [hasCodeContext = false]. *)
Lemma hasCodeContext_counterexample :
  (exists c,
     ExportRoute.processComposerChat Spec.bareThread "workspace" None
     = Try.Returns c
     /\ Summary.hasCodeContext (ExportedConversation.summary c) = None
     /\ ~ Spec.hasCodeContextRule
            (Spec.composerCodeContext Spec.bareThread c) c)
  /\ (exists c,
        ExportRouteBetterSqlite.processChatTab Spec.tabWithSelection
          "workspace" None
        = Try.Returns c
        /\ Summary.hasCodeContext (ExportedConversation.summary c) = Some false
        /\ Spec.chatCodeContext Spec.tabWithSelection
        /\ ~ Spec.hasCodeContextRule
               (Spec.chatCodeContext Spec.tabWithSelection) c).
Proof.
  assert (Hcond : Spec.chatCodeContext Spec.tabWithSelection).
  { eexists _, _. split; [left; reflexivity|]. split; [reflexivity|discriminate]. }
  split; eexists; (split; [reflexivity|]); simpl.
  - split; [reflexivity|]. intros (b & Hb & _). discriminate Hb.
  - split; [reflexivity|]. split; [exact Hcond|].
    intros (b & Hb & Hiff). injection Hb as <-.
    apply Hiff in Hcond. discriminate Hcond.
Qed.

(** C5, amended. For a composer conversation [hasCodeContext] is true
    exactly when [filesReferenced] is not empty or the thread-level
    context carries at least one selection. For a chat conversation of
    the sqlite3 route it is a boolean, true exactly when some bubble of
    the tab carries a non-empty selection list; for a chat conversation
    of the better-sqlite3 route it is always false. *)
Theorem hasCodeContext_by_route :
  (forall composer ws folder c,
     ExportRoute.processComposerChat composer ws folder = Try.Returns c ->
     Summary.hasCodeContext (ExportedConversation.summary c) = Some true
     <-> Spec.composerCodeContext composer c)
  /\ (forall chatTab ws folder c,
        ExportRoute.processChatTab chatTab ws folder = Try.Returns c ->
        Spec.hasCodeContextRule (Spec.chatCodeContext chatTab) c)
  /\ (forall chatTab ws folder c,
        ExportRouteBetterSqlite.processChatTab chatTab ws folder
        = Try.Returns c ->
        Summary.hasCodeContext (ExportedConversation.summary c) = Some false).
Proof.
  split; [|split]; intros ? ws folder c Hc; returned Hc.
  - apply composer_hasCodeContext.
  - eexists. split; [reflexivity|]. apply bubbleHasSelections_exists.
  - reflexivity.
Qed.

(** ** The sort of the export *)

Lemma sortInsert_permutation (x : ExportedConversation.t)
  (l : list ExportedConversation.t) :
  Permutation (x :: l) (JS.sortInsert ExportHandler.byLastUpdated x l).
Proof.
  induction l as [|y l IH]; cbn [JS.sortInsert]; [reflexivity|].
  destruct (ExportHandler.byLastUpdated x y <=? 0); [reflexivity|].
  rewrite perm_swap. now apply perm_skip.
Qed.

Lemma Array_sort_permutation (l : list ExportedConversation.t) :
  Permutation l (JS.Array_sort ExportHandler.byLastUpdated l).
Proof.
  induction l as [|x l IH]; cbn [JS.Array_sort]; [reflexivity|].
  rewrite <- sortInsert_permutation. now apply perm_skip.
Qed.

Lemma byLastUpdated_le (x y : ExportedConversation.t) :
  (ExportHandler.byLastUpdated x y <=? 0) = true <-> Spec.notOlder x y.
Proof.
  unfold ExportHandler.byLastUpdated, Spec.notOlder. rewrite Z.leb_le. lia.
Qed.

Lemma byLastUpdated_gt (x y : ExportedConversation.t) :
  (ExportHandler.byLastUpdated x y <=? 0) = false ->
  ExportedConversation.lastUpdatedAt x < ExportedConversation.lastUpdatedAt y.
Proof.
  unfold ExportHandler.byLastUpdated. rewrite Z.leb_gt. lia.
Qed.

Lemma sortInsert_sorted (x : ExportedConversation.t)
  (l : list ExportedConversation.t) :
  StronglySorted Spec.notOlder l ->
  StronglySorted Spec.notOlder
    (JS.sortInsert ExportHandler.byLastUpdated x l).
Proof.
  induction 1 as [|y l Hl IH Hy]; cbn [JS.sortInsert].
  - constructor; constructor.
  - destruct (ExportHandler.byLastUpdated x y <=? 0) eqn:Hcmp.
    + apply byLastUpdated_le in Hcmp.
      constructor; [constructor; assumption|].
      constructor; [exact Hcmp|].
      rewrite Forall_forall in *. intros z Hz. specialize (Hy z Hz).
      unfold Spec.notOlder in *. lia.
    + apply byLastUpdated_gt in Hcmp.
      constructor; [exact IH|].
      apply (Permutation_Forall (sortInsert_permutation x l)).
      constructor; [unfold Spec.notOlder; lia|exact Hy].
Qed.

Lemma Array_sort_sorted (l : list ExportedConversation.t) :
  StronglySorted Spec.notOlder (JS.Array_sort ExportHandler.byLastUpdated l).
Proof.
  induction l as [|x l IH]; cbn [JS.Array_sort]; [constructor|].
  now apply sortInsert_sorted.
Qed.

Lemma sortInsert_updatedAt (t : Z) (x : ExportedConversation.t)
  (l : list ExportedConversation.t) :
  Spec.updatedAt t (JS.sortInsert ExportHandler.byLastUpdated x l)
  = Spec.updatedAt t (x :: l).
Proof.
  unfold Spec.updatedAt.
  induction l as [|y l IH]; cbn [JS.sortInsert]; [reflexivity|].
  destruct (ExportHandler.byLastUpdated x y <=? 0) eqn:Hcmp; [reflexivity|].
  apply byLastUpdated_gt in Hcmp.
  cbn [filter] in *. rewrite IH.
  destruct (Z.eqb_spec (ExportedConversation.lastUpdatedAt x) t) as [Hx|Hx];
    destruct (Z.eqb_spec (ExportedConversation.lastUpdatedAt y) t) as [Hy|Hy];
    try reflexivity.
  lia.
Qed.

Lemma Array_sort_stable (t : Z) (l : list ExportedConversation.t) :
  Spec.updatedAt t (JS.Array_sort ExportHandler.byLastUpdated l)
  = Spec.updatedAt t l.
Proof.
  induction l as [|x l IH]; cbn [JS.Array_sort]; [reflexivity|].
  rewrite sortInsert_updatedAt. unfold Spec.updatedAt in *. cbn [filter].
  now rewrite IH.
Qed.

Lemma forEach_attempts {A B : Type} (f : A -> Try.t B) (xs : list A) :
  forall acc,
  Try.forEach xs
    (fun acc x => Try.bind (f x) (fun b => Try.Returns (JS.push acc b))) acc
  = if existsb (fun x => Try.throws (f x)) xs then Try.Throws
    else Try.Returns (acc ++ Try.returned (map f xs)).
Proof.
  unfold Try.forEach, Try.returned, JS.push.
  induction xs as [|x xs IH]; intros acc;
    cbn [Try.forOf existsb map flat_map].
  - now rewrite app_nil_r.
  - destruct (f x) as [|b]; cbn [Try.bind Try.throws orb]; [reflexivity|].
    rewrite IH. destruct (existsb _ xs); [reflexivity|].
    now rewrite <- app_assoc.
Qed.

Lemma returned_In {A B : Type} (f : A -> Try.t B) (xs : list A) (b : B) :
  In b (Try.returned (map f xs)) <-> exists x, In x xs /\ f x = Try.Returns b.
Proof.
  unfold Try.returned. rewrite in_flat_map. split.
  - intros (attempt & Hin & Hb). apply in_map_iff in Hin.
    destruct Hin as (x & <- & Hx). exists x. split; [exact Hx|].
    destruct (f x) as [|b']; [destruct Hb|].
    destruct Hb as [->|[]]. reflexivity.
  - intros (x & Hx & Hfx). exists (f x). split; [now apply in_map|].
    rewrite Hfx. now left.
Qed.

Lemma none_throws {A B : Type} (f : A -> Try.t B) (xs : list A) :
  existsb (fun x => Try.throws (f x)) xs = false
  <-> forall x, In x xs -> exists b, f x = Try.Returns b.
Proof.
  induction xs as [|x xs IH]; cbn [existsb].
  - split; [intros _ y []|reflexivity].
  - rewrite orb_false_iff, IH. split.
    + intros [Hx Hxs] y [Heq|Hy]; [subst y|auto].
      destruct (f x) as [|b]; [discriminate|eauto].
    + intros H. split.
      * destruct (H x (or_introl eq_refl)) as (b & ->). reflexivity.
      * intros y Hy. apply H. now right.
Qed.

Section AnyExportRoute.

Variable processComposerChat
  : ComposerChat.t -> string -> option string -> Try.t ExportedConversation.t.
Variable processChatTab
  : ChatTab.t -> string -> option string -> Try.t ExportedConversation.t.

Let GET := ExportHandler.GET processComposerChat processChatTab.
Let collect := ExportHandler.collect processComposerChat processChatTab.

Lemma GET_sorts (now : Z) (request : ExportHandler.Request) (disk : Disk.t)
  (exportData : ExportData.t) :
  GET now request disk = ExportHandler.Ok exportData ->
  exists enumeration,
    collect request disk = Try.Returns enumeration
    /\ ExportData.conversations exportData
       = JS.Array_sort ExportHandler.byLastUpdated enumeration.
Proof.
  unfold GET, ExportHandler.GET. fold collect.
  destruct (collect request disk) as [|enumeration]; [discriminate|].
  intros H. injection H as <-. exists enumeration. split; reflexivity.
Qed.

Lemma GET_sorted_stable (now : Z) (request : ExportHandler.Request)
  (disk : Disk.t) (exportData : ExportData.t) :
  GET now request disk = ExportHandler.Ok exportData ->
  exists enumeration,
    collect request disk = Try.Returns enumeration
    /\ Permutation enumeration (ExportData.conversations exportData)
    /\ StronglySorted Spec.notOlder (ExportData.conversations exportData)
    /\ forall t,
         Spec.updatedAt t (ExportData.conversations exportData)
         = Spec.updatedAt t enumeration.
Proof.
  intros H. destruct (GET_sorts _ _ _ _ H) as (enumeration & Hc & ->).
  exists enumeration. split; [exact Hc|]. split; [|split].
  - apply Array_sort_permutation.
  - apply Array_sort_sorted.
  - intros t. apply Array_sort_stable.
Qed.

Lemma composerStep_spec (name : string) (folder : option string)
  (row : option (Disk.Blob ComposerData.t))
  (acc : list ExportedConversation.t) :
  match row with
  | Some value =>
      Try.bind (Try.JSON_parse value) (fun composerData =>
      Try.bind (Try.required (ComposerData.allComposers composerData))
        (fun allComposers =>
      Try.forEach allComposers
        (fun conversations composer =>
           Try.bind (processComposerChat composer name folder)
             (fun conversation =>
                Try.Returns (JS.push conversations conversation)))
        acc))
  | None => Try.Returns acc
  end
  = if Spec.composerRowFails processComposerChat name folder row
    then Try.Throws
    else Try.Returns
           (acc ++ Spec.composerConversations processComposerChat name folder
                     row).
Proof.
  destruct row as [[|[[composers|]]]|]; simpl;
    rewrite ?forEach_attempts, ?app_nil_r; reflexivity.
Qed.

Lemma chatStep_spec (name : string) (folder : option string)
  (row : option (Disk.Blob ChatData.t)) (acc : list ExportedConversation.t) :
  match row with
  | Some value =>
      Try.bind (Try.JSON_parse value) (fun chatData =>
      match ChatData.tabs chatData with
      | Some tabs =>
          Try.forEach tabs
            (fun conversations tab =>
               Try.bind (processChatTab tab name folder)
                 (fun conversation =>
                    Try.Returns (JS.push conversations conversation)))
            acc
      | None => Try.Returns acc
      end)
  | None => Try.Returns acc
  end
  = if Spec.chatRowFails processChatTab name folder row then Try.Throws
    else Try.Returns
           (acc ++ Spec.chatConversations processChatTab name folder row).
Proof.
  destruct row as [[|[[tabs|]]]|]; simpl;
    rewrite ?forEach_attempts, ?app_nil_r; reflexivity.
Qed.

Lemma exportEntry_spec (includeChats includeComposers : bool)
  (acc : list ExportedConversation.t) (entry : Disk.Dirent) :
  ExportHandler.exportEntry processComposerChat processChatTab
    includeChats includeComposers acc entry
  = if Spec.entryFails processComposerChat processChatTab
         includeChats includeComposers entry
    then Try.Throws
    else Try.Returns
           (acc ++ Spec.entryConversations processComposerChat processChatTab
                     includeChats includeComposers entry).
Proof.
  destruct entry as [name|name [[| |[composerRow chatRow]]|] workspaceJson];
    cbn [ExportHandler.exportEntry Spec.entryFails Spec.entryConversations
         Try.openStore Try.get Try.bind Disk.composerData Disk.chatdata];
    try reflexivity; try (now rewrite app_nil_r).
  - destruct includeComposers, includeChats; cbn [Try.bind orb];
      try reflexivity. now rewrite app_nil_r.
  - destruct includeComposers; cbn [andb orb Try.bind].
    + rewrite composerStep_spec.
      destruct (Spec.composerRowFails _ _ _ composerRow); cbn [Try.bind orb];
        [reflexivity|].
      destruct includeChats; cbn [andb Try.bind].
      * rewrite chatStep_spec.
        destruct (Spec.chatRowFails _ _ _ chatRow); cbn [Try.bind];
          [reflexivity|now rewrite app_assoc].
      * now rewrite app_nil_r.
    + cbn [app]. destruct includeChats; cbn [andb Try.bind].
      * rewrite chatStep_spec.
        destruct (Spec.chatRowFails _ _ _ chatRow); reflexivity.
      * now rewrite app_nil_r.
Qed.

Lemma forOf_exportEntry (includeChats includeComposers : bool)
  (entries : list Disk.Dirent) :
  forall acc,
  Try.forOf entries
    (ExportHandler.exportEntry processComposerChat processChatTab
       includeChats includeComposers) acc
  = if existsb
         (Spec.entryFails processComposerChat processChatTab
            includeChats includeComposers)
         entries
    then Try.Throws
    else Try.Returns
           (acc ++ flat_map
                     (Spec.entryConversations processComposerChat
                        processChatTab includeChats includeComposers)
                     entries).
Proof.
  induction entries as [|entry rest IH]; intros acc; cbn [Try.forOf existsb flat_map].
  - now rewrite app_nil_r.
  - rewrite exportEntry_spec.
    destruct (Spec.entryFails _ _ includeChats includeComposers entry);
      cbn [Try.bind orb]; [reflexivity|].
    rewrite IH, app_assoc. reflexivity.
Qed.

Lemma collect_spec (request : ExportHandler.Request)
  (entries : list Disk.Dirent) :
  let includeChats :=
    ExportHandler.notFalse (ExportHandler.includeChatsParam request) in
  let includeComposers :=
    ExportHandler.notFalse (ExportHandler.includeComposersParam request) in
  collect request (Some entries)
  = if existsb
         (Spec.entryFails processComposerChat processChatTab
            includeChats includeComposers)
         entries
    then Try.Throws
    else Try.Returns
           (flat_map
              (Spec.entryConversations processComposerChat processChatTab
                 includeChats includeComposers)
              entries).
Proof.
  unfold collect, ExportHandler.collect; cbn [Try.readdir Try.bind].
  now rewrite forOf_exportEntry.
Qed.

End AnyExportRoute.

(** C6. The conversation list of a successful export is sorted by
    non-increasing [lastUpdatedAt] and the sort is stable: it is a
    permutation of the enumeration (workspaces in directory order, the
    threads of a workspace before its tabs), and for every timestamp the
    conversations updated at it come in the order of the enumeration.
    This holds of the handler at any normalisers, so of both export
    routes. *)
Theorem export_sorted_stable
  (processComposerChat
     : ComposerChat.t -> string -> option string -> Try.t ExportedConversation.t)
  (processChatTab
     : ChatTab.t -> string -> option string -> Try.t ExportedConversation.t)
  (now : Z) (request : ExportHandler.Request) (disk : Disk.t)
  (exportData : ExportData.t) :
  ExportHandler.GET processComposerChat processChatTab now request disk
  = ExportHandler.Ok exportData ->
  exists enumeration,
    ExportHandler.collect processComposerChat processChatTab request disk
    = Try.Returns enumeration
    /\ Permutation enumeration (ExportData.conversations exportData)
    /\ StronglySorted Spec.notOlder (ExportData.conversations exportData)
    /\ forall t,
         Spec.updatedAt t (ExportData.conversations exportData)
         = Spec.updatedAt t enumeration.
Proof. apply GET_sorted_stable. Qed.

Lemma export_sorted_stable_sample :
  ExportRoute.GET 0 Spec.fullRequest Spec.sampleDisk
  = ExportHandler.Ok Spec.sampleExport
  /\ map ExportedConversation.id (ExportData.conversations Spec.sampleExport)
     = ["thread-c"; "tab-b"; "thread-a"; "thread-d"]
  /\ map ExportedConversation.lastUpdatedAt
       (ExportData.conversations Spec.sampleExport)
     = [1000; 1000; 200; 200]
  /\ exists enumeration,
       ExportHandler.collect ExportRoute.processComposerChat
         ExportRoute.processChatTab Spec.fullRequest Spec.sampleDisk
       = Try.Returns enumeration
       /\ Permutation enumeration (ExportData.conversations Spec.sampleExport)
       /\ StronglySorted Spec.notOlder
            (ExportData.conversations Spec.sampleExport)
       /\ forall t,
            Spec.updatedAt t (ExportData.conversations Spec.sampleExport)
            = Spec.updatedAt t enumeration.
Proof.
  split; [reflexivity|]. split; [reflexivity|]. split; [reflexivity|].
  apply (export_sorted_stable ExportRoute.processComposerChat
           ExportRoute.processChatTab 0 Spec.fullRequest Spec.sampleDisk
           Spec.sampleExport).
  reflexivity.
Defined.

(** ** Failures during the export *)

(** C1, the claim as stated fails. With a first workspace whose composer
    row is not JSON and a second, sound workspace, the directory is
    listed but both export routes answer with the error response. *)
Lemma export_fails_on_broken_workspace :
  (ExportRoute.GET 0 Spec.fullRequest (Some Spec.brokenEntries)
   = ExportHandler.InternalServerError
   /\ ~ Spec.succeedsWheneverListed ExportRoute.GET)
  /\ (ExportRouteBetterSqlite.GET 0 Spec.fullRequest (Some Spec.brokenEntries)
      = ExportHandler.InternalServerError
      /\ ~ Spec.succeedsWheneverListed ExportRouteBetterSqlite.GET).
Proof.
  split; (split; [reflexivity|]); intros H;
    destruct (H 0 Spec.fullRequest Spec.brokenEntries) as (exportData & Hd);
    discriminate Hd.
Qed.

Lemma throws_spec {A : Type} (ok : bool) (a : A) :
  Try.throws (if ok then Try.Returns a else Try.Throws) = negb ok.
Proof. destruct ok; reflexivity. Qed.

Section AllOrNothing.

Variable processComposerChat
  : ComposerChat.t -> string -> option string -> Try.t ExportedConversation.t.
Variable processChatTab
  : ChatTab.t -> string -> option string -> Try.t ExportedConversation.t.

Lemma GET_all_or_nothing (now : Z) (request : ExportHandler.Request)
  (entries : list Disk.Dirent) :
  let GET := ExportHandler.GET processComposerChat processChatTab in
  let includeChats :=
    ExportHandler.notFalse (ExportHandler.includeChatsParam request) in
  let includeComposers :=
    ExportHandler.notFalse (ExportHandler.includeComposersParam request) in
  let fails :=
    Spec.entryFails processComposerChat processChatTab
      includeChats includeComposers in
  GET now request None = ExportHandler.InternalServerError
  /\ ((exists entry, In entry entries /\ fails entry = true) ->
      GET now request (Some entries) = ExportHandler.InternalServerError)
  /\ ((forall entry, In entry entries -> fails entry = false) ->
      exists exportData,
        GET now request (Some entries) = ExportHandler.Ok exportData
        /\ Permutation
             (flat_map
                (Spec.entryConversations processComposerChat processChatTab
                   includeChats includeComposers)
                entries)
             (ExportData.conversations exportData)).
Proof.
  intros GET includeChats includeComposers fails.
  split; [reflexivity|].
  assert (Hcollect := collect_spec processComposerChat processChatTab
                        request entries).
  cbv zeta in Hcollect. fold includeChats includeComposers fails in Hcollect.
  split.
  - intros Hex. apply existsb_exists in Hex.
    unfold GET, ExportHandler.GET. rewrite Hcollect, Hex. reflexivity.
  - intros Hall.
    assert (Hnone : existsb fails entries = false).
    { destruct (existsb fails entries) eqn:Hex; [|reflexivity].
      apply existsb_exists in Hex. destruct Hex as (entry & Hin & Hf).
      rewrite (Hall entry Hin) in Hf. discriminate. }
    unfold GET, ExportHandler.GET. rewrite Hcollect, Hnone.
    eexists. split; [reflexivity|]. apply Array_sort_permutation.
Qed.

End AllOrNothing.

(** C1, amended. The export is all or nothing. Entries that are no
    directory and workspaces without a store file are passed over, and an
    unreadable [workspace.json] only leaves the folder undefined. In any
    one workspace, a store that cannot be opened; a store that is no
    database, when a kind is requested; a requested row that is not JSON;
    a requested composer row without [allComposers]; or a requested
    thread or tab one of whose timestamps to format is no time value,
    makes the whole export answer with the error response. The export
    succeeds, with the conversations of all the workspaces, exactly when
    the directory can be listed and no workspace fails so. (A row that
    parses is taken to have the shape the route declares for it.) *)
Theorem export_all_or_nothing
  (now : Z) (request : ExportHandler.Request) (entries : list Disk.Dirent) :
  let includeChats :=
    ExportHandler.notFalse (ExportHandler.includeChatsParam request) in
  let includeComposers :=
    ExportHandler.notFalse (ExportHandler.includeComposersParam request) in
  let holds
    (processComposerChat
       : ComposerChat.t -> string -> option string
         -> Try.t ExportedConversation.t)
    (processChatTab
       : ChatTab.t -> string -> option string -> Try.t ExportedConversation.t)
    (datableTab : ChatTab.t -> bool) :=
    let GET := ExportHandler.GET processComposerChat processChatTab in
    let fails :=
      Spec.entryFails processComposerChat processChatTab
        includeChats includeComposers in
    (* all or nothing *)
    GET now request None = ExportHandler.InternalServerError
    /\ ((exists entry, In entry entries /\ fails entry = true) ->
        GET now request (Some entries) = ExportHandler.InternalServerError)
    /\ ((forall entry, In entry entries -> fails entry = false) ->
        exists exportData,
          GET now request (Some entries) = ExportHandler.Ok exportData
          /\ Permutation
               (flat_map
                  (Spec.entryConversations processComposerChat processChatTab
                     includeChats includeComposers)
                  entries)
               (ExportData.conversations exportData))
    (* the workspaces that fail *)
    /\ (forall name, fails (Disk.File name) = false)
    /\ (forall name workspaceJson,
          fails (Disk.Directory name None workspaceJson) = false)
    /\ (forall name workspaceJson,
          fails (Disk.Directory name (Some Disk.Unreadable) workspaceJson)
          = true)
    /\ (forall name workspaceJson,
          fails (Disk.Directory name (Some Disk.NotADatabase) workspaceJson)
          = includeComposers || includeChats)
    /\ (forall name db workspaceJson,
          fails (Disk.Directory name (Some (Disk.Readable db)) workspaceJson)
          = (includeComposers
             && match Disk.composerData db with
                | Some Disk.Malformed => true
                | Some (Disk.Parsed data) =>
                    match ComposerData.allComposers data with
                    | Some composers =>
                        negb (forallb Spec.datableThread composers)
                    | None => true
                    end
                | None => false
                end)
            || (includeChats
                && match Disk.chatdata db with
                   | Some Disk.Malformed => true
                   | Some (Disk.Parsed data) =>
                       match ChatData.tabs data with
                       | Some tabs => negb (forallb datableTab tabs)
                       | None => false
                       end
                   | None => false
                   end)) in
  holds ExportRoute.processComposerChat ExportRoute.processChatTab
    Spec.datableTab
  /\ holds ExportRouteBetterSqlite.processComposerChat
       ExportRouteBetterSqlite.processChatTab Spec.datableTabBetterSqlite.
Proof.
  cbv zeta.
  assert (Hexists : forall (A : Type) (f ok : A -> bool) (l : list A),
            (forall x, f x = negb (ok x)) ->
            existsb f l = negb (forallb ok l)).
  { intros A f ok l Hf. induction l as [|x l IH]; cbn [existsb forallb];
      [reflexivity|]. rewrite IH, Hf. now destruct (ok x). }
  assert (Hthreads : forall name folder composers,
            existsb
              (fun composer =>
                 Try.throws
                   (ExportRoute.processComposerChat composer name folder))
              composers
            = negb (forallb Spec.datableThread composers)).
  { intros name folder composers. apply Hexists.
    intros composer. rewrite processComposerChat_spec. apply throws_spec. }
  assert (Htabs : forall name folder tabs,
            existsb
              (fun tab => Try.throws (ExportRoute.processChatTab tab name folder))
              tabs
            = negb (forallb Spec.datableTab tabs)).
  { intros name folder tabs. apply Hexists.
    intros tab. rewrite processChatTab_spec. apply throws_spec. }
  assert (Htabs' : forall name folder tabs,
            existsb
              (fun tab =>
                 Try.throws
                   (ExportRouteBetterSqlite.processChatTab tab name folder))
              tabs
            = negb (forallb Spec.datableTabBetterSqlite tabs)).
  { intros name folder tabs. apply Hexists.
    intros tab. rewrite processChatTab_betterSqlite_spec. apply throws_spec. }
  split.
  - destruct (GET_all_or_nothing ExportRoute.processComposerChat
                ExportRoute.processChatTab now request entries)
      as (Hnone & Hfail & Hok).
    split; [exact Hnone|]. split; [exact Hfail|]. split; [exact Hok|].
    repeat split.
    intros name [composerRow chatRow] workspaceJson.
    cbn [Spec.entryFails Disk.composerData Disk.chatdata].
    unfold Spec.composerRowFails, Spec.chatRowFails.
    destruct composerRow as [[|[[composers|]]]|];
      destruct chatRow as [[|[[tabs|]]]|];
      cbn [ComposerData.allComposers ChatData.tabs];
      rewrite ?Hthreads, ?Htabs; reflexivity.
  - unfold ExportRouteBetterSqlite.processComposerChat.
    destruct (GET_all_or_nothing ExportRoute.processComposerChat
                ExportRouteBetterSqlite.processChatTab now request entries)
      as (Hnone & Hfail & Hok).
    split; [exact Hnone|]. split; [exact Hfail|]. split; [exact Hok|].
    repeat split.
    intros name [composerRow chatRow] workspaceJson.
    cbn [Spec.entryFails Disk.composerData Disk.chatdata].
    unfold Spec.composerRowFails, Spec.chatRowFails.
    destruct composerRow as [[|[[composers|]]]|];
      destruct chatRow as [[|[[tabs|]]]|];
      cbn [ComposerData.allComposers ChatData.tabs];
      rewrite ?Hthreads, ?Htabs'; reflexivity.
Qed.

(** ** What a successful export holds *)

Section Exported.

Variable processComposerChat
  : ComposerChat.t -> string -> option string -> Try.t ExportedConversation.t.
Variable processChatTab
  : ChatTab.t -> string -> option string -> Try.t ExportedConversation.t.

Lemma exported_members
  (now : Z) (request : ExportHandler.Request) (entries : list Disk.Dirent)
  (exportData : ExportData.t) :
  ExportHandler.GET processComposerChat processChatTab now request
    (Some entries) = ExportHandler.Ok exportData ->
  existsb
    (Spec.entryFails processComposerChat processChatTab
       (ExportHandler.notFalse (ExportHandler.includeChatsParam request))
       (ExportHandler.notFalse (ExportHandler.includeComposersParam request)))
    entries = false
  /\ forall c,
       In c (ExportData.conversations exportData)
       <-> In c (flat_map
                   (Spec.entryConversations processComposerChat processChatTab
                      (ExportHandler.notFalse
                         (ExportHandler.includeChatsParam request))
                      (ExportHandler.notFalse
                         (ExportHandler.includeComposersParam request)))
                   entries).
Proof.
  intros HGET.
  destruct (GET_sorted_stable _ _ _ _ _ _ HGET) as (enum & Hcollect & Hperm & _).
  pose proof (collect_spec processComposerChat processChatTab request entries)
    as Hspec.
  cbv zeta in Hspec. rewrite Hcollect in Hspec.
  destruct (existsb _ entries); [discriminate|].
  injection Hspec as ->. split; [reflexivity|].
  intros c. split; intros Hc.
  - exact (Permutation_in _ (Permutation_sym Hperm) Hc).
  - exact (Permutation_in _ Hperm Hc).
Qed.

(** Where an exported conversation comes from. *)
Lemma exported_origin (now : Z) (request : ExportHandler.Request)
  (entries : list Disk.Dirent) (exportData : ExportData.t)
  (c : ExportedConversation.t) :
  ExportHandler.GET processComposerChat processChatTab now request
    (Some entries) = ExportHandler.Ok exportData ->
  In c (ExportData.conversations exportData) ->
  exists name db workspaceJson,
    In (Disk.Directory name (Some (Disk.Readable db)) workspaceJson) entries
    /\ let folder := ExportHandler.readWorkspaceFolder workspaceJson in
       (ExportHandler.notFalse (ExportHandler.includeComposersParam request)
        = true
        /\ exists data composers composer,
             Disk.composerData db = Some (Disk.Parsed data)
             /\ ComposerData.allComposers data = Some composers
             /\ In composer composers
             /\ processComposerChat composer name folder = Try.Returns c)
       \/ (ExportHandler.notFalse (ExportHandler.includeChatsParam request)
           = true
           /\ exists data tabs tab,
                Disk.chatdata db = Some (Disk.Parsed data)
                /\ ChatData.tabs data = Some tabs
                /\ In tab tabs
                /\ processChatTab tab name folder = Try.Returns c).
Proof.
  intros HGET Hin.
  apply (exported_members _ _ _ _ HGET) in Hin.
  apply in_flat_map in Hin. destruct Hin as (entry & Hentry & Hin).
  destruct entry as [name|name [[| |db]|] workspaceJson];
    cbn [Spec.entryConversations] in Hin; try (now simpl in Hin).
  exists name, db, workspaceJson. split; [exact Hentry|].
  cbv zeta. apply in_app_or in Hin. destruct Hin as [Hin|Hin].
  - left.
    destruct (ExportHandler.notFalse
                (ExportHandler.includeComposersParam request));
      [|now simpl in Hin].
    split; [reflexivity|]. unfold Spec.composerConversations in Hin.
    destruct (Disk.composerData db) as [[|data]|]; try (now simpl in Hin).
    destruct (ComposerData.allComposers data) as [composers|] eqn:Hall;
      [|now simpl in Hin].
    apply returned_In in Hin. destruct Hin as (composer & Hin & Hc).
    exists data, composers, composer. auto.
  - right.
    destruct (ExportHandler.notFalse (ExportHandler.includeChatsParam request));
      [|now simpl in Hin].
    split; [reflexivity|]. unfold Spec.chatConversations in Hin.
    destruct (Disk.chatdata db) as [[|data]|]; try (now simpl in Hin).
    destruct (ChatData.tabs data) as [tabs|] eqn:Hall; [|now simpl in Hin].
    apply returned_In in Hin. destruct Hin as (tab & Hin & Hc).
    exists data, tabs, tab. auto.
Qed.

(** What a successful export includes. *)
Lemma export_includes (now : Z) (request : ExportHandler.Request)
  (entries : list Disk.Dirent) (exportData : ExportData.t) :
  ExportHandler.GET processComposerChat processChatTab now request
    (Some entries) = ExportHandler.Ok exportData ->
  Vocabulary.includesTheKinds processComposerChat processChatTab
    (ExportHandler.notFalse (ExportHandler.includeChatsParam request))
    (ExportHandler.notFalse (ExportHandler.includeComposersParam request))
    entries (ExportData.conversations exportData).
Proof.
  intros HGET. destruct (exported_members _ _ _ _ HGET) as [Hnone Hiff].
  intros name db workspaceJson Hentry folder.
  assert (Hsound :
            Spec.entryFails processComposerChat processChatTab
              (ExportHandler.notFalse (ExportHandler.includeChatsParam request))
              (ExportHandler.notFalse
                 (ExportHandler.includeComposersParam request))
              (Disk.Directory name (Some (Disk.Readable db)) workspaceJson)
            = false).
  { destruct (Spec.entryFails _ _ _ _ _) eqn:Hfails; [|reflexivity].
    assert (Hex : existsb
                    (Spec.entryFails processComposerChat processChatTab
                       (ExportHandler.notFalse
                          (ExportHandler.includeChatsParam request))
                       (ExportHandler.notFalse
                          (ExportHandler.includeComposersParam request)))
                    entries = true).
    { apply existsb_exists. eauto. }
    congruence. }
  cbn [Spec.entryFails] in Hsound. fold folder in Hsound.
  apply orb_false_iff in Hsound. destruct Hsound as [Hcomposers Hchats].
  split.
  - intros Hinc data composers composer Hrow Hall Hin.
    rewrite Hinc in Hcomposers. cbn [andb] in Hcomposers.
    unfold Spec.composerRowFails in Hcomposers.
    rewrite Hrow, Hall in Hcomposers.
    destruct (proj1 (none_throws _ _) Hcomposers composer Hin) as (c & Hc).
    exists c. split; [exact Hc|]. apply Hiff. apply in_flat_map.
    eexists. split; [exact Hentry|].
    cbn [Spec.entryConversations]. apply in_or_app. left.
    rewrite Hinc. unfold Spec.composerConversations. rewrite Hrow, Hall.
    apply returned_In. eauto.
  - intros Hinc data tabs tab Hrow Hall Hin.
    rewrite Hinc in Hchats. cbn [andb] in Hchats.
    unfold Spec.chatRowFails in Hchats. rewrite Hrow, Hall in Hchats.
    destruct (proj1 (none_throws _ _) Hchats tab Hin) as (c & Hc).
    exists c. split; [exact Hc|]. apply Hiff. apply in_flat_map.
    eexists. split; [exact Hentry|].
    cbn [Spec.entryConversations]. apply in_or_app. right.
    rewrite Hinc. unfold Spec.chatConversations. rewrite Hrow, Hall.
    apply returned_In. eauto.
Qed.

End Exported.

(** ** Lookup of exported conversations *)

Lemma plain_nonempty (name : string) : Path.plain name -> name <> "".
Proof. intros H ->. discriminate H. Qed.

Lemma findDirectory_listed (entries : list Disk.Dirent) (name : string)
  (file : option Disk.StoreFile)
  (workspaceJson : option (Disk.Blob Disk.WorkspaceJson)) :
  NoDup (map Disk.nameOf entries) ->
  In (Disk.Directory name file workspaceJson) entries ->
  Disk.findDirectory entries name
  = Some (Disk.Directory name file workspaceJson).
Proof.
  unfold Disk.findDirectory.
  induction entries as [|entry rest IH]; intros Hnd Hin; [destruct Hin|].
  cbn [map] in Hnd. apply NoDup_cons_iff in Hnd. destruct Hnd as [Hfresh Hnd].
  cbn [find]. destruct Hin as [->|Hin].
  - cbn [Disk.isDirectoryNamed]. now rewrite String.eqb_refl.
  - destruct (Disk.isDirectoryNamed name entry) eqn:Hentry; [|now apply IH].
    exfalso. apply Hfresh.
    destruct entry as [other|other file' workspaceJson']; [discriminate|].
    cbn [Disk.isDirectoryNamed] in Hentry. apply String.eqb_eq in Hentry.
    subst other. cbn [Disk.nameOf].
    change name with (Disk.nameOf (Disk.Directory name file workspaceJson)).
    now apply in_map.
Qed.

(** A [workspaceId] that leads to a listed directory reaches the
    [state.vscdb] of that directory. *)
Lemma stateVscdbOf_directory (disk : Disk.Volume) (entries : list Disk.Dirent)
  (workspaceId name : string) (file : option Disk.StoreFile)
  (workspaceJson : option (Disk.Blob Disk.WorkspaceJson)) :
  Disk.storage disk = Some entries ->
  NoDup (map Disk.nameOf entries) ->
  Path.relative workspaceId = [name] ->
  In (Disk.Directory name file workspaceJson) entries ->
  Disk.stateVscdbOf disk workspaceId = file.
Proof.
  intros Hstorage Hnd Hplace Hin. unfold Disk.stateVscdbOf.
  rewrite Hplace, Hstorage.
  now rewrite (findDirectory_listed _ _ _ _ Hnd Hin).
Qed.

Lemma find_present {A : Type} (f : A -> bool) (l : list A) (x : A) :
  In x l -> f x = true -> exists y, find f l = Some y.
Proof.
  induction l as [|z l IH]; intros Hin Hx; [destruct Hin|].
  cbn [find]. destruct (f z) eqn:Hz; [eauto|].
  destruct Hin as [->|Hin]; [congruence|auto].
Qed.

Lemma ensureConversation_composerId (composer : ComposerChat.t) :
  ComposerChat.composerId (ConversationRoute.ensureConversation composer)
  = ComposerChat.composerId composer.
Proof.
  unfold ConversationRoute.ensureConversation.
  destruct (ComposerChat.conversation composer); reflexivity.
Qed.

Lemma ensureConversation_normalised (composer : ComposerChat.t) (ws : string)
  (folder : option string) :
  ExportRoute.processComposerChat
    (ConversationRoute.ensureConversation composer) ws folder
  = ExportRoute.processComposerChat composer ws folder.
Proof.
  unfold ConversationRoute.ensureConversation.
  destruct composer as [composerId name createdAt lastUpdatedAt conversation
                          context].
  destruct conversation as [conversation|]; reflexivity.
Qed.

Lemma truthyString_nonempty (s : string) :
  s <> "" -> JS.truthyString s = true.
Proof.
  intros Hne. unfold JS.truthyString.
  destruct (String.eqb_spec s ""); [contradiction|reflexivity].
Qed.

Section RoundTrip.

Variable processChatTab
  : ChatTab.t -> string -> option string -> Try.t ExportedConversation.t.
Hypothesis processChatTab_type : forall chatTab ws folder c,
  processChatTab chatTab ws folder = Try.Returns c ->
  ExportedConversation.type c = "chat".
Hypothesis processChatTab_id : forall chatTab ws folder c,
  processChatTab chatTab ws folder = Try.Returns c ->
  ExportedConversation.id c = ChatTab.id chatTab.
Hypothesis processChatTab_workspace : forall chatTab ws folder c,
  processChatTab chatTab ws folder = Try.Returns c ->
  WorkspaceRef.id (ExportedConversation.workspace c) = ws.

Let GET := ExportHandler.GET ExportRoute.processComposerChat processChatTab.

(** The round trip holds for every exported composer conversation. *)
Lemma composer_round_trip (now : Z) (request : ExportHandler.Request)
  (disk : Disk.Volume) (entries : list Disk.Dirent)
  (exportData : ExportData.t) (c : ExportedConversation.t) :
  Disk.storage disk = Some entries ->
  Spec.listing entries ->
  GET now request (Some entries) = ExportHandler.Ok exportData ->
  In c (ExportData.conversations exportData) ->
  ExportedConversation.type c = "composer" ->
  Spec.roundTrips disk c.
Proof.
  intros Hstorage [Hnd Hnames] HGET Hin Htype.
  destruct (exported_origin _ _ _ _ _ _ _ HGET Hin)
    as (name & db & wj & Hentry & [[_ Hsrc]|[_ Hsrc]]); cbv zeta in Hsrc.
  2:{ destruct Hsrc as (data & tabs & tab & _ & _ & _ & Hc).
      rewrite (processChatTab_type _ _ _ _ Hc) in Htype. discriminate. }
  destruct Hsrc as (data & composers & composer & Hrow & Hall & Hcomposer & Hc).
  returned Hc.
  assert (Hplain : Path.plain name).
  { rewrite Forall_forall in Hnames. exact (Hnames _ Hentry). }
  assert (Hname : JS.truthyString name = true).
  { apply truthyString_nonempty, plain_nonempty, Hplain. }
  destruct (find_present
              (ConversationRoute.matchesComposer
                 (ComposerChat.composerId composer))
              composers composer Hcomposer)
    as (found & Hfound).
  { unfold ConversationRoute.matchesComposer. apply String.eqb_refl. }
  unfold Spec.roundTrips, Spec.lookupRequestFor, ConversationRoute.GET.
  cbn [Returned.processComposerChat ExportedConversation.id
       ExportedConversation.workspace ExportedConversation.type
       WorkspaceRef.id ConversationRoute.workspaceIdParam
       ConversationRoute.typeParam ConversationRoute.id].
  rewrite Hname. cbn [negb orb andb].
  change (JS.truthyString "composer") with true.
  change (String.eqb "composer" "chat") with false.
  change (String.eqb "composer" "composer") with true.
  cbn [negb orb andb].
  rewrite (stateVscdbOf_directory _ _ _ _ _ _ Hstorage Hnd Hplain Hentry).
  cbn [Try.openStore Try.bind]. unfold ConversationRoute.search.
  change (String.eqb "composer" "composer") with true. cbv iota.
  cbn [Try.get Try.bind].
  rewrite Hrow. cbn [Try.JSON_parse Try.bind]. rewrite Hall.
  cbn [Try.required Try.bind]. rewrite Hfound.
  eexists _, _. split; [reflexivity|].
  cbn [ConversationRoute.metaId]. rewrite ensureConversation_composerId.
  apply find_some in Hfound. destruct Hfound as [_ Hmatch].
  now apply String.eqb_eq in Hmatch.
Qed.

(** The round trip holds for an exported chat conversation when the
    stored tabs carry a [tabId] equal to their [id]. *)
Lemma chat_round_trip (now : Z) (request : ExportHandler.Request)
  (disk : Disk.Volume) (entries : list Disk.Dirent)
  (exportData : ExportData.t) (c : ExportedConversation.t) :
  Disk.storage disk = Some entries ->
  Spec.listing entries ->
  Spec.tabIdsAgree entries ->
  GET now request (Some entries) = ExportHandler.Ok exportData ->
  In c (ExportData.conversations exportData) ->
  ExportedConversation.type c = "chat" ->
  Spec.roundTrips disk c.
Proof.
  intros Hstorage [Hnd Hnames] Hagree HGET Hin Htype.
  destruct (exported_origin _ _ _ _ _ _ _ HGET Hin)
    as (name & db & wj & Hentry & [[_ Hsrc]|[_ Hsrc]]); cbv zeta in Hsrc.
  { destruct Hsrc as (data & composers & composer & _ & _ & _ & Hc).
    returned Hc. discriminate Htype. }
  destruct Hsrc as (data & tabs & tab & Hrow & Hall & Htab & Hc).
  assert (Hplain : Path.plain name).
  { rewrite Forall_forall in Hnames. exact (Hnames _ Hentry). }
  assert (Hname : JS.truthyString name = true).
  { apply truthyString_nonempty, plain_nonempty, Hplain. }
  destruct (find_present (ConversationRoute.matchesTab (ChatTab.id tab))
              tabs tab Htab)
    as (found & Hfound).
  { unfold ConversationRoute.matchesTab.
    rewrite (Hagree _ _ _ _ _ _ Hentry Hrow Hall Htab).
    apply String.eqb_refl. }
  unfold Spec.roundTrips, Spec.lookupRequestFor, ConversationRoute.GET.
  rewrite (processChatTab_type _ _ _ _ Hc), (processChatTab_id _ _ _ _ Hc),
    (processChatTab_workspace _ _ _ _ Hc).
  cbn [ConversationRoute.workspaceIdParam ConversationRoute.typeParam
       ConversationRoute.id].
  rewrite Hname. cbn [negb orb andb].
  change (JS.truthyString "chat") with true.
  change (String.eqb "chat" "chat") with true.
  cbn [negb orb andb].
  rewrite (stateVscdbOf_directory _ _ _ _ _ _ Hstorage Hnd Hplain Hentry).
  cbn [Try.openStore Try.bind]. unfold ConversationRoute.search.
  change (String.eqb "chat" "composer") with false.
  change (String.eqb "chat" "chat") with true. cbv iota.
  cbn [Try.get Try.bind].
  rewrite Hrow. cbn [Try.JSON_parse Try.bind]. rewrite Hall.
  cbn [Try.required Try.bind]. rewrite Hfound.
  eexists _, _. split; [reflexivity|].
  cbn [ConversationRoute.metaId].
  apply find_some in Hfound. destruct Hfound as [Hfin Hmatch].
  unfold ConversationRoute.matchesTab in Hmatch.
  destruct (ChatTab.tabId found) as [tabId|]; [|discriminate].
  now apply String.eqb_eq in Hmatch.
Qed.

End RoundTrip.

Lemma processChatTab_fields (chatTab : ChatTab.t) (ws : string)
  (folder : option string) (c : ExportedConversation.t) :
  ExportRoute.processChatTab chatTab ws folder = Try.Returns c
  \/ ExportRouteBetterSqlite.processChatTab chatTab ws folder = Try.Returns c ->
  ExportedConversation.type c = "chat"
  /\ ExportedConversation.id c = ChatTab.id chatTab
  /\ WorkspaceRef.id (ExportedConversation.workspace c) = ws
  /\ WorkspaceRef.folder (ExportedConversation.workspace c) = folder.
Proof. intros [Hc|Hc]; returned Hc; repeat split. Qed.

Lemma processComposerChat_fields (composer : ComposerChat.t) (ws : string)
  (folder : option string) (c : ExportedConversation.t) :
  ExportRoute.processComposerChat composer ws folder = Try.Returns c ->
  ExportedConversation.type c = "composer"
  /\ ExportedConversation.id c = ComposerChat.composerId composer
  /\ WorkspaceRef.id (ExportedConversation.workspace c) = ws
  /\ WorkspaceRef.folder (ExportedConversation.workspace c) = folder.
Proof. intros Hc; returned Hc; repeat split. Qed.

(** Both export routes: every exported composer conversation round-trips
    through the lookup, and so does every exported chat conversation of a
    store whose tabs carry a [tabId] equal to their [id]. *)
Corollary round_trip_where_ids_agree
  (now : Z) (request : ExportHandler.Request) (disk : Disk.Volume)
  (entries : list Disk.Dirent) (exportData : ExportData.t)
  (c : ExportedConversation.t) :
  Disk.storage disk = Some entries ->
  Spec.listing entries ->
  ExportRoute.GET now request (Some entries) = ExportHandler.Ok exportData
  \/ ExportRouteBetterSqlite.GET now request (Some entries)
     = ExportHandler.Ok exportData ->
  In c (ExportData.conversations exportData) ->
  (ExportedConversation.type c = "composer" -> Spec.roundTrips disk c)
  /\ (ExportedConversation.type c = "chat" -> Spec.tabIdsAgree entries ->
      Spec.roundTrips disk c).
Proof.
  intros Hstorage Hl [HGET|HGET] Hin; split.
  - now apply (composer_round_trip ExportRoute.processChatTab
                 (fun t w f c H =>
                    proj1 (processChatTab_fields t w f c (or_introl H)))
                 now request disk entries exportData).
  - intros Htype Hagree.
    now apply (chat_round_trip ExportRoute.processChatTab
                 (fun t w f c H =>
                    proj1 (processChatTab_fields t w f c (or_introl H)))
                 (fun t w f c H =>
                    proj1 (proj2 (processChatTab_fields t w f c (or_introl H))))
                 (fun t w f c H =>
                    proj1 (proj2 (proj2
                      (processChatTab_fields t w f c (or_introl H)))))
                 now request disk entries exportData).
  - now apply (composer_round_trip ExportRouteBetterSqlite.processChatTab
                 (fun t w f c H =>
                    proj1 (processChatTab_fields t w f c (or_intror H)))
                 now request disk entries exportData).
  - intros Htype Hagree.
    now apply (chat_round_trip ExportRouteBetterSqlite.processChatTab
                 (fun t w f c H =>
                    proj1 (processChatTab_fields t w f c (or_intror H)))
                 (fun t w f c H =>
                    proj1 (proj2 (processChatTab_fields t w f c (or_intror H))))
                 (fun t w f c H =>
                    proj1 (proj2 (proj2
                      (processChatTab_fields t w f c (or_intror H)))))
                 now request disk entries exportData).
Qed.

(** The stored records and the canonical conversations never serialise
    to the same JSON: a stored thread starts with [composerId] where a
    canonical conversation starts with [id], and the second property of
    a stored tab is [tabId] or [title] where that of a canonical
    conversation is [type]. *)
Lemma stored_shape_differs (conversation : ConversationRoute.Conversation)
  (c : ExportedConversation.t) : ~ Spec.sameShape conversation c.
Proof.
  unfold Spec.sameShape, Json.ofExportedConversation.
  destruct conversation as [composer|chat];
    cbn [Json.ofLookupConversation]; intros H.
  - unfold Json.ofComposerChat, Json.always in H. cbn [app] in H.
    discriminate H.
  - unfold Json.ofChatTab, Json.always, Json.property in H.
    destruct (ChatTab.tabId chat); cbn [app] in H; discriminate H.
Qed.

(** C3, the failing input. The tab of scenario B is stored in workspace
    [ws-a] with the id [tab-b] and no [tabId]. Both export routes list
    it as the chat conversation [tab-b] of [ws-a]; the lookup of that
    id, type and workspace compares the request id with [tabId], finds
    nothing and answers 404, whatever else the volume holds. *)
Theorem chat_lookup_misses_exported_tab :
  let folder := Some "/home/dev/project" in
  let c := Returned.processChatTab Spec.scenarioB "ws-a" folder in
  let c' := ReturnedBetterSqlite.processChatTab Spec.scenarioB "ws-a" folder in
  ExportRoute.processChatTab Spec.scenarioB "ws-a" folder = Try.Returns c
  /\ ExportRouteBetterSqlite.processChatTab Spec.scenarioB "ws-a" folder
     = Try.Returns c'
  /\ (ExportRoute.GET 0 Spec.fullRequest Spec.sampleDisk
      = ExportHandler.Ok Spec.sampleExport
      /\ In c (ExportData.conversations Spec.sampleExport))
  /\ (exists exportData,
        ExportRouteBetterSqlite.GET 0 Spec.fullRequest Spec.sampleDisk
        = ExportHandler.Ok exportData
        /\ In c' (ExportData.conversations exportData))
  /\ Spec.lookupRequestFor c
     = ConversationRoute.mkRequest "tab-b" (Some "ws-a") (Some "chat")
  /\ Spec.lookupRequestFor c' = Spec.lookupRequestFor c
  /\ forall elsewhere,
       let disk := Disk.mkVolume Spec.sampleDisk elsewhere in
       ConversationRoute.GET (Spec.lookupRequestFor c) disk
       = ConversationRoute.NotFound "Conversation not found"
       /\ ~ Spec.roundTrips disk c
       /\ ~ Spec.roundTrips disk c'.
Proof.
  cbv zeta. split; [reflexivity|]. split; [reflexivity|].
  split; [split; [reflexivity|right; left; reflexivity]|].
  split; [eexists; split; [reflexivity|right; left; reflexivity]|].
  split; [reflexivity|]. split; [reflexivity|].
  intros elsewhere. split; [reflexivity|].
  split; intros (conversation & metadata & H & _); discriminate H.
Qed.

(** ** The body of a lookup *)

(** C4, the claim as stated fails. The thread of scenario A is exported
    from [ws-a] as a canonical conversation; its lookup answers with the
    stored thread itself, which is not the same JSON. *)
Lemma lookup_body_is_not_canonical :
  let folder := Some "/home/dev/project" in
  let c := Returned.processComposerChat Spec.scenarioA "ws-a" folder in
  ExportRoute.processComposerChat Spec.scenarioA "ws-a" folder = Try.Returns c
  /\ ExportRoute.GET 0 Spec.fullRequest Spec.sampleDisk
     = ExportHandler.Ok Spec.sampleExport
  /\ In c (ExportData.conversations Spec.sampleExport)
  /\ forall elsewhere,
       ConversationRoute.GET (Spec.lookupRequestFor c)
         (Disk.mkVolume Spec.sampleDisk elsewhere)
       = ConversationRoute.Ok (ConversationRoute.Composer Spec.scenarioA)
           (ConversationRoute.mkMetadata "thread-a" "composer" "ws-a")
  /\ ~ Spec.sameShape (ConversationRoute.Composer Spec.scenarioA) c.
Proof.
  cbv zeta. split; [reflexivity|]. split; [reflexivity|].
  split; [right; right; left; reflexivity|]. split; [intros; reflexivity|].
  apply stored_shape_differs.
Qed.

Lemma lookup_search_found (db : Disk.Store) (type id workspaceId : string)
  (conversation : ConversationRoute.Conversation)
  (metadata : ConversationRoute.Metadata) :
  ConversationRoute.search (Disk.Readable db) type id workspaceId
  = Try.Returns (Some (conversation, metadata)) ->
  ConversationRoute.metaId metadata = id
  /\ ConversationRoute.metaType metadata = type
  /\ ConversationRoute.metaWorkspaceId metadata = workspaceId
  /\ ((exists data composers composer,
         type = "composer"
         /\ Disk.composerData db = Some (Disk.Parsed data)
         /\ ComposerData.allComposers data = Some composers
         /\ In composer composers
         /\ ComposerChat.composerId composer = id
         /\ conversation
            = ConversationRoute.Composer
                (ConversationRoute.ensureConversation composer))
      \/ (exists data tabs chat,
            type = "chat"
            /\ Disk.chatdata db = Some (Disk.Parsed data)
            /\ ChatData.tabs data = Some tabs
            /\ In chat tabs
            /\ ChatTab.tabId chat = Some id
            /\ conversation = ConversationRoute.Chat chat)).
Proof.
  unfold ConversationRoute.search. cbn [Try.get Try.bind].
  destruct (String.eqb_spec type "composer") as [->|Hnc].
  - destruct (Disk.composerData db) as [[|data]|] eqn:Hrow;
      cbn [Try.JSON_parse Try.bind]; try discriminate.
    destruct (ComposerData.allComposers data) as [composers|] eqn:Hall;
      cbn [Try.required Try.bind]; try discriminate.
    destruct (find _ composers) as [composer|] eqn:Hfind; try discriminate.
    intros H. injection H as <- <-.
    apply find_some in Hfind. destruct Hfind as [Hin Hmatch].
    apply String.eqb_eq in Hmatch.
    cbn [ConversationRoute.metaId ConversationRoute.metaType
         ConversationRoute.metaWorkspaceId].
    rewrite ensureConversation_composerId.
    repeat split; try assumption. left.
    exists data, composers, composer. repeat split; assumption.
  - destruct (String.eqb_spec type "chat") as [->|Hnchat]; [|discriminate].
    destruct (Disk.chatdata db) as [[|data]|] eqn:Hrow;
      cbn [Try.JSON_parse Try.bind]; try discriminate.
    destruct (ChatData.tabs data) as [tabs|] eqn:Hall;
      cbn [Try.required Try.bind]; try discriminate.
    destruct (find _ tabs) as [chat|] eqn:Hfind; try discriminate.
    intros H. injection H as <- <-.
    apply find_some in Hfind. destruct Hfind as [Hin Hmatch].
    unfold ConversationRoute.matchesTab in Hmatch.
    destruct (ChatTab.tabId chat) as [tabId|] eqn:Htab; [|discriminate].
    apply String.eqb_eq in Hmatch. subst tabId.
    cbn [ConversationRoute.metaId ConversationRoute.metaType
         ConversationRoute.metaWorkspaceId].
    repeat split. right.
    exists data, tabs, chat. repeat split; assumption.
Qed.

Lemma truthyString_spec (s : string) :
  JS.truthyString s = true <-> s <> "".
Proof.
  unfold JS.truthyString. destruct (String.eqb_spec s ""); simpl; split;
    congruence.
Qed.

Lemma notFalse_false (param : option string) :
  ExportHandler.notFalse param = false <-> param = Some "false".
Proof.
  unfold ExportHandler.notFalse. destruct param as [v|]; [|split; discriminate].
  destruct (String.eqb_spec v "false") as [->|Hne]; simpl; split;
    try reflexivity; try discriminate; congruence.
Qed.

Lemma notFalse_true (param : option string) :
  ExportHandler.notFalse param = true <-> param <> Some "false".
Proof.
  rewrite <- notFalse_false.
  destruct (ExportHandler.notFalse param); split; congruence.
Qed.

(** The handler once its parameters have passed validation. *)
Lemma lookup_validated (request : ConversationRoute.Request)
  (disk : Disk.Volume) (workspaceId type : string) :
  ConversationRoute.workspaceIdParam request = Some workspaceId ->
  ConversationRoute.typeParam request = Some type ->
  workspaceId <> "" ->
  type = "chat" \/ type = "composer" ->
  ConversationRoute.GET request disk
  = match Disk.stateVscdbOf disk workspaceId with
    | None => ConversationRoute.NotFound "Workspace not found"
    | Some Disk.Unreadable => ConversationRoute.InternalServerError
    | Some Disk.NotADatabase => ConversationRoute.InternalServerError
    | Some (Disk.Readable db) =>
        match ConversationRoute.search (Disk.Readable db) type
                (ConversationRoute.id request) workspaceId with
        | Try.Returns (Some (conversation, metadata)) =>
            ConversationRoute.Ok conversation metadata
        | Try.Returns None =>
            ConversationRoute.NotFound "Conversation not found"
        | Try.Throws => ConversationRoute.InternalServerError
        end
    end.
Proof.
  intros Hws Htype Hne Hkind. unfold ConversationRoute.GET.
  rewrite Hws, Htype. rewrite (proj2 (truthyString_spec workspaceId) Hne).
  destruct Hkind as [-> | ->]; cbn [negb orb andb JS.truthyString String.eqb
                                     Ascii.eqb Bool.eqb];
    destruct (Disk.stateVscdbOf disk workspaceId) as [[| |db]|]; reflexivity.
Qed.

Lemma lookup_ok_validated (request : ConversationRoute.Request)
  (disk : Disk.Volume) (conversation : ConversationRoute.Conversation)
  (metadata : ConversationRoute.Metadata) :
  ConversationRoute.GET request disk
  = ConversationRoute.Ok conversation metadata ->
  exists workspaceId type db,
    ConversationRoute.workspaceIdParam request = Some workspaceId
    /\ ConversationRoute.typeParam request = Some type
    /\ workspaceId <> ""
    /\ (type = "chat" \/ type = "composer")
    /\ Disk.stateVscdbOf disk workspaceId = Some (Disk.Readable db)
    /\ ConversationRoute.search (Disk.Readable db) type
         (ConversationRoute.id request) workspaceId
       = Try.Returns (Some (conversation, metadata)).
Proof.
  intros HGET.
  destruct (ConversationRoute.workspaceIdParam request) as [workspaceId|] eqn:Hw.
  2:{ unfold ConversationRoute.GET in HGET. rewrite Hw in HGET.
      discriminate HGET. }
  destruct (ConversationRoute.typeParam request) as [type|] eqn:Ht.
  2:{ unfold ConversationRoute.GET in HGET. rewrite Hw, Ht in HGET.
      discriminate HGET. }
  destruct (String.eqb_spec workspaceId "") as [->|Hne].
  { unfold ConversationRoute.GET in HGET. rewrite Hw, Ht in HGET.
    discriminate HGET. }
  assert (Hkind : type = "chat" \/ type = "composer").
  { unfold ConversationRoute.GET in HGET. rewrite Hw, Ht in HGET.
    rewrite (proj2 (truthyString_spec workspaceId) Hne) in HGET.
    destruct (JS.truthyString type); [|discriminate HGET].
    cbn [negb orb] in HGET.
    destruct (String.eqb_spec type "chat") as [Hchat|Hchat]; [now left|].
    destruct (String.eqb_spec type "composer") as [Hcomposer|Hcomposer];
      [now right|discriminate HGET]. }
  rewrite (lookup_validated request disk workspaceId type Hw Ht Hne Hkind)
    in HGET.
  destruct (Disk.stateVscdbOf disk workspaceId) as [[| |db]|] eqn:Hstore;
    try discriminate HGET.
  destruct (ConversationRoute.search (Disk.Readable db) type
              (ConversationRoute.id request) workspaceId)
    as [|[[found meta]|]] eqn:Hsearch; try discriminate HGET.
  injection HGET as <- <-.
  exists workspaceId, type, db. repeat split; auto.
Qed.

(** C4, amended. A successful lookup does not normalise. It answers
    with the entry of the requested type whose identifying field is the
    requested id, as it is stored (a thread with [conversation] set to
    the empty list when it has none, a tab unchanged), wrapped with the
    metadata [id], [type], [workspaceId] of the request, as the request
    spells them; the body is never the JSON of a canonical conversation.
    Against a successful export of either route that includes the kind:
    when the [workspaceId] of the request leads to a listed directory,
    the export holds the canonical conversation of the entry handed
    back, of the metadata's type and, for a thread, id; its
    [workspace.id] is the name of the directory, which is the metadata's
    [workspaceId] only when the request spells the name itself. *)
Theorem lookup_returns_stored_entry
  (request : ConversationRoute.Request) (disk : Disk.Volume)
  (conversation : ConversationRoute.Conversation)
  (metadata : ConversationRoute.Metadata) :
  ConversationRoute.GET request disk
  = ConversationRoute.Ok conversation metadata ->
  exists workspaceId db,
    ConversationRoute.workspaceIdParam request = Some workspaceId
    /\ Disk.stateVscdbOf disk workspaceId = Some (Disk.Readable db)
    /\ ConversationRoute.typeParam request
       = Some (ConversationRoute.metaType metadata)
    /\ metadata
       = ConversationRoute.mkMetadata (ConversationRoute.id request)
           (ConversationRoute.metaType metadata) workspaceId
    /\ (forall c, ~ Spec.sameShape conversation c)
    /\ ((exists data composers composer,
           ConversationRoute.metaType metadata = "composer"
           /\ Disk.composerData db = Some (Disk.Parsed data)
           /\ ComposerData.allComposers data = Some composers
           /\ In composer composers
           /\ ComposerChat.composerId composer = ConversationRoute.id request
           /\ conversation
              = ConversationRoute.Composer
                  (ConversationRoute.ensureConversation composer))
        \/ (exists data tabs chat,
              ConversationRoute.metaType metadata = "chat"
              /\ Disk.chatdata db = Some (Disk.Parsed data)
              /\ ChatData.tabs data = Some tabs
              /\ In chat tabs
              /\ ChatTab.tabId chat = Some (ConversationRoute.id request)
              /\ conversation = ConversationRoute.Chat chat))
    /\ forall entries name file workspaceJson now exportRequest exportData,
         Disk.storage disk = Some entries ->
         NoDup (map Disk.nameOf entries) ->
         Path.relative workspaceId = [name] ->
         In (Disk.Directory name file workspaceJson) entries ->
         ExportRoute.GET now exportRequest (Some entries)
         = ExportHandler.Ok exportData
         \/ ExportRouteBetterSqlite.GET now exportRequest (Some entries)
            = ExportHandler.Ok exportData ->
         Vocabulary.kindParam (ConversationRoute.metaType metadata)
           exportRequest <> Some "false" ->
         file = Some (Disk.Readable db)
         /\ exists c,
              In c (ExportData.conversations exportData)
              /\ Vocabulary.exportedFrom conversation name
                   (ExportHandler.readWorkspaceFolder workspaceJson) c
              /\ ExportedConversation.type c
                 = ConversationRoute.metaType metadata
              /\ (ConversationRoute.metaType metadata = "composer" ->
                  ExportedConversation.id c
                  = ConversationRoute.metaId metadata)
              /\ WorkspaceRef.id (ExportedConversation.workspace c) = name
              /\ (ConversationRoute.metaWorkspaceId metadata
                  = WorkspaceRef.id (ExportedConversation.workspace c)
                  <-> workspaceId = name).
Proof.
  intros HGET.
  destruct (lookup_ok_validated _ _ _ _ HGET)
    as (workspaceId & type & db & Hw & Ht & Hne & Hkind & Hstore & Hsearch).
  destruct (lookup_search_found _ _ _ _ _ _ Hsearch)
    as (Hid & Htype & Hws & Hentry).
  exists workspaceId, db. split; [exact Hw|]. split; [exact Hstore|].
  split; [now rewrite Htype|].
  split; [destruct metadata; cbn in *; congruence|].
  split; [intros c; apply stored_shape_differs|].
  rewrite Htype, Hws, Hid. clear Hkind Hsearch.
  destruct Hentry as [(data & composers & composer & -> & Hrow & Hall & Hin
                       & Hcid & ->)
                     |(data & tabs & chat & -> & Hrow & Hall & Hin & Htab & ->)].
  - split.
    { left. exists data, composers, composer. repeat split; assumption. }
    intros entries name file workspaceJson now exportRequest exportData
      Hstorage Hnd Hplace Hlisted Hexport Hparam.
    assert (Hfile : file = Some (Disk.Readable db)).
    { rewrite <- (stateVscdbOf_directory _ _ _ _ _ _ Hstorage Hnd Hplace
                    Hlisted).
      exact Hstore. }
    split; [exact Hfile|]. subst file.
    change (Vocabulary.kindParam "composer" exportRequest)
      with (ExportHandler.includeComposersParam exportRequest) in Hparam.
    apply notFalse_true in Hparam.
    assert (Hc : exists c,
              ExportRoute.processComposerChat composer name
                (ExportHandler.readWorkspaceFolder workspaceJson)
              = Try.Returns c
              /\ In c (ExportData.conversations exportData)).
    { destruct Hexport as [HGETe|HGETe];
        exact (proj1 (export_includes _ _ _ _ _ _ HGETe name db workspaceJson
                        Hlisted)
                 Hparam data composers composer Hrow Hall Hin). }
    destruct Hc as (c & Hc & Hmember). exists c. split; [exact Hmember|].
    destruct (processComposerChat_fields _ _ _ _ Hc) as (Htc & Hidc & Hwsc & _).
    split; [cbn [Vocabulary.exportedFrom];
            now rewrite ensureConversation_normalised|].
    split; [exact Htc|]. split; [intros _; congruence|].
    split; [exact Hwsc|]. rewrite Hwsc. reflexivity.
  - split.
    { right. exists data, tabs, chat. repeat split; assumption. }
    intros entries name file workspaceJson now exportRequest exportData
      Hstorage Hnd Hplace Hlisted Hexport Hparam.
    assert (Hfile : file = Some (Disk.Readable db)).
    { rewrite <- (stateVscdbOf_directory _ _ _ _ _ _ Hstorage Hnd Hplace
                    Hlisted).
      exact Hstore. }
    split; [exact Hfile|]. subst file.
    change (Vocabulary.kindParam "chat" exportRequest)
      with (ExportHandler.includeChatsParam exportRequest) in Hparam.
    apply notFalse_true in Hparam.
    assert (Hc : exists c,
              (ExportRoute.processChatTab chat name
                 (ExportHandler.readWorkspaceFolder workspaceJson)
               = Try.Returns c
               \/ ExportRouteBetterSqlite.processChatTab chat name
                    (ExportHandler.readWorkspaceFolder workspaceJson)
                  = Try.Returns c)
              /\ In c (ExportData.conversations exportData)).
    { destruct Hexport as [HGETe|HGETe];
        destruct (proj2 (export_includes _ _ _ _ _ _ HGETe name db workspaceJson
                           Hlisted)
                    Hparam data tabs chat Hrow Hall Hin) as (c & Hc & Hmember);
        exists c; auto. }
    destruct Hc as (c & Hc & Hmember). exists c. split; [exact Hmember|].
    destruct (processChatTab_fields _ _ _ _ Hc) as (Htc & _ & Hwsc & _).
    split; [exact Hc|]. split; [exact Htc|].
    split; [intros Hbad; discriminate Hbad|].
    split; [exact Hwsc|]. rewrite Hwsc. reflexivity.
Qed.

(** The thread of scenario A, looked up in the workspace [ws-a] spelled
    [ws-a/]. *)
Lemma lookup_returns_stored_scenarioA :
  ConversationRoute.GET
    (ConversationRoute.mkRequest "thread-a" (Some "ws-a/") (Some "composer"))
    (Disk.only Spec.sampleDisk)
  = ConversationRoute.Ok (ConversationRoute.Composer Spec.scenarioA)
      (ConversationRoute.mkMetadata "thread-a" "composer" "ws-a/")
  /\ exists c,
       In c (ExportData.conversations Spec.sampleExport)
       /\ ExportedConversation.id c = "thread-a"
       /\ WorkspaceRef.id (ExportedConversation.workspace c) = "ws-a"
       /\ "ws-a/" <> WorkspaceRef.id (ExportedConversation.workspace c).
Proof.
  split; [reflexivity|].
  destruct (lookup_returns_stored_entry
              (ConversationRoute.mkRequest "thread-a" (Some "ws-a/")
                 (Some "composer"))
              (Disk.only Spec.sampleDisk)
              (ConversationRoute.Composer Spec.scenarioA)
              (ConversationRoute.mkMetadata "thread-a" "composer" "ws-a/")
              eq_refl)
    as (workspaceId & db & Hw & Hstore & _ & _ & _ & _ & Hexport).
  injection Hw as <-.
  destruct (Hexport [Spec.workspaceA; Spec.workspaceB] "ws-a"
              (Some (Disk.Readable
                       (Disk.mkStore
                          (Some (Disk.Parsed
                                   (ComposerData.mk
                                      (Some [Spec.scenarioA; Spec.threadC]))))
                          (Some (Disk.Parsed
                                   (ChatData.mk (Some [Spec.scenarioB])))))))
              (Some (Disk.Parsed (Disk.mkWorkspaceJson (Some "/home/dev/project"))))
              0 Spec.fullRequest Spec.sampleExport eq_refl)
    as (_ & c & Hmember & _ & _ & Hid & Hname & Hsame).
  - repeat constructor; simpl; intuition discriminate.
  - reflexivity.
  - left. reflexivity.
  - left. reflexivity.
  - discriminate.
  - exists c. split; [exact Hmember|]. split; [exact (Hid eq_refl)|].
    split; [exact Hname|].
    intros Heq. apply Hsame in Heq. discriminate Heq.
Defined.

(** The sample export; a thread whose [createdAt] is no time value; a
    file that is no database, with a kind requested and with none. *)
Lemma export_all_or_nothing_sample :
  (exists exportData,
     ExportRoute.GET 0 Spec.fullRequest Spec.sampleDisk
     = ExportHandler.Ok exportData
     /\ Permutation
          (flat_map
             (Spec.entryConversations ExportRoute.processComposerChat
                ExportRoute.processChatTab true true)
             [Spec.workspaceA; Spec.workspaceB])
          (ExportData.conversations exportData))
  /\ ExportRoute.GET 0 Spec.fullRequest
       (Some [Spec.workspaceA; Vocabulary.workspaceOutOfRange])
     = ExportHandler.InternalServerError
  /\ ExportRouteBetterSqlite.GET 0 Spec.fullRequest
       (Some [Vocabulary.workspaceNotADatabase; Spec.workspaceB])
     = ExportHandler.InternalServerError
  /\ exists exportData,
       ExportRoute.GET 0 Vocabulary.nothingRequested
         (Some [Vocabulary.workspaceNotADatabase; Spec.workspaceBroken])
       = ExportHandler.Ok exportData.
Proof.
  split; [|split; [|split]].
  - apply (export_all_or_nothing 0 Spec.fullRequest
             [Spec.workspaceA; Spec.workspaceB]).
    intros entry [<-|[<-|[]]]; reflexivity.
  - apply (export_all_or_nothing 0 Spec.fullRequest
             [Spec.workspaceA; Vocabulary.workspaceOutOfRange]).
    exists Vocabulary.workspaceOutOfRange.
    split; [right; left; reflexivity|reflexivity].
  - apply (export_all_or_nothing 0 Spec.fullRequest
             [Vocabulary.workspaceNotADatabase; Spec.workspaceB]).
    exists Vocabulary.workspaceNotADatabase.
    split; [left; reflexivity|reflexivity].
  - destruct (export_all_or_nothing 0 Vocabulary.nothingRequested
                [Vocabulary.workspaceNotADatabase; Spec.workspaceBroken])
      as [(_ & _ & Hok & _) _].
    destruct Hok as (exportData & HGET & _).
    + intros entry [<-|[<-|[]]]; reflexivity.
    + exists exportData. exact HGET.
Defined.

(** * Further properties of the routes *)

(** ** The normalisers *)

(** X1. A thread is normalised message by message, in the stored order:
    every message keeps its [bubbleId] (as id and in the metadata), its
    text and its timestamp, and [messageCount] is the number of stored
    messages, 0 for a thread without a message list. *)
Theorem composer_messages_verbatim
  (composer : ComposerChat.t) (ws : string) (folder : option string)
  (c : ExportedConversation.t) :
  ExportRoute.processComposerChat composer ws folder = Try.Returns c ->
  let raw := Spec.conversationOf composer in
  Forall2
    (fun msg m =>
       ExportedMessage.id m = ComposerMessage.bubbleId msg
       /\ ExportedMessage.content m = ComposerMessage.text msg
       /\ ExportedMessage.timestamp m = ComposerMessage.timestamp msg
       /\ ExportedMessage.metadata m
          = Some (ExportedMetadata.mk None (Some (ComposerMessage.bubbleId msg))))
    raw (ExportedConversation.messages c)
  /\ Summary.messageCount (ExportedConversation.summary c) = length raw
  /\ (ComposerChat.conversation composer = None ->
      ExportedConversation.messages c = []).
Proof.
  intros Hc. returned Hc. cbv zeta. split; [|split].
  - rewrite composer_messages. apply Forall2_map_right. intros msg.
    repeat split.
  - change (Summary.messageCount _)
      with (length (ExportedConversation.messages
                      (Returned.processComposerChat composer ws folder))).
    now rewrite composer_messages, length_map.
  - intros Hnone. rewrite composer_messages. unfold Spec.conversationOf.
    now rewrite Hnone.
Qed.

Lemma composer_messages_verbatim_scenarioA :
  exists c,
    ExportRoute.processComposerChat Spec.scenarioA "workspace" None
    = Try.Returns c
    /\ map ExportedMessage.id (ExportedConversation.messages c) = ["m1"; "m2"]
    /\ Summary.messageCount (ExportedConversation.summary c) = 2%nat.
Proof.
  eexists. split; [reflexivity|]. split; [reflexivity|].
  exact (proj1 (proj2 (composer_messages_verbatim Spec.scenarioA "workspace"
                         None _ eq_refl))).
Defined.

Lemma indexedFrom_map_snd {A : Type} (l : list A) :
  forall index, map snd (Spec.indexedFrom index l) = l.
Proof.
  induction l as [|x l IH]; intros index; simpl; [reflexivity|].
  now rewrite IH.
Qed.

Lemma filter_map_commute {A B : Type} (f : A -> B) (p : B -> bool)
  (l : list A) :
  filter p (map f l) = map f (filter (fun x => p (f x)) l).
Proof.
  induction l as [|x l IH]; simpl; [reflexivity|].
  destruct (p (f x)); simpl; now rewrite IH.
Qed.

Lemma hasText_textOf (p : nat * ChatBubble.t) :
  Spec.hasText p = JS.truthyString (Spec.textOf (snd p)).
Proof.
  unfold Spec.hasText, Spec.textOf, JS.truthyOptString.
  destruct (ChatBubble.text (snd p)); reflexivity.
Qed.

Lemma kept_texts (chatTab : ChatTab.t) :
  map (fun p => Spec.textOf (snd p)) (Spec.keptBubbles chatTab)
  = filter JS.truthyString (map Spec.textOf (ChatTab.bubbles chatTab)).
Proof.
  unfold Spec.keptBubbles.
  rewrite <- (indexedFrom_map_snd (ChatTab.bubbles chatTab) 0) at 2.
  rewrite map_map, filter_map_commute.
  f_equal. apply filter_ext. intros p. apply hasText_textOf.
Qed.

(** X2. In both export routes the messages of a tab are its bubbles
    with a non-empty text, in the stored order: the contents are exactly
    the non-empty texts, no message has an empty content, and there are
    at most as many messages as bubbles. *)
Theorem chat_messages_are_the_nonempty_texts
  (chatTab : ChatTab.t) (ws : string) (folder : option string) :
  let texts :=
    filter JS.truthyString (map Spec.textOf (ChatTab.bubbles chatTab)) in
  let holds (attempt : Try.t ExportedConversation.t) :=
    forall c,
      attempt = Try.Returns c ->
      map ExportedMessage.content (ExportedConversation.messages c) = texts
      /\ Forall (fun m => ExportedMessage.content m <> "")
           (ExportedConversation.messages c)
      /\ (Summary.messageCount (ExportedConversation.summary c)
          <= length (ChatTab.bubbles chatTab))%nat in
  holds (ExportRoute.processChatTab chatTab ws folder)
  /\ holds (ExportRouteBetterSqlite.processChatTab chatTab ws folder).
Proof.
  cbv zeta.
  assert (Hnonempty : forall l : list ExportedMessage.t,
            map ExportedMessage.content l
            = filter JS.truthyString (map Spec.textOf (ChatTab.bubbles chatTab)) ->
            Forall (fun m => ExportedMessage.content m <> "") l
            /\ (length l <= length (ChatTab.bubbles chatTab))%nat).
  { intros l Hl. split.
    - apply Forall_forall. intros m Hm Hempty.
      assert (Hin : In (ExportedMessage.content m)
                      (map ExportedMessage.content l))
        by now apply in_map.
      rewrite Hl in Hin. apply filter_In in Hin. destruct Hin as [_ Ht].
      rewrite Hempty in Ht. discriminate Ht.
    - rewrite <- (length_map ExportedMessage.content l), Hl.
      etransitivity; [apply filter_length_le|]. now rewrite length_map. }
  split; intros c Hc; returned Hc.
  - assert (H : map ExportedMessage.content
                  (ExportedConversation.messages
                     (Returned.processChatTab chatTab ws folder))
                = filter JS.truthyString
                    (map Spec.textOf (ChatTab.bubbles chatTab))).
    { rewrite chat_messages, map_map. apply kept_texts. }
    split; [exact H|]. exact (Hnonempty _ H).
  - assert (H : map ExportedMessage.content
                  (ExportedConversation.messages
                     (ReturnedBetterSqlite.processChatTab chatTab ws folder))
                = filter JS.truthyString
                    (map Spec.textOf (ChatTab.bubbles chatTab))).
    { rewrite chat_messages_betterSqlite, map_map. apply kept_texts. }
    split; [exact H|]. exact (Hnonempty _ H).
Qed.

Lemma append_cancel_left (prefix a b : string) :
  (prefix ++ a)%string = (prefix ++ b)%string -> a = b.
Proof.
  induction prefix as [|ch prefix IH]; simpl; intros H; [exact H|].
  injection H as H. now apply IH.
Qed.

Lemma indexToString_injective (i j : nat) :
  JS.indexToString i = JS.indexToString j -> i = j.
Proof.
  unfold JS.indexToString. intros H.
  apply DecimalNat.Unsigned.to_uint_inj.
  assert (Hsome : Some (Nat.to_uint i) = Some (Nat.to_uint j)).
  { rewrite <- (NilEmpty.usu (Nat.to_uint i)), <- (NilEmpty.usu (Nat.to_uint j)).
    now rewrite H. }
  now injection Hsome.
Qed.

Lemma indexedFrom_sorted {A : Type} (l : list A) :
  forall index,
  StronglySorted (fun p q : nat * A => (fst p < fst q)%nat)
    (Spec.indexedFrom index l)
  /\ Forall (fun p : nat * A => (index <= fst p)%nat)
       (Spec.indexedFrom index l).
Proof.
  induction l as [|x l IH]; intros index; simpl.
  - split; constructor.
  - destruct (IH (S index)) as [Hsorted Hbound]. split.
    + constructor; [exact Hsorted|].
      eapply Forall_impl; [|exact Hbound]. simpl. intros p Hp. lia.
    + constructor; [simpl; lia|].
      eapply Forall_impl; [|exact Hbound]. simpl. intros p Hp. lia.
Qed.

Lemma StronglySorted_filter {A : Type} (R : A -> A -> Prop) (p : A -> bool)
  (l : list A) : StronglySorted R l -> StronglySorted R (filter p l).
Proof.
  induction 1 as [|x l Hl IH Hx]; simpl; [constructor|].
  destruct (p x); [|exact IH].
  constructor; [exact IH|].
  apply Forall_forall. intros y Hy. apply filter_In in Hy.
  rewrite Forall_forall in Hx. now apply Hx.
Qed.

Lemma StronglySorted_map {A B : Type} (R : A -> A -> Prop)
  (R' : B -> B -> Prop) (f : A -> B) (l : list A) :
  (forall x y, R x y -> R' (f x) (f y)) ->
  StronglySorted R l -> StronglySorted R' (map f l).
Proof.
  intros Hf. induction 1 as [|x l Hl IH Hx]; simpl; constructor; [exact IH|].
  apply Forall_forall. intros y Hy. apply in_map_iff in Hy.
  destruct Hy as (z & <- & Hz). rewrite Forall_forall in Hx. auto.
Qed.

Lemma StronglySorted_lt_NoDup (l : list nat) :
  StronglySorted lt l -> NoDup l.
Proof.
  induction 1 as [|x l Hl IH Hx]; constructor; [|exact IH].
  intros Hin. rewrite Forall_forall in Hx. specialize (Hx x Hin). lia.
Qed.

Lemma NoDup_map_injective {A B : Type} (f : A -> B) (l : list A) :
  (forall x y, f x = f y -> x = y) -> NoDup l -> NoDup (map f l).
Proof.
  intros Hf. induction 1 as [|x l Hx Hl IH]; simpl; constructor; [|exact IH].
  intros Hin. apply in_map_iff in Hin. destruct Hin as (y & Heq & Hy).
  apply Hf in Heq. now subst.
Qed.

Lemma kept_positions_sorted (chatTab : ChatTab.t) :
  StronglySorted lt (map fst (Spec.keptBubbles chatTab)).
Proof.
  unfold Spec.keptBubbles.
  apply (StronglySorted_map (fun p q : nat * ChatBubble.t => (fst p < fst q)%nat)).
  - auto.
  - apply StronglySorted_filter, indexedFrom_sorted.
Qed.

(** X3. In both export routes the id of a chat message is the id of
    the tab, a dash and the position of its bubble among all the bubbles
    of the tab, so the messages of one conversation have pairwise
    distinct ids. *)
Theorem chat_message_ids_are_distinct
  (chatTab : ChatTab.t) (ws : string) (folder : option string) :
  let ids :=
    map (fun p =>
           (ChatTab.id chatTab ++ "-" ++ JS.indexToString (fst p))%string)
      (Spec.keptBubbles chatTab) in
  let holds (attempt : Try.t ExportedConversation.t) :=
    forall c,
      attempt = Try.Returns c ->
      map ExportedMessage.id (ExportedConversation.messages c) = ids
      /\ NoDup (map ExportedMessage.id (ExportedConversation.messages c)) in
  holds (ExportRoute.processChatTab chatTab ws folder)
  /\ holds (ExportRouteBetterSqlite.processChatTab chatTab ws folder).
Proof.
  cbv zeta.
  assert (Hids : NoDup
                   (map (fun p =>
                           (ChatTab.id chatTab ++ "-"
                            ++ JS.indexToString (fst p))%string)
                      (Spec.keptBubbles chatTab))).
  { rewrite <- (map_map fst
                  (fun i => (ChatTab.id chatTab ++ "-"
                             ++ JS.indexToString i)%string)).
    apply NoDup_map_injective.
    - intros i j H. apply append_cancel_left in H.
      apply (append_cancel_left "-") in H.
      now apply indexToString_injective.
    - apply StronglySorted_lt_NoDup, kept_positions_sorted. }
  split; intros c Hc; returned Hc.
  - rewrite chat_messages, map_map. split; [reflexivity|exact Hids].
  - rewrite chat_messages_betterSqlite, map_map.
    split; [reflexivity|exact Hids].
Qed.

(** X4. In the sqlite3 route the timestamps of the messages of a tab
    are strictly increasing and none is before the tab's timestamp. In
    the better-sqlite3 route the same holds of a tab none of whose
    bubbles has a timestamp of its own other than 0. *)
Theorem chat_timestamps_increase
  (chatTab : ChatTab.t) (ws : string) (folder : option string) :
  let increasing (c : ExportedConversation.t) :=
    StronglySorted Z.lt
      (map ExportedMessage.timestamp (ExportedConversation.messages c))
    /\ Forall (fun m => ChatTab.timestamp chatTab <= ExportedMessage.timestamp m)
         (ExportedConversation.messages c) in
  (forall c,
     ExportRoute.processChatTab chatTab ws folder = Try.Returns c ->
     increasing c)
  /\ (Forall
        (fun bubble =>
           ChatBubble.timestamp bubble = None
           \/ ChatBubble.timestamp bubble = Some 0)
        (ChatTab.bubbles chatTab) ->
      forall c,
        ExportRouteBetterSqlite.processChatTab chatTab ws folder
        = Try.Returns c ->
        increasing c).
Proof.
  cbv zeta.
  assert (Hoffsets :
            StronglySorted Z.lt
              (map (fun p => ChatTab.timestamp chatTab + Z.of_nat (fst p) * 1000)
                 (Spec.keptBubbles chatTab))
            /\ Forall
                 (fun t => ChatTab.timestamp chatTab <= t)
                 (map (fun p =>
                         ChatTab.timestamp chatTab + Z.of_nat (fst p) * 1000)
                    (Spec.keptBubbles chatTab))).
  { split.
    - rewrite <- (map_map fst
                    (fun i => ChatTab.timestamp chatTab + Z.of_nat i * 1000)).
      apply (StronglySorted_map lt); [intros; lia|].
      apply kept_positions_sorted.
    - apply Forall_map_image. intros p. lia. }
  destruct Hoffsets as [Hsorted Hbound].
  split.
  - intros c Hc. returned Hc.
    rewrite timestamps_sqlite. split; [exact Hsorted|].
    rewrite <- (timestamps_sqlite chatTab ws folder) in Hbound.
    now rewrite Forall_map in Hbound.
  - intros Hnone c Hc. returned Hc.
    assert (Heq : map ExportedMessage.timestamp
                    (ExportedConversation.messages
                       (ReturnedBetterSqlite.processChatTab chatTab ws folder))
                  = map (fun p =>
                           ChatTab.timestamp chatTab + Z.of_nat (fst p) * 1000)
                      (Spec.keptBubbles chatTab)).
    { rewrite chat_messages_betterSqlite, map_map. apply map_ext_in.
      intros p Hp. cbn [ReturnedBetterSqlite.bubbleMessage
                          ExportedMessage.timestamp].
      apply orNumber_cases.
      unfold Spec.keptBubbles in Hp. apply filter_In in Hp.
      destruct Hp as [Hp _].
      rewrite Forall_forall in Hnone. apply Hnone.
      rewrite <- (indexedFrom_map_snd (ChatTab.bubbles chatTab) 0).
      now apply in_map. }
    rewrite Heq. split; [exact Hsorted|].
    rewrite <- Heq in Hbound. now rewrite Forall_map in Hbound.
Qed.

(** Tabs of several messages. Scenario B in the sqlite3 route; in the
    better-sqlite3 route a tab whose bubbles at the positions 0, 2 and 3
    have a text, the one at 2 with the timestamp 0. *)
Lemma chat_timestamps_increase_unstamped :
  (exists c,
     ExportRoute.processChatTab Spec.scenarioB "workspace" None
     = Try.Returns c
     /\ map ExportedMessage.timestamp (ExportedConversation.messages c)
        = [1000; 2000; 3000]
     /\ StronglySorted Z.lt
          (map ExportedMessage.timestamp (ExportedConversation.messages c))
     /\ Forall (fun m => 1000 <= ExportedMessage.timestamp m)
          (ExportedConversation.messages c))
  /\ (exists c,
        ExportRouteBetterSqlite.processChatTab Vocabulary.unstampedTab
          "workspace" None
        = Try.Returns c
        /\ map ExportedMessage.timestamp (ExportedConversation.messages c)
           = [1000; 3000; 4000]
        /\ StronglySorted Z.lt
             (map ExportedMessage.timestamp (ExportedConversation.messages c))
        /\ Forall (fun m => 1000 <= ExportedMessage.timestamp m)
             (ExportedConversation.messages c)).
Proof.
  split; eexists; (split; [reflexivity|]); (split; [reflexivity|]).
  - destruct (chat_timestamps_increase Spec.scenarioB "workspace" None)
      as [H _].
    now apply H.
  - destruct (chat_timestamps_increase Vocabulary.unstampedTab "workspace" None)
      as [_ H].
    apply H; [|reflexivity].
    repeat (apply Forall_cons; [first [now left|now right]|]).
    apply Forall_nil.
Defined.

Lemma composerMessage_files (msg : ComposerMessage.t) :
  Vocabulary.filesOf (Returned.composerMessage msg)
  = Spec.contextFiles (ComposerMessage.context msg).
Proof. reflexivity. Qed.

(** X5. Every file path listed in the context of a message of a
    composer conversation is also in [summary.filesReferenced], and a
    conversation one of whose messages lists a file has
    [hasCodeContext = true]. *)
Theorem message_files_are_referenced
  (composer : ComposerChat.t) (ws : string) (folder : option string)
  (c : ExportedConversation.t) :
  ExportRoute.processComposerChat composer ws folder = Try.Returns c ->
  forall m p,
    In m (ExportedConversation.messages c) ->
    In p (Vocabulary.filesOf m) ->
    In p (Summary.filesReferenced (ExportedConversation.summary c))
    /\ Summary.hasCodeContext (ExportedConversation.summary c) = Some true.
Proof.
  intros Hc m p Hm Hp. returned Hc.
  rewrite composer_messages in Hm. apply in_map_iff in Hm.
  destruct Hm as (msg & <- & Hmsg). rewrite composerMessage_files in Hp.
  assert (Hin : In p (ExportRoute.extractFilePaths composer)).
  { rewrite extractFilePaths_fold, addMessages_In. right. eauto. }
  split; [exact Hin|].
  cbn [Returned.processComposerChat ExportedConversation.summary
       Summary.hasCodeContext].
  unfold ExportRoute.composerHasCodeContext.
  destruct (ExportRoute.extractFilePaths composer); [destruct Hin|reflexivity].
Qed.

Lemma message_files_are_referenced_sharedFile :
  exists c,
    ExportRoute.processComposerChat Spec.threadWithSharedFile "workspace" None
    = Try.Returns c
    /\ In "/src/c.ts"
         (Summary.filesReferenced (ExportedConversation.summary c)).
Proof.
  eexists. split; [reflexivity|].
  apply (message_files_are_referenced Spec.threadWithSharedFile "workspace" None
           _ eq_refl
           (Returned.composerMessage
              (ComposerMessage.mk "m2" (JS.number 2) "Done" 200
                 (ComposerMessage.context
                    (ComposerMessage.mk "m2" (JS.number 2) "Done" 200
                       (Some (ComposerContext.mk None
                                (Some [FileSelection.mk
                                         (Some (Uri.mk (Some "/src/a.ts")));
                                       FileSelection.mk
                                         (Some (Uri.mk (Some "/src/c.ts")));
                                       FileSelection.mk
                                         (Some (Uri.mk (Some "")))])
                                None None None))))))
           "/src/c.ts").
  - right. left. reflexivity.
  - right. left. reflexivity.
Defined.

Lemma filterBoolean_nonempty (l : list string) :
  ~ In "" (JS.filterBoolean l).
Proof.
  unfold JS.filterBoolean. intros H. apply filter_In in H.
  destruct H as [_ H]. discriminate H.
Qed.

(** X6. No message of a canonical conversation lists an empty code
    selection: the selections whose text is empty are left out. *)
Theorem code_selections_are_nonempty (c : ExportedConversation.t) :
  Spec.Canonical c ->
  Forall (fun m => ~ In "" (Vocabulary.codeSelectionsOf m))
    (ExportedConversation.messages c).
Proof.
  intros Hc. canonical Hc.
  - rewrite composer_messages. apply Forall_map_image. intros msg.
    unfold Vocabulary.codeSelectionsOf, Returned.composerMessage; simpl.
    destruct (ComposerMessage.context msg) as [ctx|]; simpl; [|tauto].
    destruct (ComposerContext.selections ctx); simpl; [|tauto].
    apply filterBoolean_nonempty.
  - rewrite chat_messages. apply Forall_map_image. intros p.
    unfold Vocabulary.codeSelectionsOf, Returned.bubbleMessage,
      ExportRoute.bubbleCodeSelections; simpl.
    destruct (ChatBubble.selections (snd p)); simpl; [|tauto].
    apply filterBoolean_nonempty.
  - rewrite chat_messages_betterSqlite. apply Forall_map_image. intros p.
    simpl. tauto.
Qed.

Lemma code_selections_are_nonempty_tabWithSelection :
  exists c,
    ExportRoute.processChatTab Spec.tabWithSelection "workspace" None
    = Try.Returns c
    /\ map Vocabulary.codeSelectionsOf (ExportedConversation.messages c)
       = [["let x = 1"]]
    /\ Forall (fun m => ~ In "" (Vocabulary.codeSelectionsOf m))
         (ExportedConversation.messages c).
Proof.
  eexists. split; [reflexivity|]. split; [reflexivity|].
  exact (code_selections_are_nonempty _
           (Spec.fromChatTab Spec.tabWithSelection "workspace" None _ eq_refl)).
Defined.

Lemma filter_filter {A : Type} (p q : A -> bool) (l : list A) :
  filter p (filter q l) = filter (fun x => q x && p x) l.
Proof.
  induction l as [|x l IH]; simpl; [reflexivity|].
  destruct (q x); simpl; [destruct (p x)|]; now rewrite IH.
Qed.

Lemma Set_has_app (s : JS.SetOfString) (x y : string) :
  JS.Set_has (s ++ [x]) y = JS.Set_has s y || String.eqb x y.
Proof.
  unfold JS.Set_has. rewrite existsb_app. simpl.
  now rewrite orb_false_r, String.eqb_sym.
Qed.

Lemma fold_Set_add (l : list string) :
  forall s,
  fold_left JS.Set_add l s
  = s ++ filter (fun y => negb (JS.Set_has s y)) (Vocabulary.firstOccurrences l).
Proof.
  induction l as [|x l IH]; intros s; simpl; [now rewrite app_nil_r|].
  rewrite IH. unfold JS.Set_add. destruct (JS.Set_has s x) eqn:Hx; simpl.
  - f_equal. rewrite filter_filter. apply filter_ext_in. intros y _.
    destruct (String.eqb_spec x y) as [<-|Hne]; simpl; [now rewrite Hx|reflexivity].
  - rewrite <- app_assoc. simpl. do 2 f_equal.
    rewrite filter_filter. apply filter_ext. intros y.
    rewrite Set_has_app, negb_orb. apply andb_comm.
Qed.

Lemma addContext_fold (ctx : option ComposerContext.t) (s : JS.SetOfString) :
  Spec.addContext s ctx = fold_left JS.Set_add (Spec.contextFiles ctx) s.
Proof.
  unfold Spec.addContext, Spec.contextFiles, ExportRoute.composerMessageContext,
    ExportRoute.fileSelectionsOf.
  destruct ctx as [c|]; [|reflexivity]. simpl.
  destruct (ComposerContext.fileSelections c) as [selections|]; [|reflexivity].
  simpl. unfold JS.forEach. revert s.
  induction selections as [|file rest IH]; intros s; simpl; [reflexivity|].
  rewrite fold_left_app, <- IH. f_equal.
  unfold ExportRoute.addFile.
  destruct (ExportRoute.fsPathOf file) as [p|]; [|reflexivity].
  destruct (JS.truthyString p); reflexivity.
Qed.

(** X7. [summary.filesReferenced] of a composer conversation lists the
    files in the order of their first mention: those of the thread-level
    context first, then those of the messages in the stored order. *)
Theorem filesReferenced_in_order_of_first_mention
  (composer : ComposerChat.t) (ws : string) (folder : option string)
  (c : ExportedConversation.t) :
  ExportRoute.processComposerChat composer ws folder = Try.Returns c ->
  Summary.filesReferenced (ExportedConversation.summary c)
  = Vocabulary.firstOccurrences (Vocabulary.fileMentions composer).
Proof.
  intros Hc. returned Hc.
  cbn [Returned.processComposerChat ExportedConversation.summary
       Summary.filesReferenced].
  rewrite extractFilePaths_fold. unfold Vocabulary.fileMentions.
  assert (Hmsgs : forall raw s,
            fold_left
              (fun files msg =>
                 Spec.addContext files (ComposerMessage.context msg)) raw s
            = fold_left JS.Set_add
                (flat_map
                   (fun msg => Spec.contextFiles (ComposerMessage.context msg))
                   raw) s).
  { induction raw as [|msg raw IH]; intros s; simpl; [reflexivity|].
    now rewrite fold_left_app, IH, addContext_fold. }
  rewrite Hmsgs, addContext_fold, <- fold_left_app, fold_Set_add. simpl.
  clear. induction (Vocabulary.firstOccurrences _) as [|x l IH]; simpl;
    [reflexivity|now rewrite IH].
Qed.

Lemma filesReferenced_in_order_sharedFile :
  exists c,
    ExportRoute.processComposerChat Spec.threadWithSharedFile "workspace" None
    = Try.Returns c
    /\ Vocabulary.fileMentions Spec.threadWithSharedFile
       = ["/src/a.ts"; "/src/b.ts"; "/src/a.ts"; "/src/a.ts"; "/src/c.ts"]
    /\ Summary.filesReferenced (ExportedConversation.summary c)
       = Vocabulary.firstOccurrences
           (Vocabulary.fileMentions Spec.threadWithSharedFile).
Proof.
  eexists. split; [reflexivity|]. split; [reflexivity|].
  exact (filesReferenced_in_order_of_first_mention Spec.threadWithSharedFile
           "workspace" None _ eq_refl).
Defined.


(** ** When the normalisers return *)

Lemma isTimeValue_spec (value : Z) :
  JS.isTimeValue value = true
  <-> -8640000000000000 <= value <= 8640000000000000.
Proof.
  unfold JS.isTimeValue. rewrite andb_true_iff, !Z.leb_le. tauto.
Qed.

Lemma forallb_Forall {A : Type} (ok : A -> bool) (P : A -> Prop) (l : list A) :
  (forall x, ok x = true <-> P x) ->
  forallb ok l = true <-> Forall P l.
Proof.
  intros Hok. rewrite forallb_forall, Forall_forall.
  split; intros H x Hx; apply Hok; auto.
Qed.

Lemma returns_when {A : Type} (ok : bool) (a : A) :
  (exists c, (if ok then Try.Returns a else Try.Throws) = Try.Returns c)
  <-> ok = true.
Proof.
  destruct ok; split; eauto; try discriminate.
  intros (c & H). discriminate H.
Qed.

(** X27. The normalisers throw only where they format a timestamp. A
    thread is normalised exactly when its [createdAt], its
    [lastUpdatedAt] and the timestamp of each of its messages are time
    values, at most 8.64e15 ms away from the epoch. A tab is normalised
    exactly when its own timestamp and the timestamp given to each
    bubble that has a text are: in the sqlite3 route the tab's timestamp
    plus a second per position, in the better-sqlite3 route the bubble's
    own timestamp where it has one other than 0. The name of the
    workspace and its folder have no part in it. *)
Theorem normalisers_return_when_datable :
  let timeValue (t : Z) := -8640000000000000 <= t <= 8640000000000000 in
  (forall composer ws folder,
     (exists c,
        ExportRoute.processComposerChat composer ws folder = Try.Returns c)
     <-> timeValue (ComposerChat.createdAt composer)
         /\ timeValue (ComposerChat.lastUpdatedAt composer)
         /\ Forall (fun msg => timeValue (ComposerMessage.timestamp msg))
              (Spec.conversationOf composer))
  /\ (forall chatTab ws folder,
        (exists c, ExportRoute.processChatTab chatTab ws folder = Try.Returns c)
        <-> timeValue (ChatTab.timestamp chatTab)
            /\ Forall
                 (fun p =>
                    timeValue
                      (ChatTab.timestamp chatTab + Z.of_nat (fst p) * 1000))
                 (Spec.keptBubbles chatTab))
  /\ (forall chatTab ws folder,
        (exists c,
           ExportRouteBetterSqlite.processChatTab chatTab ws folder
           = Try.Returns c)
        <-> timeValue (ChatTab.timestamp chatTab)
            /\ Forall
                 (fun p =>
                    timeValue
                      (JS.orNumber (ChatBubble.timestamp (snd p))
                         (ChatTab.timestamp chatTab
                          + Z.of_nat (fst p) * 1000)))
                 (Spec.keptBubbles chatTab)).
Proof.
  cbv zeta. split; [|split].
  - intros composer ws folder.
    rewrite processComposerChat_spec, returns_when.
    unfold Spec.datableThread. rewrite !andb_true_iff, !isTimeValue_spec.
    rewrite (forallb_Forall _ _ _
               (fun msg => isTimeValue_spec (ComposerMessage.timestamp msg))).
    tauto.
  - intros chatTab ws folder.
    rewrite processChatTab_spec, returns_when.
    unfold Spec.datableTab. rewrite andb_true_iff, isTimeValue_spec.
    rewrite (forallb_Forall _ _ _
               (fun p => isTimeValue_spec
                           (ChatTab.timestamp chatTab
                            + Z.of_nat (fst p) * 1000))).
    tauto.
  - intros chatTab ws folder.
    rewrite processChatTab_betterSqlite_spec, returns_when.
    unfold Spec.datableTabBetterSqlite.
    rewrite andb_true_iff, isTimeValue_spec.
    rewrite (forallb_Forall _ _ _
               (fun p => isTimeValue_spec
                           (JS.orNumber (ChatBubble.timestamp (snd p))
                              (ChatTab.timestamp chatTab
                               + Z.of_nat (fst p) * 1000)))).
    tauto.
Qed.

(** ** The export handler *)

Lemma totalMessages_sum (conversations : list ExportedConversation.t) :
  fold_left
    (fun sum conv => (sum + length (ExportedConversation.messages conv))%nat)
    conversations 0%nat
  = list_sum
      (map (fun conv => length (ExportedConversation.messages conv))
         conversations).
Proof.
  rewrite <- (Nat.add_0_l (list_sum _)). generalize 0%nat.
  induction conversations as [|c l IH]; intros acc; simpl; [lia|].
  rewrite IH. lia.
Qed.

Lemma GET_ok_listed
  (processComposerChat
     : ComposerChat.t -> string -> option string -> Try.t ExportedConversation.t)
  (processChatTab
     : ChatTab.t -> string -> option string -> Try.t ExportedConversation.t)
  (now : Z) (request : ExportHandler.Request) (disk : Disk.t)
  (exportData : ExportData.t) :
  ExportHandler.GET processComposerChat processChatTab now request disk
  = ExportHandler.Ok exportData ->
  exists entries, disk = Some entries.
Proof.
  destruct disk as [entries|]; [eauto|discriminate].
Qed.

Lemma exported_canonical (now : Z) (request : ExportHandler.Request)
  (disk : Disk.t) (exportData : ExportData.t) :
  ExportRoute.GET now request disk = ExportHandler.Ok exportData
  \/ ExportRouteBetterSqlite.GET now request disk = ExportHandler.Ok exportData ->
  Forall Spec.Canonical (ExportData.conversations exportData).
Proof.
  intros [HGET|HGET]; apply Forall_forall; intros c Hc;
    destruct (GET_ok_listed _ _ _ _ _ _ HGET) as (entries & ->);
    destruct (exported_origin _ _ _ _ _ _ _ HGET Hc)
      as (name & db & wj & _ & [[_ Hsrc]|[_ Hsrc]]).
  - destruct Hsrc as (_ & _ & composer & _ & _ & _ & Heq).
    exact (Spec.fromComposer _ _ _ _ Heq).
  - destruct Hsrc as (_ & _ & tab & _ & _ & _ & Heq).
    exact (Spec.fromChatTab _ _ _ _ Heq).
  - destruct Hsrc as (_ & _ & composer & _ & _ & _ & Heq).
    exact (Spec.fromComposer _ _ _ _ Heq).
  - destruct Hsrc as (_ & _ & tab & _ & _ & _ & Heq).
    exact (Spec.fromChatTabBetterSqlite _ _ _ _ Heq).
Qed.

(** X9. In a successful export of either route every conversation is a
    canonical conversation, [totalConversations] is the length of the
    list, [totalMessages] is the sum of the [messageCount] of the
    conversations, and the export is stamped with the clock. *)
Theorem export_totals (now : Z) (request : ExportHandler.Request)
  (disk : Disk.t) (exportData : ExportData.t) :
  ExportRoute.GET now request disk = ExportHandler.Ok exportData
  \/ ExportRouteBetterSqlite.GET now request disk = ExportHandler.Ok exportData ->
  let conversations := ExportData.conversations exportData in
  Forall Spec.Canonical conversations
  /\ ExportData.totalConversations exportData = length conversations
  /\ ExportData.totalMessages exportData
     = list_sum
         (map (fun c => Summary.messageCount (ExportedConversation.summary c))
            conversations)
  /\ ExportData.exportedAtTimestamp exportData = now
  /\ ExportData.exportedAt exportData = JS.isoString now.
Proof.
  intros HGET. cbv zeta.
  pose proof (exported_canonical _ _ _ _ HGET) as Hcanonical.
  split; [exact Hcanonical|].
  assert (Hsum : list_sum
                   (map (fun c => length (ExportedConversation.messages c))
                      (ExportData.conversations exportData))
                 = list_sum
                     (map (fun c => Summary.messageCount
                                      (ExportedConversation.summary c))
                        (ExportData.conversations exportData))).
  { f_equal. apply map_ext_in. intros c Hc.
    rewrite Forall_forall in Hcanonical.
    symmetry. apply (canonical_counts c (Hcanonical c Hc)). }
  rewrite <- Hsum.
  destruct HGET as [HGET|HGET];
    unfold ExportRoute.GET, ExportRouteBetterSqlite.GET, ExportHandler.GET in HGET;
    destruct (ExportHandler.collect _ _ request disk); try discriminate;
    injection HGET as <-; cbn [ExportData.totalConversations
      ExportData.totalMessages ExportData.conversations
      ExportData.exportedAtTimestamp ExportData.exportedAt];
    rewrite totalMessages_sum; repeat split.
Qed.

Lemma export_totals_sample :
  ExportData.totalConversations Spec.sampleExport = 4%nat
  /\ ExportData.totalMessages Spec.sampleExport
     = list_sum
         (map (fun c => Summary.messageCount (ExportedConversation.summary c))
            (ExportData.conversations Spec.sampleExport)).
Proof.
  destruct (export_totals 0 Spec.fullRequest Spec.sampleDisk Spec.sampleExport
              (or_introl eq_refl)) as (_ & Hn & Hm & _).
  split; [exact Hn|exact Hm].
Defined.

(** The kind of an exported conversation is one that was asked for. *)
Lemma exported_kind (now : Z) (request : ExportHandler.Request)
  (disk : Disk.t) (exportData : ExportData.t) (c : ExportedConversation.t) :
  ExportRoute.GET now request disk = ExportHandler.Ok exportData
  \/ ExportRouteBetterSqlite.GET now request disk = ExportHandler.Ok exportData ->
  In c (ExportData.conversations exportData) ->
  (ExportedConversation.type c = "composer"
   /\ ExportHandler.notFalse (ExportHandler.includeComposersParam request)
      = true)
  \/ (ExportedConversation.type c = "chat"
      /\ ExportHandler.notFalse (ExportHandler.includeChatsParam request)
         = true).
Proof.
  intros [HGET|HGET] Hc;
    destruct (GET_ok_listed _ _ _ _ _ _ HGET) as (entries & ->);
    destruct (exported_origin _ _ _ _ _ _ _ HGET Hc)
      as (name & db & wj & _ & [[Hflag Hsrc]|[Hflag Hsrc]]);
    destruct Hsrc as (_ & _ & x & _ & _ & _ & Heq).
  - left. split; [|exact Hflag].
    exact (proj1 (processComposerChat_fields _ _ _ _ Heq)).
  - right. split; [|exact Hflag].
    exact (proj1 (processChatTab_fields _ _ _ _ (or_introl Heq))).
  - left. split; [|exact Hflag].
    exact (proj1 (processComposerChat_fields _ _ _ _ Heq)).
  - right. split; [|exact Hflag].
    exact (proj1 (processChatTab_fields _ _ _ _ (or_intror Heq))).
Qed.

(** The threads and tabs of a listed, readable store whose kind was
    asked for are in a successful export of either route. *)
Lemma exported_kinds_included (now : Z) (request : ExportHandler.Request)
  (entries : list Disk.Dirent) (exportData : ExportData.t)
  (name : string) (db : Disk.Store)
  (workspaceJson : option (Disk.Blob Disk.WorkspaceJson)) :
  ExportRoute.GET now request (Some entries) = ExportHandler.Ok exportData
  \/ ExportRouteBetterSqlite.GET now request (Some entries)
     = ExportHandler.Ok exportData ->
  In (Disk.Directory name (Some (Disk.Readable db)) workspaceJson) entries ->
  let folder := ExportHandler.readWorkspaceFolder workspaceJson in
  (ExportHandler.includeComposersParam request <> Some "false" ->
   forall data composers composer,
     Disk.composerData db = Some (Disk.Parsed data) ->
     ComposerData.allComposers data = Some composers ->
     In composer composers ->
     exists c,
       In c (ExportData.conversations exportData)
       /\ ExportRoute.processComposerChat composer name folder = Try.Returns c)
  /\ (ExportHandler.includeChatsParam request <> Some "false" ->
      forall data tabs tab,
        Disk.chatdata db = Some (Disk.Parsed data) ->
        ChatData.tabs data = Some tabs ->
        In tab tabs ->
        exists c,
          In c (ExportData.conversations exportData)
          /\ (ExportRoute.processChatTab tab name folder = Try.Returns c
              \/ ExportRouteBetterSqlite.processChatTab tab name folder
                 = Try.Returns c)).
Proof.
  intros HGET Hentry folder.
  assert (Hflag : forall param,
            param <> Some "false" -> ExportHandler.notFalse param = true).
  { intros param Hparam.
    destruct (ExportHandler.notFalse param) eqn:Hnot; [reflexivity|].
    now apply notFalse_false in Hnot. }
  destruct HGET as [HGET|HGET];
    destruct (export_includes _ _ _ _ _ _ HGET name db workspaceJson Hentry)
      as [Hcomposers Hchats];
    fold folder in Hcomposers, Hchats; split.
  - intros Hparam data composers composer Hrow Hall Hin.
    destruct (Hcomposers (Hflag _ Hparam) data composers composer Hrow Hall Hin)
      as (c & Hc & Hmember).
    exists c. split; [exact Hmember|exact Hc].
  - intros Hparam data tabs tab Hrow Hall Hin.
    destruct (Hchats (Hflag _ Hparam) data tabs tab Hrow Hall Hin)
      as (c & Hc & Hmember).
    exists c. split; [exact Hmember|left; exact Hc].
  - intros Hparam data composers composer Hrow Hall Hin.
    destruct (Hcomposers (Hflag _ Hparam) data composers composer Hrow Hall Hin)
      as (c & Hc & Hmember).
    exists c. split; [exact Hmember|exact Hc].
  - intros Hparam data tabs tab Hrow Hall Hin.
    destruct (Hchats (Hflag _ Hparam) data tabs tab Hrow Hall Hin)
      as (c & Hc & Hmember).
    exists c. split; [exact Hmember|right; exact Hc].
Qed.

(** X10. A kind of conversation is left out of the export exactly when
    its query parameter is the string "false". With
    [includeChats=false] every conversation of a successful export is a
    composer conversation, with [includeComposers=false] every one is a
    chat conversation. With any other value of [includeComposers], or
    none, every thread stored in a listed directory with a readable
    store has its conversation in the export, of type "composer", under
    the thread's id and the directory's name; and with any other value
    of [includeChats], or none, so has every tab, of type "chat". *)
Theorem export_flags (now : Z) (request : ExportHandler.Request)
  (disk : Disk.t) (exportData : ExportData.t) :
  ExportRoute.GET now request disk = ExportHandler.Ok exportData
  \/ ExportRouteBetterSqlite.GET now request disk = ExportHandler.Ok exportData ->
  let conversations := ExportData.conversations exportData in
  let ofType (type : string) :=
    Forall (fun c => ExportedConversation.type c = type) conversations in
  (ExportHandler.includeChatsParam request = Some "false" -> ofType "composer")
  /\ (ExportHandler.includeComposersParam request = Some "false" ->
      ofType "chat")
  /\ forall entries name db workspaceJson,
       disk = Some entries ->
       In (Disk.Directory name (Some (Disk.Readable db)) workspaceJson)
         entries ->
       let folder := ExportHandler.readWorkspaceFolder workspaceJson in
       (ExportHandler.includeComposersParam request <> Some "false" ->
        forall data composers composer,
          Disk.composerData db = Some (Disk.Parsed data) ->
          ComposerData.allComposers data = Some composers ->
          In composer composers ->
          exists c,
            In c conversations
            /\ ExportRoute.processComposerChat composer name folder
               = Try.Returns c
            /\ ExportedConversation.type c = "composer"
            /\ ExportedConversation.id c = ComposerChat.composerId composer
            /\ WorkspaceRef.id (ExportedConversation.workspace c) = name)
       /\ (ExportHandler.includeChatsParam request <> Some "false" ->
           forall data tabs tab,
             Disk.chatdata db = Some (Disk.Parsed data) ->
             ChatData.tabs data = Some tabs ->
             In tab tabs ->
             exists c,
               In c conversations
               /\ (ExportRoute.processChatTab tab name folder = Try.Returns c
                   \/ ExportRouteBetterSqlite.processChatTab tab name folder
                      = Try.Returns c)
               /\ ExportedConversation.type c = "chat"
               /\ ExportedConversation.id c = ChatTab.id tab
               /\ WorkspaceRef.id (ExportedConversation.workspace c) = name).
Proof.
  intros HGET. cbv zeta.
  pose proof (fun c => exported_kind now request disk exportData c HGET)
    as Horigin.
  split; [|split].
  - intros Hparam. apply Forall_forall. intros c Hc.
    destruct (Horigin c Hc) as [[Ht _]|[_ Hflag]]; [exact Ht|].
    rewrite Hparam in Hflag. discriminate Hflag.
  - intros Hparam. apply Forall_forall. intros c Hc.
    destruct (Horigin c Hc) as [[_ Hflag]|[Ht _]]; [|exact Ht].
    rewrite Hparam in Hflag. discriminate Hflag.
  - intros entries name db workspaceJson -> Hentry.
    destruct (exported_kinds_included now request entries exportData name db
                workspaceJson HGET Hentry) as [Hcomposers Hchats].
    split.
    + intros Hparam data composers composer Hrow Hall Hin.
      destruct (Hcomposers Hparam data composers composer Hrow Hall Hin)
        as (c & Hmember & Hc).
      exists c. split; [exact Hmember|]. split; [exact Hc|].
      destruct (processComposerChat_fields _ _ _ _ Hc) as (Ht & Hid & Hws & _).
      auto.
    + intros Hparam data tabs tab Hrow Hall Hin.
      destruct (Hchats Hparam data tabs tab Hrow Hall Hin)
        as (c & Hmember & Hc).
      exists c. split; [exact Hmember|]. split; [exact Hc|].
      destruct (processChatTab_fields _ _ _ _ Hc) as (Ht & Hid & Hws & _).
      auto.
Qed.

(** With [includeChats=false] the three threads of the sample storage
    are exported, the thread of the second workspace among them, and no
    tab. *)
Lemma export_flags_composerOnly :
  exists exportData,
    ExportRoute.GET 0 Vocabulary.composerOnlyRequest Spec.sampleDisk
    = ExportHandler.Ok exportData
    /\ map ExportedConversation.id (ExportData.conversations exportData)
       = ["thread-c"; "thread-a"; "thread-d"]
    /\ Forall (fun c => ExportedConversation.type c = "composer")
         (ExportData.conversations exportData)
    /\ exists c,
         In c (ExportData.conversations exportData)
         /\ ExportRoute.processComposerChat Spec.threadD "ws-b" None
            = Try.Returns c
         /\ ExportedConversation.type c = "composer"
         /\ ExportedConversation.id c = "thread-d"
         /\ WorkspaceRef.id (ExportedConversation.workspace c) = "ws-b".
Proof.
  eexists. split; [reflexivity|]. split; [reflexivity|].
  destruct (export_flags 0 Vocabulary.composerOnlyRequest Spec.sampleDisk _
              (or_introl eq_refl))
    as (Hcomposer & _ & Hincluded).
  split; [apply Hcomposer; reflexivity|].
  refine (proj1 (Hincluded _ "ws-b" _ None eq_refl
                   (or_intror (or_introl eq_refl)))
            _ _ _ Spec.threadD eq_refl eq_refl _).
  - discriminate.
  - simpl. auto.
Defined.

Section ExportIndependence.

Variable processComposerChat
  : ComposerChat.t -> string -> option string -> Try.t ExportedConversation.t.
Variable processChatTab
  : ChatTab.t -> string -> option string -> Try.t ExportedConversation.t.

Lemma GET_by_collect (now : Z) (request : ExportHandler.Request)
  (disk disk' : Disk.t) :
  ExportHandler.collect processComposerChat processChatTab request disk
  = ExportHandler.collect processComposerChat processChatTab request disk' ->
  ExportHandler.GET processComposerChat processChatTab now request disk
  = ExportHandler.GET processComposerChat processChatTab now request disk'.
Proof. unfold ExportHandler.GET. now intros ->. Qed.

Lemma collect_congruence (request : ExportHandler.Request)
  (f : Disk.Dirent -> list Disk.Dirent) (entries : list Disk.Dirent) :
  let includeChats :=
    ExportHandler.notFalse (ExportHandler.includeChatsParam request) in
  let includeComposers :=
    ExportHandler.notFalse (ExportHandler.includeComposersParam request) in
  let fails :=
    Spec.entryFails processComposerChat processChatTab includeChats
      includeComposers in
  (forall entry,
     existsb fails (f entry) = fails entry
     /\ flat_map
          (Spec.entryConversations processComposerChat processChatTab
             includeChats includeComposers) (f entry)
        = Spec.entryConversations processComposerChat processChatTab
            includeChats includeComposers entry) ->
  ExportHandler.collect processComposerChat processChatTab request
    (Some (flat_map f entries))
  = ExportHandler.collect processComposerChat processChatTab request
      (Some entries).
Proof.
  intros includeChats includeComposers fails Hf.
  pose proof (collect_spec processComposerChat processChatTab request) as Hspec.
  cbv zeta in Hspec. rewrite !Hspec.
  fold includeChats includeComposers. fold fails.
  assert (Hfails : existsb fails (flat_map f entries) = existsb fails entries).
  { induction entries as [|entry rest IH]; simpl; [reflexivity|].
    rewrite existsb_app, IH. now rewrite (proj1 (Hf entry)). }
  assert (Hconvs : flat_map
                     (Spec.entryConversations processComposerChat processChatTab
                        includeChats includeComposers) (flat_map f entries)
                   = flat_map
                       (Spec.entryConversations processComposerChat
                          processChatTab includeChats includeComposers)
                       entries).
  { clear Hfails. induction entries as [|entry rest IH]; simpl; [reflexivity|].
    rewrite flat_map_app, IH. now rewrite (proj2 (Hf entry)). }
  now rewrite Hfails, Hconvs.
Qed.

Lemma map_as_flat_map {A B : Type} (f : A -> B) (l : list A) :
  map f l = flat_map (fun x => [f x]) l.
Proof. induction l; simpl; congruence. Qed.

Lemma filter_as_flat_map {A : Type} (p : A -> bool) (l : list A) :
  filter p l = flat_map (fun x => if p x then [x] else []) l.
Proof.
  induction l as [|x l IH]; simpl; [reflexivity|].
  destruct (p x); simpl; congruence.
Qed.

(** X11. The export never reads the rows of a kind it was asked to
    leave out: with [includeChats=false] the answer is the one for the
    same stores without their chat rows, so that a chat row that is not
    JSON, or a tab the route could not normalise, does no harm, and
    likewise for [includeComposers=false]. *)
Theorem excluded_rows_are_not_read (now : Z)
  (request : ExportHandler.Request) (entries : list Disk.Dirent) :
  let GET := ExportHandler.GET processComposerChat processChatTab in
  (ExportHandler.includeChatsParam request = Some "false" ->
   GET now request (Some entries)
   = GET now request (Some (map Vocabulary.withoutChatRow entries)))
  /\ (ExportHandler.includeComposersParam request = Some "false" ->
      GET now request (Some entries)
      = GET now request (Some (map Vocabulary.withoutComposerRow entries))).
Proof.
  cbv zeta. split; intros Hparam; apply GET_by_collect;
    rewrite map_as_flat_map; symmetry; apply collect_congruence;
    cbv zeta; rewrite Hparam;
    change (ExportHandler.notFalse (Some "false")) with false;
    intros [name|name [[| |[composerRow chatRow]]|] wj];
    cbn [flat_map existsb app Vocabulary.withoutChatRow
         Vocabulary.withoutComposerRow Spec.entryFails Spec.entryConversations
         Disk.composerData Disk.chatdata andb orb Spec.chatRowFails
         Spec.composerRowFails];
    rewrite ?orb_false_r, ?app_nil_r; split; reflexivity.
Qed.

(** X12. Entries that are no directory and directories without a
    [state.vscdb] have no part in the export: the answer is the one for
    the listing without them. *)
Theorem export_passes_over_storeless_entries (now : Z)
  (request : ExportHandler.Request) (entries : list Disk.Dirent) :
  ExportHandler.GET processComposerChat processChatTab now request
    (Some entries)
  = ExportHandler.GET processComposerChat processChatTab now request
      (Some (filter Vocabulary.hasStore entries)).
Proof.
  apply GET_by_collect. rewrite filter_as_flat_map. symmetry.
  apply collect_congruence. cbv zeta.
  intros [name|name [file|] wj]; cbn [Vocabulary.hasStore flat_map existsb app];
    rewrite ?orb_false_r, ?app_nil_r; split; reflexivity.
Qed.

End ExportIndependence.

Lemma excluded_rows_are_not_read_mixed :
  exists exportData,
    ExportRoute.GET 0 Vocabulary.composerOnlyRequest
      (Some Vocabulary.mixedEntries)
    = ExportHandler.Ok exportData
    /\ ExportRoute.GET 0 Vocabulary.composerOnlyRequest
         (Some (map Vocabulary.withoutChatRow Vocabulary.mixedEntries))
       = ExportHandler.Ok exportData
    /\ ExportRoute.GET 0 Spec.fullRequest (Some Vocabulary.mixedEntries)
       = ExportHandler.InternalServerError.
Proof.
  eexists. split; [reflexivity|]. split; [|reflexivity].
  transitivity
    (ExportRoute.GET 0 Vocabulary.composerOnlyRequest
       (Some Vocabulary.mixedEntries)); [|reflexivity].
  symmetry.
  exact (proj1 (excluded_rows_are_not_read
                  ExportRoute.processComposerChat
                  ExportRoute.processChatTab 0
                  Vocabulary.composerOnlyRequest Vocabulary.mixedEntries)
           eq_refl).
Defined.

(** X13. Every conversation of a successful export of either route
    belongs to a listed directory that holds a readable store: its
    [workspace.id] is the name of that directory and its
    [workspace.folder] is the [folder] of the directory's
    [workspace.json], undefined when that file is missing or is not
    JSON. *)
Theorem exported_workspace_is_listed (now : Z)
  (request : ExportHandler.Request) (entries : list Disk.Dirent)
  (exportData : ExportData.t) (c : ExportedConversation.t) :
  ExportRoute.GET now request (Some entries) = ExportHandler.Ok exportData
  \/ ExportRouteBetterSqlite.GET now request (Some entries)
     = ExportHandler.Ok exportData ->
  In c (ExportData.conversations exportData) ->
  exists name db workspaceJson,
    In (Disk.Directory name (Some (Disk.Readable db)) workspaceJson) entries
    /\ WorkspaceRef.id (ExportedConversation.workspace c) = name
    /\ WorkspaceRef.folder (ExportedConversation.workspace c)
       = match workspaceJson with
         | Some (Disk.Parsed workspaceData) => Disk.folder workspaceData
         | Some Disk.Malformed => None
         | None => None
         end.
Proof.
  intros HGET Hc.
  assert (Hfolder : forall wj,
            ExportHandler.readWorkspaceFolder wj
            = match wj with
              | Some (Disk.Parsed workspaceData) => Disk.folder workspaceData
              | Some Disk.Malformed => None
              | None => None
              end).
  { intros [[|d]|]; reflexivity. }
  destruct HGET as [HGET|HGET];
    destruct (exported_origin _ _ _ _ _ _ _ HGET Hc)
      as (name & db & wj & Hentry & [[_ Hsrc]|[_ Hsrc]]);
    destruct Hsrc as (_ & _ & x & _ & _ & _ & Heq);
    exists name, db, wj; (split; [exact Hentry|]);
    rewrite <- Hfolder.
  - destruct (processComposerChat_fields _ _ _ _ Heq) as (_ & _ & Hws & Hf).
    split; assumption.
  - destruct (processChatTab_fields _ _ _ _ (or_introl Heq))
      as (_ & _ & Hws & Hf).
    split; assumption.
  - destruct (processComposerChat_fields _ _ _ _ Heq) as (_ & _ & Hws & Hf).
    split; assumption.
  - destruct (processChatTab_fields _ _ _ _ (or_intror Heq))
      as (_ & _ & Hws & Hf).
    split; assumption.
Qed.

Lemma exported_workspace_is_listed_sample :
  exists name db workspaceJson,
    In (Disk.Directory name (Some (Disk.Readable db)) workspaceJson)
      [Spec.workspaceA; Spec.workspaceB]
    /\ "ws-b" = name
    /\ None
       = match workspaceJson with
         | Some (Disk.Parsed workspaceData) => Disk.folder workspaceData
         | Some Disk.Malformed => None
         | None => None
         end.
Proof.
  apply (exported_workspace_is_listed 0 Spec.fullRequest
           [Spec.workspaceA; Spec.workspaceB] Spec.sampleExport
           (Returned.processComposerChat Spec.threadD "ws-b" None)
           (or_introl eq_refl)).
  right. right. right. left. reflexivity.
Defined.

(** ** The lookup handler *)

Lemma lookup_cases (request : ConversationRoute.Request) :
  let given (param : option string) :=
    exists value, param = Some value /\ value <> "" in
  let workspaceId := ConversationRoute.workspaceIdParam request in
  let type := ConversationRoute.typeParam request in
  (~ (given workspaceId /\ given type)
   /\ forall disk,
        ConversationRoute.GET request disk
        = ConversationRoute.BadRequest "Missing required parameters")
  \/ (given workspaceId /\ given type
      /\ type <> Some "chat" /\ type <> Some "composer"
      /\ forall disk,
           ConversationRoute.GET request disk
           = ConversationRoute.BadRequest "Invalid type")
  \/ (given workspaceId /\ given type
      /\ (type = Some "chat" \/ type = Some "composer")
      /\ forall disk error,
           ConversationRoute.GET request disk
           <> ConversationRoute.BadRequest error).
Proof.
  cbv zeta.
  destruct (ConversationRoute.workspaceIdParam request) as [workspaceId|] eqn:Hw.
  2:{ left. split.
      - intros [(v & Hv & _) _]. discriminate Hv.
      - intros disk. unfold ConversationRoute.GET. now rewrite Hw. }
  destruct (ConversationRoute.typeParam request) as [type|] eqn:Ht.
  2:{ left. split.
      - intros [_ (v & Hv & _)]. discriminate Hv.
      - intros disk. unfold ConversationRoute.GET. now rewrite Hw, Ht. }
  destruct (String.eqb_spec workspaceId "") as [->|Hwne].
  { left. split.
    - intros [(v & Hv & Hne) _]. congruence.
    - intros disk. unfold ConversationRoute.GET. now rewrite Hw, Ht. }
  destruct (String.eqb_spec type "") as [->|Htne].
  { left. split.
    - intros [_ (v & Hv & Hne)]. congruence.
    - intros disk. unfold ConversationRoute.GET. rewrite Hw, Ht.
      rewrite (proj2 (truthyString_spec workspaceId) Hwne). reflexivity. }
  right.
  assert (Hgw : exists v, Some workspaceId = Some v /\ v <> "") by eauto.
  assert (Hgt : exists v, Some type = Some v /\ v <> "") by eauto.
  destruct (String.eqb_spec type "chat") as [Hchat|Hchat].
  { right. repeat split; auto; [left; congruence|].
    intros disk error.
    rewrite (lookup_validated request disk workspaceId type Hw Ht Hwne
               (or_introl Hchat)).
    destruct (Disk.stateVscdbOf disk workspaceId) as [[| |db]|];
      try discriminate.
    destruct (ConversationRoute.search _ _ _ _) as [|[[? ?]|]]; discriminate. }
  destruct (String.eqb_spec type "composer") as [Hcomposer|Hcomposer].
  { right. repeat split; auto; [right; congruence|].
    intros disk error.
    rewrite (lookup_validated request disk workspaceId type Hw Ht Hwne
               (or_intror Hcomposer)).
    destruct (Disk.stateVscdbOf disk workspaceId) as [[| |db]|];
      try discriminate.
    destruct (ConversationRoute.search _ _ _ _) as [|[[? ?]|]]; discriminate. }
  left. repeat split; auto; try congruence.
  intros disk. unfold ConversationRoute.GET. rewrite Hw, Ht.
  rewrite (proj2 (truthyString_spec workspaceId) Hwne).
  rewrite (proj2 (truthyString_spec type) Htne).
  apply String.eqb_neq in Hchat, Hcomposer. now rewrite Hchat, Hcomposer.
Qed.

(** X14. The lookup validates its parameters before it reads anything:
    whatever the storage holds, it answers 400 "Missing required
    parameters" exactly when [workspaceId] or [type] is absent or empty,
    and 400 "Invalid type" exactly when both are given and [type] is
    neither "chat" nor "composer". *)
Theorem lookup_validates_first (request : ConversationRoute.Request)
  (disk : Disk.Volume) :
  let given (param : option string) :=
    exists value, param = Some value /\ value <> "" in
  let workspaceId := ConversationRoute.workspaceIdParam request in
  let type := ConversationRoute.typeParam request in
  (ConversationRoute.GET request disk
   = ConversationRoute.BadRequest "Missing required parameters"
   <-> ~ (given workspaceId /\ given type))
  /\ (ConversationRoute.GET request disk
      = ConversationRoute.BadRequest "Invalid type"
      <-> given workspaceId /\ given type
          /\ type <> Some "chat" /\ type <> Some "composer")
  /\ (forall error,
        ConversationRoute.GET request disk = ConversationRoute.BadRequest error ->
        forall disk',
          ConversationRoute.GET request disk'
          = ConversationRoute.BadRequest error).
Proof.
  cbv zeta.
  destruct (lookup_cases request)
    as [[Hnot Hall]|[(Hw & Ht & Hc1 & Hc2 & Hall)|(Hw & Ht & Hvalid & Hall)]];
    cbv zeta in *.
  - split; [|split].
    + split; [intros _; exact Hnot|intros _; apply Hall].
    + split; [rewrite Hall; discriminate|].
      intros (Hw & Ht & _). exfalso. apply Hnot. now split.
    + intros error. rewrite Hall. intros H disk'. now rewrite Hall.
  - split; [|split].
    + split; [rewrite Hall; discriminate|]. intros Hnot. exfalso. now apply Hnot.
    + split; [intros _; now repeat split|intros _; apply Hall].
    + intros error. rewrite Hall. intros H disk'. now rewrite Hall.
  - split; [|split].
    + split; [intros H; now apply Hall in H|].
      intros Hnot. exfalso. now apply Hnot.
    + split; [intros H; now apply Hall in H|].
      intros (_ & _ & Hc1 & Hc2). destruct Hvalid; contradiction.
    + intros error H. now apply Hall in H.
Qed.

Lemma find_first {A : Type} (f : A -> bool) (l : list A) (x : A) :
  find f l = Some x ->
  exists before after,
    l = before ++ x :: after
    /\ Forall (fun y => f y = false) before
    /\ f x = true.
Proof.
  induction l as [|y l IH]; [discriminate|]. cbn [find].
  destruct (f y) eqn:Hy.
  - intros H. injection H as ->. exists [], l. repeat split; auto.
  - intros H. destruct (IH H) as (before & after & -> & Hb & Hx).
    exists (y :: before), after. repeat split; auto.
Qed.

Lemma find_absent {A : Type} (f : A -> bool) (l : list A) :
  find f l = None <-> Forall (fun y => f y = false) l.
Proof.
  induction l as [|y l IH]; cbn [find].
  - split; auto.
  - destruct (f y) eqn:Hy; split.
    + discriminate.
    + intros H. apply Forall_inv in H. congruence.
    + intros H. constructor; [exact Hy|now apply IH].
    + intros H. apply Forall_inv_tail in H. now apply IH.
Qed.

Lemma matchesTab_spec (id : string) (chat : ChatTab.t) :
  ConversationRoute.matchesTab id chat = true <-> ChatTab.tabId chat = Some id.
Proof.
  unfold ConversationRoute.matchesTab.
  destruct (ChatTab.tabId chat) as [tabId|]; [|split; discriminate].
  rewrite String.eqb_eq. split; congruence.
Qed.

Lemma matchesComposer_spec (id : string) (composer : ComposerChat.t) :
  ConversationRoute.matchesComposer id composer = true
  <-> ComposerChat.composerId composer = id.
Proof. unfold ConversationRoute.matchesComposer. apply String.eqb_eq. Qed.

(** X15. Given valid parameters and a readable store, a lookup succeeds
    exactly when the row of the requested type parses and holds an entry
    whose identifying field is the requested id: a thread with that
    [composerId] for type composer, a tab with that [tabId] for type
    chat. The entries of the other type are never searched. *)
Theorem lookup_finds_only_the_requested_type
  (request : ConversationRoute.Request) (disk : Disk.Volume)
  (workspaceId : string) (db : Disk.Store) :
  ConversationRoute.workspaceIdParam request = Some workspaceId ->
  workspaceId <> "" ->
  Disk.stateVscdbOf disk workspaceId = Some (Disk.Readable db) ->
  let id := ConversationRoute.id request in
  let found :=
    exists conversation metadata,
      ConversationRoute.GET request disk
      = ConversationRoute.Ok conversation metadata in
  (ConversationRoute.typeParam request = Some "composer" ->
   (found <->
    exists data composers composer,
      Disk.composerData db = Some (Disk.Parsed data)
      /\ ComposerData.allComposers data = Some composers
      /\ In composer composers
      /\ ComposerChat.composerId composer = id))
  /\ (ConversationRoute.typeParam request = Some "chat" ->
      (found <->
       exists data tabs chat,
         Disk.chatdata db = Some (Disk.Parsed data)
         /\ ChatData.tabs data = Some tabs
         /\ In chat tabs
         /\ ChatTab.tabId chat = Some id)).
Proof.
  intros Hw Hne Hstore. cbv zeta. split; intros Ht.
  - rewrite (lookup_validated request disk workspaceId "composer" Hw Ht Hne
               (or_intror eq_refl)), Hstore.
    split.
    + intros (conversation & metadata & H).
      destruct (ConversationRoute.search (Disk.Readable db) "composer"
                  (ConversationRoute.id request) workspaceId)
        as [|[[found meta]|]] eqn:Hsearch; try discriminate.
      destruct (lookup_search_found _ _ _ _ _ _ Hsearch)
        as (_ & _ & _ & [Hc|Hc]).
      * destruct Hc as (data & composers & composer & _ & ? & ? & ? & ? & _).
        eauto 8.
      * destruct Hc as (_ & _ & _ & Hbad & _). discriminate Hbad.
    + intros (data & composers & composer & Hrow & Hall & Hin & Hid).
      unfold ConversationRoute.search.
      change (String.eqb "composer" "composer") with true. cbv iota.
      cbn [Try.get Try.bind].
      rewrite Hrow. cbn [Try.JSON_parse Try.bind]. rewrite Hall.
      cbn [Try.required Try.bind].
      destruct (find_present
                  (ConversationRoute.matchesComposer
                     (ConversationRoute.id request))
                  composers composer Hin) as (found & ->).
      { now apply matchesComposer_spec. }
      eauto.
  - rewrite (lookup_validated request disk workspaceId "chat" Hw Ht Hne
               (or_introl eq_refl)), Hstore.
    split.
    + intros (conversation & metadata & H).
      destruct (ConversationRoute.search (Disk.Readable db) "chat"
                  (ConversationRoute.id request) workspaceId)
        as [|[[found meta]|]] eqn:Hsearch; try discriminate.
      destruct (lookup_search_found _ _ _ _ _ _ Hsearch)
        as (_ & _ & _ & [Hc|Hc]).
      * destruct Hc as (_ & _ & _ & Hbad & _). discriminate Hbad.
      * destruct Hc as (data & tabs & chat & _ & ? & ? & ? & ? & _).
        eauto 8.
    + intros (data & tabs & chat & Hrow & Hall & Hin & Hid).
      unfold ConversationRoute.search.
      change (String.eqb "chat" "composer") with false.
      change (String.eqb "chat" "chat") with true. cbv iota.
      cbn [Try.get Try.bind].
      rewrite Hrow. cbn [Try.JSON_parse Try.bind]. rewrite Hall.
      cbn [Try.required Try.bind].
      destruct (find_present
                  (ConversationRoute.matchesTab (ConversationRoute.id request))
                  tabs chat Hin) as (found & ->).
      { now apply matchesTab_spec. }
      eauto.
Qed.

(** Scenario D: the id of a stored thread, looked up as a chat. *)
Lemma lookup_finds_only_the_requested_type_sample :
  ConversationRoute.GET
    (ConversationRoute.mkRequest "thread-a" (Some "ws-a") (Some "chat"))
    (Disk.only Spec.sampleDisk)
  = ConversationRoute.NotFound "Conversation not found"
  /\ ~ exists data tabs chat,
         Some (Disk.Parsed (ChatData.mk (Some [Spec.scenarioB])))
         = Some (Disk.Parsed data)
         /\ ChatData.tabs data = Some tabs
         /\ In chat tabs
         /\ ChatTab.tabId chat = Some "thread-a".
Proof.
  split; [reflexivity|]. intros Hstored.
  apply (proj2 (lookup_finds_only_the_requested_type
                  (ConversationRoute.mkRequest "thread-a" (Some "ws-a")
                     (Some "chat"))
                  (Disk.only Spec.sampleDisk) "ws-a"
                  (Disk.mkStore
                     (Some (Disk.Parsed
                              (ComposerData.mk
                                 (Some [Spec.scenarioA; Spec.threadC]))))
                     (Some (Disk.Parsed (ChatData.mk (Some [Spec.scenarioB])))))
                  eq_refl ltac:(discriminate) eq_refl) eq_refl) in Hstored.
  destruct Hstored as (conversation & metadata & H). discriminate H.
Defined.

(** X16. The lookup resolves [workspaceId] as a path from the storage
    directory and, given valid parameters, answers 404 "Workspace not
    found" exactly when there is no [state.vscdb] where the path leads.
    So it does for a listed directory that holds no [state.vscdb],
    whether the request spells the directory's own name or another path
    to it; and no conversation of a successful export belongs to such a
    directory. *)
Theorem workspace_without_store
  (request : ConversationRoute.Request) (disk : Disk.Volume)
  (workspaceId type : string) :
  ConversationRoute.workspaceIdParam request = Some workspaceId ->
  workspaceId <> "" ->
  ConversationRoute.typeParam request = Some type ->
  type = "chat" \/ type = "composer" ->
  (ConversationRoute.GET request disk
   = ConversationRoute.NotFound "Workspace not found"
   <-> Disk.stateVscdbOf disk workspaceId = None)
  /\ forall entries name workspaceJson,
       Disk.storage disk = Some entries ->
       NoDup (map Disk.nameOf entries) ->
       Path.relative workspaceId = [name] ->
       In (Disk.Directory name None workspaceJson) entries ->
       ConversationRoute.GET request disk
       = ConversationRoute.NotFound "Workspace not found"
       /\ forall now exportRequest exportData,
            ExportRoute.GET now exportRequest (Some entries)
            = ExportHandler.Ok exportData
            \/ ExportRouteBetterSqlite.GET now exportRequest (Some entries)
               = ExportHandler.Ok exportData ->
            Forall
              (fun c =>
                 WorkspaceRef.id (ExportedConversation.workspace c) <> name)
              (ExportData.conversations exportData).
Proof.
  intros Hw Hne Ht Hkind.
  pose proof (lookup_validated request disk workspaceId type Hw Ht Hne Hkind)
    as HGET.
  split; [|intros entries name workspaceJson Hstorage Hnd Hplace Hentry; split].
  - rewrite HGET.
    destruct (Disk.stateVscdbOf disk workspaceId) as [[| |db]|];
      split; try discriminate; try reflexivity.
    destruct (ConversationRoute.search _ _ _ _) as [|[[? ?]|]]; discriminate.
  - rewrite HGET.
    now rewrite (stateVscdbOf_directory disk entries workspaceId name None
                   workspaceJson Hstorage Hnd Hplace Hentry).
  - intros now exportRequest exportData Hexport. apply Forall_forall.
    intros c Hc Hsame.
    assert (Horigin : exists db wj,
              In (Disk.Directory name (Some (Disk.Readable db)) wj) entries).
    { destruct Hexport as [Hexport|Hexport];
        destruct (exported_origin _ _ _ _ _ _ _ Hexport Hc)
          as (name' & db & wj & Hin & [[_ Hsrc]|[_ Hsrc]]);
        destruct Hsrc as (_ & _ & x & _ & _ & _ & Heq);
        exists db, wj.
      - destruct (processComposerChat_fields _ _ _ _ Heq) as (_ & _ & Hws & _).
        congruence.
      - destruct (processChatTab_fields _ _ _ _ (or_introl Heq))
          as (_ & _ & Hws & _).
        congruence.
      - destruct (processComposerChat_fields _ _ _ _ Heq) as (_ & _ & Hws & _).
        congruence.
      - destruct (processChatTab_fields _ _ _ _ (or_intror Heq))
          as (_ & _ & Hws & _).
        congruence. }
    destruct Horigin as (db & wj & Hin).
    pose proof (findDirectory_listed _ _ _ _ Hnd Hin) as Hfound.
    rewrite (findDirectory_listed _ _ _ _ Hnd Hentry) in Hfound.
    discriminate Hfound.
Qed.

(** The directory [ws-empty] holds no store: a lookup in it answers 404
    also when the request spells its name with a trailing slash, and the
    export of the listing has no conversation of it. *)
Lemma workspace_without_store_sample :
  Path.relative "ws-empty/" = ["ws-empty"]
  /\ ConversationRoute.GET
       (ConversationRoute.mkRequest "thread-a" (Some "ws-empty/")
          (Some "composer"))
       (Disk.only (Some Vocabulary.mixedEntries))
     = ConversationRoute.NotFound "Workspace not found"
  /\ exists exportData,
       ExportRoute.GET 0 Vocabulary.composerOnlyRequest
         (Some Vocabulary.mixedEntries)
       = ExportHandler.Ok exportData
       /\ Forall
            (fun c =>
               WorkspaceRef.id (ExportedConversation.workspace c) <> "ws-empty")
            (ExportData.conversations exportData).
Proof.
  split; [reflexivity|].
  destruct (workspace_without_store
              (ConversationRoute.mkRequest "thread-a" (Some "ws-empty/")
                 (Some "composer"))
              (Disk.only (Some Vocabulary.mixedEntries)) "ws-empty/" "composer"
              eq_refl ltac:(discriminate) eq_refl (or_intror eq_refl))
    as [_ Hlisted].
  destruct (Hlisted Vocabulary.mixedEntries "ws-empty"
              (Some (Disk.Parsed (Disk.mkWorkspaceJson (Some "/tmp/empty"))))
              eq_refl) as [Hlookup Hexport].
  - repeat constructor; simpl; intuition discriminate.
  - reflexivity.
  - right. left. reflexivity.
  - split; [exact Hlookup|].
    eexists. split; [reflexivity|].
    apply (Hexport 0 Vocabulary.composerOnlyRequest). left. reflexivity.
Defined.

(** X17. When several stored entries of the requested type carry the
    requested id, a lookup answers with the first of them in the stored
    order. *)
Theorem lookup_returns_the_first_match
  (request : ConversationRoute.Request) (disk : Disk.Volume)
  (conversation : ConversationRoute.Conversation)
  (metadata : ConversationRoute.Metadata) :
  ConversationRoute.GET request disk
  = ConversationRoute.Ok conversation metadata ->
  let id := ConversationRoute.id request in
  exists workspaceId db,
    ConversationRoute.workspaceIdParam request = Some workspaceId
    /\ Disk.stateVscdbOf disk workspaceId = Some (Disk.Readable db)
    /\ ((exists data before composer after,
           Disk.composerData db = Some (Disk.Parsed data)
           /\ ComposerData.allComposers data
              = Some (before ++ composer :: after)
           /\ Forall (fun c => ComposerChat.composerId c <> id) before
           /\ ComposerChat.composerId composer = id
           /\ conversation
              = ConversationRoute.Composer
                  (ConversationRoute.ensureConversation composer))
        \/ (exists data before chat after,
              Disk.chatdata db = Some (Disk.Parsed data)
              /\ ChatData.tabs data = Some (before ++ chat :: after)
              /\ Forall (fun t => ChatTab.tabId t <> Some id) before
              /\ ChatTab.tabId chat = Some id
              /\ conversation = ConversationRoute.Chat chat)).
Proof.
  intros HGET. cbv zeta.
  destruct (lookup_ok_validated _ _ _ _ HGET)
    as (workspaceId & type & db & Hw & Ht & Hne & Hkind & Hstore & Hsearch).
  exists workspaceId, db. split; [exact Hw|]. split; [exact Hstore|].
  unfold ConversationRoute.search in Hsearch.
  cbn [Try.get Try.bind] in Hsearch.
  destruct Hkind as [-> | ->].
  - right. change (String.eqb "chat" "composer") with false in Hsearch.
    change (String.eqb "chat" "chat") with true in Hsearch. cbv iota in Hsearch.
    destruct (Disk.chatdata db) as [[|data]|] eqn:Hrow;
      cbn [Try.JSON_parse Try.bind] in Hsearch; try discriminate.
    destruct (ChatData.tabs data) as [tabs|] eqn:Hall;
      cbn [Try.required Try.bind] in Hsearch; try discriminate.
    destruct (find _ tabs) as [chat|] eqn:Hfind; try discriminate.
    injection Hsearch as <- _.
    destruct (find_first _ _ _ Hfind) as (before & after & -> & Hb & Hx).
    exists data, before, chat, after. repeat split; auto.
    + eapply Forall_impl; [|exact Hb]. intros t Hf Hid.
      apply matchesTab_spec in Hid. congruence.
    + now apply matchesTab_spec.
  - left. change (String.eqb "composer" "composer") with true in Hsearch.
    cbv iota in Hsearch.
    destruct (Disk.composerData db) as [[|data]|] eqn:Hrow;
      cbn [Try.JSON_parse Try.bind] in Hsearch; try discriminate.
    destruct (ComposerData.allComposers data) as [composers|] eqn:Hall;
      cbn [Try.required Try.bind] in Hsearch; try discriminate.
    destruct (find _ composers) as [composer|] eqn:Hfind; try discriminate.
    injection Hsearch as <- _.
    destruct (find_first _ _ _ Hfind) as (before & after & -> & Hb & Hx).
    exists data, before, composer, after. repeat split; auto.
    + eapply Forall_impl; [|exact Hb]. intros c Hf Hid.
      apply matchesComposer_spec in Hid. congruence.
    + now apply matchesComposer_spec.
Qed.

Lemma lookup_returns_the_first_match_sample :
  exists workspaceId db,
    Some "ws-a" = Some workspaceId
    /\ Disk.stateVscdbOf (Disk.only Spec.sampleDisk) workspaceId
       = Some (Disk.Readable db).
Proof.
  destruct (lookup_returns_the_first_match
              (ConversationRoute.mkRequest "thread-c" (Some "ws-a")
                 (Some "composer"))
              (Disk.only Spec.sampleDisk)
              (ConversationRoute.Composer Spec.threadC)
              (ConversationRoute.mkMetadata "thread-c" "composer" "ws-a")
              eq_refl)
    as (workspaceId & db & Hw & Hstore & _).
  exists workspaceId, db. split; [exact Hw|exact Hstore].
Defined.

(** X18. A lookup has no tolerance for a store it cannot read. With
    valid parameters it answers 500 when the store of the workspace
    cannot be opened, when the file is no database, when the row of the
    requested type is not JSON, and when that row parses but lacks its
    list ([allComposers], resp. [tabs]); it answers 404 "Conversation
    not found" when the row is missing. *)
Theorem lookup_fails_hard
  (request : ConversationRoute.Request) (disk : Disk.Volume)
  (workspaceId type : string) :
  ConversationRoute.workspaceIdParam request = Some workspaceId ->
  workspaceId <> "" ->
  ConversationRoute.typeParam request = Some type ->
  type = "chat" \/ type = "composer" ->
  let answer := ConversationRoute.GET request disk in
  (Disk.stateVscdbOf disk workspaceId = Some Disk.Unreadable ->
   answer = ConversationRoute.InternalServerError)
  /\ (Disk.stateVscdbOf disk workspaceId = Some Disk.NotADatabase ->
      answer = ConversationRoute.InternalServerError)
  /\ forall db,
       Disk.stateVscdbOf disk workspaceId = Some (Disk.Readable db) ->
       (type = "composer" ->
        (Disk.composerData db = Some Disk.Malformed ->
         answer = ConversationRoute.InternalServerError)
        /\ (Disk.composerData db
            = Some (Disk.Parsed (ComposerData.mk None)) ->
            answer = ConversationRoute.InternalServerError)
        /\ (Disk.composerData db = None ->
            answer = ConversationRoute.NotFound "Conversation not found"))
       /\ (type = "chat" ->
           (Disk.chatdata db = Some Disk.Malformed ->
            answer = ConversationRoute.InternalServerError)
           /\ (Disk.chatdata db = Some (Disk.Parsed (ChatData.mk None)) ->
               answer = ConversationRoute.InternalServerError)
           /\ (Disk.chatdata db = None ->
               answer = ConversationRoute.NotFound "Conversation not found")).
Proof.
  intros Hw Hne Ht Hkind. cbv zeta.
  rewrite (lookup_validated request disk workspaceId type Hw Ht Hne Hkind).
  split; [now intros ->|]. split; [now intros ->|].
  intros db ->. unfold ConversationRoute.search.
  split; intros ->;
    cbn [String.eqb Ascii.eqb Bool.eqb Try.get Try.bind];
    repeat split; intros ->; reflexivity.
Qed.

Lemma lookup_fails_hard_sample :
  ConversationRoute.GET
    (ConversationRoute.mkRequest "tab-b" (Some "ws-bad-chat") (Some "chat"))
    (Disk.only (Some Vocabulary.mixedEntries))
  = ConversationRoute.InternalServerError.
Proof.
  destruct (lookup_fails_hard
              (ConversationRoute.mkRequest "tab-b" (Some "ws-bad-chat")
                 (Some "chat"))
              (Disk.only (Some Vocabulary.mixedEntries)) "ws-bad-chat" "chat"
              eq_refl ltac:(discriminate) eq_refl (or_introl eq_refl))
    as (_ & _ & Hreadable).
  destruct (Hreadable
              (Disk.mkStore
                 (Some (Disk.Parsed (ComposerData.mk (Some [Spec.threadD]))))
                 (Some Disk.Malformed))
              eq_refl) as [_ Hchat].
  destruct (Hchat eq_refl) as [Hmalformed _].
  exact (Hmalformed eq_refl).
Defined.

(** X19. A lookup reads the row of the requested type only: two stores
    that agree on that row give the same answer, whatever the other row
    holds. *)
Theorem lookup_reads_one_row
  (request : ConversationRoute.Request) (disk disk' : Disk.Volume)
  (workspaceId : string) (db db' : Disk.Store) :
  ConversationRoute.workspaceIdParam request = Some workspaceId ->
  Disk.stateVscdbOf disk workspaceId = Some (Disk.Readable db) ->
  Disk.stateVscdbOf disk' workspaceId = Some (Disk.Readable db') ->
  (ConversationRoute.typeParam request = Some "composer" ->
   Disk.composerData db = Disk.composerData db' ->
   ConversationRoute.GET request disk = ConversationRoute.GET request disk')
  /\ (ConversationRoute.typeParam request = Some "chat" ->
      Disk.chatdata db = Disk.chatdata db' ->
      ConversationRoute.GET request disk = ConversationRoute.GET request disk').
Proof.
  intros Hw Hstore Hstore'. unfold ConversationRoute.GET.
  rewrite Hw, Hstore, Hstore'. cbn [Try.openStore Try.bind].
  split; intros -> Hrow; unfold ConversationRoute.search;
    cbn [String.eqb Ascii.eqb Bool.eqb Try.get Try.bind]; now rewrite Hrow.
Qed.

Lemma lookup_reads_one_row_sample :
  ConversationRoute.GET
    (ConversationRoute.mkRequest "thread-d" (Some "ws-bad-chat")
       (Some "composer"))
    (Disk.only (Some Vocabulary.mixedEntries))
  = ConversationRoute.GET
      (ConversationRoute.mkRequest "thread-d" (Some "ws-bad-chat")
         (Some "composer"))
      (Disk.only
         (Some (map Vocabulary.withoutChatRow Vocabulary.mixedEntries))).
Proof.
  exact (proj1
           (lookup_reads_one_row
              (ConversationRoute.mkRequest "thread-d" (Some "ws-bad-chat")
                 (Some "composer"))
              (Disk.only (Some Vocabulary.mixedEntries))
              (Disk.only
                 (Some (map Vocabulary.withoutChatRow Vocabulary.mixedEntries)))
              "ws-bad-chat"
              (Disk.mkStore
                 (Some (Disk.Parsed (ComposerData.mk (Some [Spec.threadD]))))
                 (Some Disk.Malformed))
              (Disk.mkStore
                 (Some (Disk.Parsed (ComposerData.mk (Some [Spec.threadD]))))
                 None)
              eq_refl eq_refl eq_refl)
           eq_refl eq_refl).
Defined.

Section TablessChatRow.

Variable processComposerChat
  : ComposerChat.t -> string -> option string -> Try.t ExportedConversation.t.
Variable processChatTab
  : ChatTab.t -> string -> option string -> Try.t ExportedConversation.t.

(** X20. For the export a chat row that parses but has no [tabs] is
    the same as no chat row: the answer is the one for the stores
    without such rows. (The lookup tells them apart: it answers 500 for
    the first and 404 for the second.) *)
Theorem export_passes_over_tabless_chat_rows (now : Z)
  (request : ExportHandler.Request) (entries : list Disk.Dirent) :
  ExportHandler.GET processComposerChat processChatTab now request
    (Some entries)
  = ExportHandler.GET processComposerChat processChatTab now request
      (Some (map Vocabulary.withoutTablessChatRow entries)).
Proof.
  apply GET_by_collect. rewrite map_as_flat_map. symmetry.
  apply collect_congruence. cbv zeta.
  intros [name|name [[| |[composerRow [[|[[tabs|]]]|]]]|] wj];
    cbn [flat_map existsb app Vocabulary.withoutTablessChatRow Disk.chatdata
         ChatData.tabs Disk.composerData Spec.entryFails
         Spec.entryConversations Spec.chatRowFails Spec.chatConversations];
    rewrite ?orb_false_r, ?app_nil_r, ?andb_false_r; split; reflexivity.
Qed.

End TablessChatRow.



(** ** The export page *)

(** X21. However the request ends, [handleExport] leaves the page not
    exporting. When the server answers with an ok response that parses,
    the page holds the parsed data, shows no error and has downloaded
    the data once under [cursor-conversations-<date>.json]. Otherwise it
    keeps the data it had, downloads nothing and shows an error: "Export
    failed" for a response that is not ok, the message of the error
    thrown otherwise, be it thrown by the request or by the parsing of
    the body of an ok response. *)
Theorem handleExport_settles {Data : Type} (now : Z)
  (fetch : ExportHandler.Request -> Runtime.Outcome (ExportPage.Response Data))
  (includeChats includeComposers : bool) (page : ExportPage.State Data) :
  let request := ExportPage.params includeChats includeComposers in
  let after :=
    ExportPage.handleExport now fetch includeChats includeComposers page in
  ExportPage.isExporting after = false
  /\ (forall data,
        fetch request
        = Runtime.Returns (ExportPage.mkResponse true (Runtime.Returns data)) ->
        ExportPage.exportData after = Some data
        /\ ExportPage.error after = None
        /\ ExportPage.downloads after
           = ExportPage.downloads page ++ [(ExportPage.downloadName now, data)])
  /\ ((forall data,
         fetch request
         <> Runtime.Returns (ExportPage.mkResponse true (Runtime.Returns data))) ->
      ExportPage.exportData after = ExportPage.exportData page
      /\ ExportPage.downloads after = ExportPage.downloads page
      /\ exists message, ExportPage.error after = Some message)
  /\ (forall response,
        fetch request = Runtime.Returns response ->
        ExportPage.ok response = false ->
        ExportPage.error after = Some "Export failed")
  /\ (forall isTypeError message,
        fetch request = Runtime.Throws (Runtime.Error isTypeError message) ->
        ExportPage.error after = Some message)
  /\ (forall isTypeError message,
        fetch request
        = Runtime.Returns
            (ExportPage.mkResponse true
               (Runtime.Throws (Runtime.Error isTypeError message))) ->
        ExportPage.error after = Some message).
Proof.
  cbv zeta. unfold ExportPage.handleExport.
  split; [reflexivity|].
  destruct (fetch (ExportPage.params includeChats includeComposers))
    as [thrown|[ok parsed]].
  - cbn [Runtime.bind ExportPage.exportData ExportPage.error
         ExportPage.downloads].
    split; [intros d H; discriminate H|]. split; [eauto|].
    split; [intros r H; discriminate H|].
    split; [|intros b m H; discriminate H].
    intros b m H. injection H as ->. reflexivity.
  - destruct ok; cbn [Runtime.bind ExportPage.ok ExportPage.json negb].
    + destruct parsed as [thrown|data];
        cbn [Runtime.bind ExportPage.exportData ExportPage.error
             ExportPage.downloads].
      * split; [intros d H; discriminate H|]. split; [eauto|].
        split; [intros r H Hok; injection H as <-; discriminate Hok|].
        split; [intros b m H; discriminate H|].
        intros b m H. injection H as ->. reflexivity.
      * split; [intros d H; injection H as <-; repeat split|].
        split; [intros Hno; exfalso; exact (Hno data eq_refl)|].
        split; [intros r H Hok; injection H as <-; discriminate Hok|].
        split; intros b m H; discriminate H.
    + cbn [ExportPage.exportData ExportPage.error ExportPage.downloads].
      split; [intros d H; discriminate H|]. split; [eauto|].
      split; [reflexivity|]. split; intros b m H; discriminate H.
Qed.

Lemma served_flags
  (GET : Z -> ExportHandler.Request -> Disk.t -> ExportHandler.Response)
  (includeChats includeComposers : bool) :
  ExportHandler.notFalse
    (ExportHandler.includeChatsParam
       (ExportPage.params includeChats includeComposers)) = includeChats
  /\ ExportHandler.notFalse
       (ExportHandler.includeComposersParam
          (ExportPage.params includeChats includeComposers))
     = includeComposers.
Proof. destruct includeChats, includeComposers; split; reflexivity. Qed.

(** X22. The page in front of either export route. The kinds ticked in
    the call of [handleExport] are the kinds the route includes: after a
    successful export the page holds the export of the route for those
    flags; every conversation in it is of a kind that was asked for (so
    "Composer only", [handleExport(false, true)], shows composer
    conversations only); and every thread, respectively tab, stored in a
    listed directory with a readable store is in it, under its id, when
    composers, respectively chats, were ticked. When the route answers
    500 the page keeps what it had and shows "Export failed". *)
Theorem page_shows_the_kinds_asked_for
  (GET : Z -> ExportHandler.Request -> Disk.t -> ExportHandler.Response)
  (serverNow now : Z) (disk : Disk.t) (includeChats includeComposers : bool)
  (page : ExportPage.State ExportPage.Body) :
  GET = ExportRoute.GET \/ GET = ExportRouteBetterSqlite.GET ->
  let after :=
    ExportPage.handleExport now (ExportPage.served GET serverNow disk)
      includeChats includeComposers page in
  match GET serverNow (ExportPage.params includeChats includeComposers) disk with
  | ExportHandler.Ok exportData =>
      ExportPage.exportData after = Some (ExportPage.Exported exportData)
      /\ ExportPage.error after = None
      /\ Forall
           (fun c =>
              (ExportedConversation.type c = "composer"
               /\ includeComposers = true)
              \/ (ExportedConversation.type c = "chat" /\ includeChats = true))
           (ExportData.conversations exportData)
      /\ forall entries name db workspaceJson,
           disk = Some entries ->
           In (Disk.Directory name (Some (Disk.Readable db)) workspaceJson)
             entries ->
           let folder := ExportHandler.readWorkspaceFolder workspaceJson in
           (includeComposers = true ->
            forall data composers composer,
              Disk.composerData db = Some (Disk.Parsed data) ->
              ComposerData.allComposers data = Some composers ->
              In composer composers ->
              exists c,
                In c (ExportData.conversations exportData)
                /\ ExportRoute.processComposerChat composer name folder
                   = Try.Returns c
                /\ ExportedConversation.type c = "composer"
                /\ ExportedConversation.id c = ComposerChat.composerId composer)
           /\ (includeChats = true ->
               forall data tabs tab,
                 Disk.chatdata db = Some (Disk.Parsed data) ->
                 ChatData.tabs data = Some tabs ->
                 In tab tabs ->
                 exists c,
                   In c (ExportData.conversations exportData)
                   /\ (ExportRoute.processChatTab tab name folder
                       = Try.Returns c
                       \/ ExportRouteBetterSqlite.processChatTab tab name folder
                          = Try.Returns c)
                   /\ ExportedConversation.type c = "chat"
                   /\ ExportedConversation.id c = ChatTab.id tab)
  | ExportHandler.InternalServerError =>
      ExportPage.exportData after = ExportPage.exportData page
      /\ ExportPage.error after = Some "Export failed"
  end.
Proof.
  intros HGET. cbv zeta. unfold ExportPage.handleExport, ExportPage.served.
  destruct (GET serverNow (ExportPage.params includeChats includeComposers) disk)
    as [exportData|] eqn:Hanswer; cbn [Runtime.bind ExportPage.ok ExportPage.json
                                        negb ExportPage.exportData
                                        ExportPage.error].
  - split; [reflexivity|]. split; [reflexivity|].
    assert (Heither :
              ExportRoute.GET serverNow
                (ExportPage.params includeChats includeComposers) disk
              = ExportHandler.Ok exportData
              \/ ExportRouteBetterSqlite.GET serverNow
                   (ExportPage.params includeChats includeComposers) disk
                 = ExportHandler.Ok exportData).
    { destruct HGET as [<-|<-]; [left|right]; exact Hanswer. }
    split.
    + apply Forall_forall. intros c Hc.
      destruct (served_flags GET includeChats includeComposers)
        as [Hchats Hcomposers].
      destruct (exported_kind _ _ _ _ c Heither Hc) as [[Ht Hf]|[Ht Hf]].
      * left. split; [exact Ht|]. now rewrite Hcomposers in Hf.
      * right. split; [exact Ht|]. now rewrite Hchats in Hf.
    + intros entries name db workspaceJson -> Hentry.
      destruct (exported_kinds_included _ _ _ _ name db workspaceJson Heither
                  Hentry) as [Hcomposers Hchats].
      split.
      * intros -> data composers composer Hrow Hall Hin.
        destruct (Hcomposers ltac:(discriminate) data composers composer Hrow
                    Hall Hin) as (c & Hmember & Hc).
        exists c. split; [exact Hmember|]. split; [exact Hc|].
        destruct (processComposerChat_fields _ _ _ _ Hc) as (Ht & Hid & _).
        auto.
      * intros -> data tabs tab Hrow Hall Hin.
        destruct (Hchats ltac:(discriminate) data tabs tab Hrow Hall Hin)
          as (c & Hmember & Hc).
        exists c. split; [exact Hmember|]. split; [exact Hc|].
        destruct (processChatTab_fields _ _ _ _ Hc) as (Ht & Hid & _).
        auto.
  - split; reflexivity.
Qed.

(** "Composer only" over the sample storage: the page downloads the
    export once, shows the three stored threads, [thread-d] of the
    second workspace among them, and no tab. *)
Lemma page_shows_composers_only :
  let after :=
    ExportPage.handleExport 1704362000123
      (ExportPage.served ExportRoute.GET 0 Spec.sampleDisk) false true
      ExportPage.initial in
  ExportPage.isExporting after = false
  /\ map fst (ExportPage.downloads after)
     = ["cursor-conversations-2024-01-04.json"]
  /\ exists exportData,
       ExportPage.exportData after = Some (ExportPage.Exported exportData)
       /\ ExportPage.error after = None
       /\ map ExportedConversation.id (ExportData.conversations exportData)
          = ["thread-c"; "thread-a"; "thread-d"]
       /\ Forall
            (fun c =>
               (ExportedConversation.type c = "composer" /\ true = true)
               \/ (ExportedConversation.type c = "chat" /\ false = true))
            (ExportData.conversations exportData)
       /\ exists c,
            In c (ExportData.conversations exportData)
            /\ ExportRoute.processComposerChat Spec.threadD "ws-b" None
               = Try.Returns c
            /\ ExportedConversation.type c = "composer"
            /\ ExportedConversation.id c = "thread-d".
Proof.
  cbv zeta. split; [reflexivity|]. split; [reflexivity|].
  pose proof (page_shows_the_kinds_asked_for ExportRoute.GET 0 1704362000123
                Spec.sampleDisk false true ExportPage.initial
                (or_introl eq_refl)) as Hpage.
  cbv zeta in Hpage.
  destruct (ExportRoute.GET 0 (ExportPage.params false true) Spec.sampleDisk)
    as [exportData|] eqn:Hanswer; [|discriminate Hanswer].
  destruct Hpage as (Hdata & Herror & Hkinds & Hincluded).
  exists exportData. split; [exact Hdata|]. split; [exact Herror|].
  split; [injection Hanswer as <-; reflexivity|]. split; [exact Hkinds|].
  refine (proj1 (Hincluded _ "ws-b" _ None eq_refl
                   (or_intror (or_introl eq_refl)))
            eq_refl _ _ Spec.threadD eq_refl eq_refl _).
  simpl. auto.
Defined.

(** ** The routes in front of the Python backend *)

Lemma ok_successful (response : BackendProxy.Response) :
  BackendProxy.ok response = true
  <-> Vocabulary.successful (BackendProxy.status response).
Proof.
  unfold BackendProxy.ok, Vocabulary.successful.
  rewrite andb_true_iff, !Nat.leb_le. tauto.
Qed.

Lemma NextResponse_json_returns (body : Json.t) (status : nat)
  (answer : BackendProxy.Answer) :
  BackendProxy.NextResponse_json body status = Runtime.Returns answer ->
  answer = BackendProxy.mkAnswer status body
  /\ (200 <= status <= 599)%nat
  /\ ~ In status [204; 205; 304]%nat.
Proof.
  unfold BackendProxy.NextResponse_json.
  destruct ((status <? 200)%nat || (599 <? status)%nat) eqn:Hrange;
    [discriminate|].
  destruct (existsb (Nat.eqb status) [204; 205; 304]%nat) eqn:Hnull;
    [discriminate|].
  intros H. injection H as <-. split; [reflexivity|]. split.
  - apply orb_false_iff in Hrange. destruct Hrange as [H1 H2].
    apply Nat.ltb_ge in H1, H2. lia.
  - intros Hin.
    assert (Hex : existsb (Nat.eqb status) [204; 205; 304]%nat = true).
    { apply existsb_exists. exists status. split; [exact Hin|apply Nat.eqb_refl]. }
    congruence.
Qed.

Lemma NextResponse_json_ordinary (body : Json.t) (status : nat) :
  (200 <= status <= 599)%nat ->
  ~ In status [204; 205; 304]%nat ->
  BackendProxy.NextResponse_json body status
  = Runtime.Returns (BackendProxy.mkAnswer status body).
Proof.
  intros Hrange Hnot. unfold BackendProxy.NextResponse_json.
  replace ((status <? 200)%nat || (599 <? status)%nat) with false.
  2:{ symmetry. apply orb_false_iff. split; apply Nat.ltb_ge; lia. }
  destruct (existsb (Nat.eqb status) [204; 205; 304]%nat) eqn:Hnull;
    [|reflexivity].
  apply existsb_exists in Hnull. destruct Hnull as (x & Hin & Heq).
  apply Nat.eqb_eq in Heq. subst x. contradiction.
Qed.

(** What [relay] returns, when it returns. *)
Lemma relay_returns (fallback : string) (response : BackendProxy.Response)
  (answer : BackendProxy.Answer) :
  BackendProxy.relay fallback response = Runtime.Returns answer ->
  (Vocabulary.successful (BackendProxy.status response)
   /\ exists results,
        BackendProxy.json response = Runtime.Returns results
        /\ answer = BackendProxy.mkAnswer 200 results)
  \/ (~ Vocabulary.successful (BackendProxy.status response)
      /\ BackendProxy.answerStatus answer = BackendProxy.status response).
Proof.
  unfold BackendProxy.relay.
  destruct (BackendProxy.ok response) eqn:Hok; cbn [negb].
  - apply ok_successful in Hok.
    destruct (BackendProxy.json response) as [thrown|results];
      cbn [Runtime.bind]; [discriminate|].
    intros H. injection H as <-. left. eauto.
  - assert (Hnot : ~ Vocabulary.successful (BackendProxy.status response)).
    { intros Hs. apply ok_successful in Hs. congruence. }
    destruct (BackendProxy.json response) as [thrown|error];
      cbn [Runtime.bind]; [discriminate|].
    destruct (Runtime.getProperty error "detail") as [thrown|detail];
      cbn [Runtime.bind]; [discriminate|].
    intros H. apply NextResponse_json_returns in H. destruct H as (-> & _).
    right. split; [exact Hnot|reflexivity].
Qed.

Lemma unavailableOr500_fails (env : option string) (thrown : Runtime.Thrown) :
  ~ Vocabulary.successful
      (BackendProxy.answerStatus (BackendProxy.unavailableOr500 env thrown)).
Proof.
  unfold BackendProxy.unavailableOr500, Vocabulary.successful.
  destruct thrown as [[|] message|]; try destruct (Runtime.includes message "fetch");
    cbn [BackendProxy.answerStatus]; lia.
Qed.

(** The three forwarding handlers as one: the call they make, their
    fallback message and their [catch]. *)
Lemma forwarded_success (fallback : string) (fetch : BackendProxy.Fetch)
  (call : BackendProxy.Call)
  (handle : Runtime.Thrown -> BackendProxy.Answer) :
  (forall thrown,
     ~ Vocabulary.successful (BackendProxy.answerStatus (handle thrown))) ->
  let answer :=
    match Runtime.bind (fetch call) (BackendProxy.relay fallback) with
    | Runtime.Returns answer => answer
    | Runtime.Throws thrown => handle thrown
    end in
  Vocabulary.successful (BackendProxy.answerStatus answer)
  <-> exists results,
        Vocabulary.answeredWith fetch call results
        /\ answer = BackendProxy.mkAnswer 200 results.
Proof.
  intros Hhandle. cbv zeta. unfold Vocabulary.answeredWith.
  destruct (fetch call) as [thrown|response] eqn:Hfetch; cbn [Runtime.bind].
  - split; [intros H; now apply Hhandle in H|].
    intros (results & (status & H & _) & _). discriminate H.
  - destruct (BackendProxy.relay fallback response) as [thrown|answer] eqn:Hrelay.
    + split; [intros H; now apply Hhandle in H|].
      intros (results & (status & H & Hs) & _). injection H as ->.
      unfold BackendProxy.relay in Hrelay.
      replace (BackendProxy.ok _) with true in Hrelay
        by (symmetry; now apply ok_successful).
      discriminate Hrelay.
    + destruct (relay_returns _ _ _ Hrelay)
        as [(Hs & results & Hjson & ->)|(Hnot & Hstatus)].
      * split; [intros _|intros _; unfold Vocabulary.successful; cbn; lia].
        exists results. split; [|reflexivity].
        exists (BackendProxy.status response). split; [|exact Hs].
        destruct response as [status json]. cbn in Hjson. now rewrite Hjson.
      * split; [intros H; rewrite Hstatus in H; contradiction|].
        intros (results & (status & H & Hs) & _). injection H as ->.
        contradiction.
Qed.

(** X23. The forwarding handlers never turn a failure into a success.
    The search [POST], the index [POST] and the index [DELETE] answer
    with a 2xx status exactly when the request body parses (for the two
    [POST]) and the backend answers the forwarded call with a 2xx status
    and a JSON body; the answer is then 200 with exactly that body. *)
Theorem forwarded_success_is_the_backend_s
  (env : option string) (requestJson : Runtime.Outcome Json.t)
  (fetch : BackendProxy.Fetch) :
  let succeeded (answer : BackendProxy.Answer) (call : BackendProxy.Call) :=
    exists results,
      Vocabulary.answeredWith fetch call results
      /\ answer = BackendProxy.mkAnswer 200 results in
  let status := BackendProxy.answerStatus in
  (Vocabulary.successful (status (BackendProxy.searchPOST env requestJson fetch))
   <-> exists body,
         requestJson = Runtime.Returns body
         /\ succeeded (BackendProxy.searchPOST env requestJson fetch)
              (Vocabulary.searchCall env body))
  /\ (Vocabulary.successful
        (status (BackendProxy.indexPOST env requestJson fetch))
      <-> exists exportData,
            requestJson = Runtime.Returns exportData
            /\ succeeded (BackendProxy.indexPOST env requestJson fetch)
                 (Vocabulary.indexCall env exportData))
  /\ (Vocabulary.successful (status (BackendProxy.indexDELETE env fetch))
      <-> succeeded (BackendProxy.indexDELETE env fetch)
            (Vocabulary.clearCall env)).
Proof.
  cbv zeta. split; [|split].
  - unfold BackendProxy.searchPOST.
    destruct requestJson as [thrown|body]; cbn [Runtime.bind].
    + split; [intros H; now apply unavailableOr500_fails in H|].
      intros (body & H & _). discriminate H.
    + rewrite (forwarded_success "Search failed" fetch
                 (Vocabulary.searchCall env body)
                 (BackendProxy.unavailableOr500 env)
                 (unavailableOr500_fails env)).
      split; [eauto|]. intros (b & Hb & H). now injection Hb as <-.
  - unfold BackendProxy.indexPOST.
    destruct requestJson as [thrown|exportData]; cbn [Runtime.bind].
    + split; [intros H; now apply unavailableOr500_fails in H|].
      intros (body & H & _). discriminate H.
    + rewrite (forwarded_success "Indexing failed" fetch
                 (Vocabulary.indexCall env exportData)
                 (BackendProxy.unavailableOr500 env)
                 (unavailableOr500_fails env)).
      split; [eauto|]. intros (b & Hb & H). now injection Hb as <-.
  - unfold BackendProxy.indexDELETE.
    apply (forwarded_success "Clear index failed" fetch
             (Vocabulary.clearCall env)
             (fun _ =>
                BackendProxy.mkAnswer 500
                  (Json.object [("error", Json.string "Internal server error")]))).
    intros _. unfold Vocabulary.successful. cbn. lia.
Qed.

Lemma PYTHON_BACKEND_URL_cases (env : option string) :
  (forall url, env = Some url -> url <> "" ->
     BackendProxy.PYTHON_BACKEND_URL env = url)
  /\ (env = None \/ env = Some "" ->
      BackendProxy.PYTHON_BACKEND_URL env = "http://localhost:8000").
Proof.
  unfold BackendProxy.PYTHON_BACKEND_URL, JS.orString. split.
  - intros url -> Hne. now rewrite (proj2 (truthyString_spec url) Hne).
  - intros [-> | ->]; reflexivity.
Qed.

(** X24. When nothing answers at the backend, so that [fetch] rejects
    with a [TypeError] whose message mentions "fetch", the search and the
    index [POST] answer 503 "Python backend not available" and name the
    URL they tried, which is [PYTHON_BACKEND_URL] when it is set and not
    empty and [http://localhost:8000] otherwise; the index [DELETE]
    answers the plain 500, and the health [GET] answers 200 with
    [available: false] and the same URL. Any other thrown value makes
    the two [POST] answer the plain 500. *)
Theorem backend_unreachable (env : option string) (body : Json.t)
  (fetch : BackendProxy.Fetch) (thrown : Runtime.Thrown) :
  (forall call, fetch call = Runtime.Throws thrown) ->
  let url := BackendProxy.PYTHON_BACKEND_URL env in
  let property (answer : BackendProxy.Answer) (key : string) :=
    Runtime.lookup key (Vocabulary.answerProperties answer) in
  let plain500 :=
    BackendProxy.mkAnswer 500
      (Json.object [("error", Json.string "Internal server error")]) in
  let search := BackendProxy.searchPOST env (Runtime.Returns body) fetch in
  let index := BackendProxy.indexPOST env (Runtime.Returns body) fetch in
  let health := BackendProxy.healthGET env fetch in
  ((exists message,
      thrown = Runtime.Error true message
      /\ Runtime.includes message "fetch" = true) ->
   search = index
   /\ BackendProxy.answerStatus search = 503%nat
   /\ property search "error"
      = Some (Json.string "Python backend not available")
   /\ property search "message"
      = Some (Json.string
                ("Make sure the Python backend is running at " ++ url)))
  /\ (~ (exists message,
           thrown = Runtime.Error true message
           /\ Runtime.includes message "fetch" = true) ->
      search = plain500 /\ index = plain500)
  /\ BackendProxy.indexDELETE env fetch = plain500
  /\ BackendProxy.answerStatus health = 200%nat
  /\ property health "available" = Some (Json.bool false)
  /\ property health "backend_url" = Some (Json.string url)
  /\ (forall given, env = Some given -> given <> "" -> url = given)
  /\ (env = None \/ env = Some "" -> url = "http://localhost:8000").
Proof.
  intros Hfetch. cbv zeta.
  unfold BackendProxy.searchPOST, BackendProxy.indexPOST,
    BackendProxy.indexDELETE, BackendProxy.healthGET.
  cbn [Runtime.bind]. rewrite !Hfetch. cbn [Runtime.bind].
  split; [|split; [|split; [|split; [|split; [|split]]]]];
    try reflexivity; try apply PYTHON_BACKEND_URL_cases.
  - intros (message & -> & Hincludes).
    unfold BackendProxy.unavailableOr500. rewrite Hincludes.
    repeat split.
  - intros Hnot. unfold BackendProxy.unavailableOr500.
    destruct thrown as [[|] message|]; try (split; reflexivity).
    destruct (Runtime.includes message "fetch") eqn:Hincludes;
      [|split; reflexivity].
    exfalso. apply Hnot. eauto.
Qed.

Lemma backend_unreachable_sample :
  BackendProxy.answerStatus
    (BackendProxy.searchPOST (Some "http://127.0.0.1:9000")
       (Runtime.Returns (Json.object [("query", Json.string "jwt")]))
       Vocabulary.unreachable)
  = 503%nat
  /\ Runtime.lookup "message"
       (Vocabulary.answerProperties
          (BackendProxy.searchPOST (Some "http://127.0.0.1:9000")
             (Runtime.Returns (Json.object [("query", Json.string "jwt")]))
             Vocabulary.unreachable))
     = Some (Json.string
               "Make sure the Python backend is running at http://127.0.0.1:9000").
Proof.
  destruct (backend_unreachable (Some "http://127.0.0.1:9000")
              (Json.object [("query", Json.string "jwt")])
              Vocabulary.unreachable (Runtime.Error true "fetch failed")
              (fun _ => eq_refl)) as [Hdown _].
  destruct (Hdown (ex_intro _ "fetch failed" (conj eq_refl eq_refl)))
    as (_ & Hstatus & _ & Hmessage).
  split; [exact Hstatus|exact Hmessage].
Defined.

Lemma relay_error (fallback : string) (status : nat) (error : Json.t) :
  (300 <= status <= 599)%nat ->
  status <> 304%nat ->
  error <> Json.null ->
  exists answer,
    BackendProxy.relay fallback
      (BackendProxy.mkResponse status (Runtime.Returns error))
    = Runtime.Returns answer
    /\ Vocabulary.passesOn status error fallback answer.
Proof.
  intros Hrange H304 Hnull. unfold BackendProxy.relay.
  replace (BackendProxy.ok _) with false.
  2:{ symmetry. unfold BackendProxy.ok. cbn [BackendProxy.status].
      apply andb_false_iff. right. apply Nat.leb_gt. lia. }
  cbn [negb BackendProxy.json BackendProxy.status Runtime.bind].
  assert (Hdetail : exists detail,
            Runtime.getProperty error "detail" = Runtime.Returns detail
            /\ Runtime.orFallback detail fallback
               = match Vocabulary.detailOf error with
                 | Some d => d
                 | None => Json.string fallback
                 end).
  { destruct error as [|b|z|str|items|properties]; try contradiction;
      cbn [Runtime.getProperty Vocabulary.detailOf];
      try (eexists; split; reflexivity).
    eexists. split; [reflexivity|]. unfold Runtime.orFallback.
    destruct (Runtime.lookup "detail" properties) as [detail|]; [|reflexivity].
    destruct (Runtime.truthy detail); reflexivity. }
  destruct Hdetail as (detail & -> & Hor). cbn [Runtime.bind].
  rewrite NextResponse_json_ordinary.
  - eexists. split; [reflexivity|]. split; [reflexivity|].
    cbn [BackendProxy.answerBody]. now rewrite Hor.
  - lia.
  - simpl. intros [H|[H|[H|[]]]]; lia.
Qed.

(** X25. An error of the backend is passed on. When the backend
    answers the forwarded call with a status from 300 to 599 other than
    304 and a JSON body that is not [null], the three forwarding handlers
    answer with that status and with [{ error }], where [error] is the
    [detail] of the body when the body is an object with a truthy
    [detail], and otherwise the handler's own message ("Search failed",
    "Indexing failed", "Clear index failed"). *)
Theorem backend_errors_are_passed_on (env : option string) (body : Json.t)
  (fetch : BackendProxy.Fetch) (status : nat) (error : Json.t) :
  (300 <= status <= 599)%nat ->
  status <> 304%nat ->
  error <> Json.null ->
  let failed (call : BackendProxy.Call) :=
    fetch call
    = Runtime.Returns (BackendProxy.mkResponse status (Runtime.Returns error)) in
  (failed (Vocabulary.searchCall env body) ->
   Vocabulary.passesOn status error "Search failed"
     (BackendProxy.searchPOST env (Runtime.Returns body) fetch))
  /\ (failed (Vocabulary.indexCall env body) ->
      Vocabulary.passesOn status error "Indexing failed"
        (BackendProxy.indexPOST env (Runtime.Returns body) fetch))
  /\ (failed (Vocabulary.clearCall env) ->
      Vocabulary.passesOn status error "Clear index failed"
        (BackendProxy.indexDELETE env fetch)).
Proof.
  intros Hrange H304 Hnull. cbv zeta.
  split; [|split]; intros Hfetch.
  - destruct (relay_error "Search failed" status error Hrange H304 Hnull)
      as (answer & Hrelay & Hpass).
    unfold BackendProxy.searchPOST. cbn [Runtime.bind].
    fold (Vocabulary.searchCall env body). rewrite Hfetch.
    cbn [Runtime.bind]. now rewrite Hrelay.
  - destruct (relay_error "Indexing failed" status error Hrange H304 Hnull)
      as (answer & Hrelay & Hpass).
    unfold BackendProxy.indexPOST. cbn [Runtime.bind].
    fold (Vocabulary.indexCall env body). rewrite Hfetch.
    cbn [Runtime.bind]. now rewrite Hrelay.
  - destruct (relay_error "Clear index failed" status error Hrange H304 Hnull)
      as (answer & Hrelay & Hpass).
    unfold BackendProxy.indexDELETE.
    fold (Vocabulary.clearCall env). rewrite Hfetch.
    cbn [Runtime.bind]. now rewrite Hrelay.
Qed.

Lemma backend_errors_are_passed_on_sample :
  BackendProxy.searchPOST None (Runtime.Returns (Json.object []))
    Vocabulary.rejecting
  = BackendProxy.mkAnswer 422
      (Json.object [("error", Json.string "query must not be empty")]).
Proof.
  destruct (backend_errors_are_passed_on None (Json.object [])
              Vocabulary.rejecting 422
              (Json.object [("detail", Json.string "query must not be empty")])
              ltac:(lia) ltac:(discriminate) ltac:(discriminate))
    as [Hsearch _].
  destruct (Hsearch eq_refl) as [Hstatus Hbody].
  destruct (BackendProxy.searchPOST None (Runtime.Returns (Json.object []))
              Vocabulary.rejecting) as [s b].
  cbn in Hstatus, Hbody. now subst.
Defined.

Lemma lookup_setProperty_same (key : string) (v : Json.t)
  (properties : list (string * Json.t)) :
  Runtime.lookup key (Runtime.setProperty key v properties) = Some v.
Proof.
  unfold Runtime.lookup.
  induction properties as [|[k x] rest IH]; simpl.
  - now rewrite String.eqb_refl.
  - destruct (String.eqb k key) eqn:Hk; simpl; rewrite Hk; [reflexivity|exact IH].
Qed.

Lemma lookup_setProperty_other (key other : string) (v : Json.t)
  (properties : list (string * Json.t)) :
  other <> key ->
  Runtime.lookup key (Runtime.setProperty other v properties)
  = Runtime.lookup key properties.
Proof.
  intros Hne. unfold Runtime.lookup.
  induction properties as [|[k x] rest IH]; simpl.
  - now rewrite (proj2 (String.eqb_neq other key) Hne).
  - destruct (String.eqb k other) eqn:Hk; simpl.
    + apply String.eqb_eq in Hk. subst k.
      now rewrite (proj2 (String.eqb_neq other key) Hne).
    + destruct (String.eqb k key); [reflexivity|exact IH].
Qed.

Lemma lookup_None (key : string) (properties : list (string * Json.t)) :
  Runtime.lookup key properties = None <-> ~ In key (map fst properties).
Proof.
  unfold Runtime.lookup.
  induction properties as [|[k x] rest IH]; simpl.
  - tauto.
  - destruct (String.eqb k key) eqn:Hk; simpl.
    + apply String.eqb_eq in Hk. split; [discriminate|tauto].
    + apply String.eqb_neq in Hk. rewrite IH. tauto.
Qed.

Lemma lookup_assigned_absent (key : string)
  (assigned base : list (string * Json.t)) :
  Runtime.lookup key assigned = None ->
  Runtime.lookup key
    (fold_left (fun properties p => Runtime.setProperty (fst p) (snd p) properties)
       assigned base)
  = Runtime.lookup key base.
Proof.
  revert base. induction assigned as [|[k x] rest IH]; intros base Habsent.
  - reflexivity.
  - apply lookup_None in Habsent. simpl in Habsent. simpl.
    rewrite IH by (apply lookup_None; tauto).
    apply lookup_setProperty_other. tauto.
Qed.

Lemma lookup_assigned_present (key : string) (v : Json.t)
  (assigned base : list (string * Json.t)) :
  NoDup (map fst assigned) ->
  Runtime.lookup key assigned = Some v ->
  Runtime.lookup key
    (fold_left (fun properties p => Runtime.setProperty (fst p) (snd p) properties)
       assigned base)
  = Some v.
Proof.
  revert base. induction assigned as [|[k x] rest IH]; intros base Hnodup Hfound.
  - discriminate.
  - simpl in Hnodup. inversion Hnodup as [|? ? Hnotin Hrest]; subst.
    simpl. unfold Runtime.lookup in Hfound. simpl in Hfound.
    destruct (String.eqb k key) eqn:Hk.
    + apply String.eqb_eq in Hk. subst k. simpl in Hfound.
      injection Hfound as ->.
      rewrite lookup_assigned_absent by (now apply lookup_None).
      apply lookup_setProperty_same.
    + now apply IH.
Qed.

Lemma lookup_assigned_kept (key : string)
  (assigned base : list (string * Json.t)) :
  (exists v, Runtime.lookup key base = Some v) ->
  exists v,
    Runtime.lookup key
      (fold_left (fun properties p => Runtime.setProperty (fst p) (snd p) properties)
         assigned base)
    = Some v.
Proof.
  revert base. induction assigned as [|[k x] rest IH]; intros base Hbase.
  - exact Hbase.
  - simpl. apply IH. destruct (String.eqb k key) eqn:Hk.
    + apply String.eqb_eq in Hk. subst k. rewrite lookup_setProperty_same. eauto.
    + apply String.eqb_neq in Hk. now rewrite lookup_setProperty_other.
Qed.

(** X26. The health [GET] always answers, and its body always has an
    [available] property. The status is 200 except when the backend
    answered with a status that is not ok, which is then the status of
    the answer, with [available: false]. When the backend answered ok
    with a JSON value, the answer is 200 and carries every property of
    that value (whose keys are distinct), so that an [available] the
    backend sends replaces the [true] of the handler; without one
    [available] is [true]. [available: true] is answered only when the
    backend answered ok. *)
Theorem health_answer (env : option string) (fetch : BackendProxy.Fetch) :
  let answer := BackendProxy.healthGET env fetch in
  let property (key : string) :=
    Runtime.lookup key (Vocabulary.answerProperties answer) in
  (exists flag, property "available" = Some flag)
  /\ (BackendProxy.answerStatus answer <> 200%nat ->
      exists response,
        fetch (Vocabulary.healthCall env) = Runtime.Returns response
        /\ ~ Vocabulary.successful (BackendProxy.status response)
        /\ BackendProxy.answerStatus answer = BackendProxy.status response
        /\ property "available" = Some (Json.bool false))
  /\ (forall health,
        Vocabulary.answeredWith fetch (Vocabulary.healthCall env) health ->
        BackendProxy.answerStatus answer = 200%nat
        /\ (Vocabulary.distinctKeys health ->
            forall key v,
              Runtime.lookup key (Runtime.ownProperties health) = Some v ->
              property key = Some v)
        /\ (Runtime.lookup "available" (Runtime.ownProperties health) = None ->
            property "available" = Some (Json.bool true)))
  /\ (property "available" = Some (Json.bool true) ->
      exists response,
        fetch (Vocabulary.healthCall env) = Runtime.Returns response
        /\ Vocabulary.successful (BackendProxy.status response)).
Proof.
  cbv zeta. unfold BackendProxy.healthGET.
  fold (Vocabulary.healthCall env).
  destruct (fetch (Vocabulary.healthCall env)) as [thrown|response] eqn:Hfetch;
    cbn [Runtime.bind].
  - (* fetch rejects *)
    split; [eexists; reflexivity|].
    split; [intros H; now contradiction H|].
    split; [|discriminate].
    intros health (status & Hanswered & _). congruence.
  - destruct (BackendProxy.ok response) eqn:Hok; cbn [negb].
    + (* the backend answered ok *)
      assert (Hsuccessful := proj1 (ok_successful response) Hok).
      destruct (BackendProxy.json response) as [thrown|health] eqn:Hjson;
        cbn [Runtime.bind].
      * split; [eexists; reflexivity|].
        split; [intros H; now contradiction H|].
        split; [|discriminate].
        intros health (status & Hanswered & _).
        rewrite Hfetch in Hanswered. injection Hanswered as ->. discriminate.
      * assert (Hflag : exists flag,
                  Runtime.lookup "available"
                    (Runtime.spread [("available", Json.bool true)] health)
                  = Some flag).
        { unfold Runtime.spread. apply lookup_assigned_kept.
          eexists. reflexivity. }
        split; [exact Hflag|].
        split; [intros H; now contradiction H|].
        split; [|intros _; eauto].
        intros sent (status & Hanswered & _).
        rewrite Hfetch in Hanswered. injection Hanswered as Hresponse. subst response.
        cbn [BackendProxy.json] in Hjson. injection Hjson as ->.
        split; [reflexivity|].
        cbn [Vocabulary.answerProperties BackendProxy.answerBody].
        unfold Runtime.spread. split.
        -- intros Hdistinct key v Hsent.
           now apply lookup_assigned_present.
        -- intros Habsent. now rewrite lookup_assigned_absent.
    + (* the backend answered with an error *)
      assert (Hnot : ~ Vocabulary.successful (BackendProxy.status response)).
      { intros H. apply ok_successful in H. congruence. }
      destruct (BackendProxy.NextResponse_json _ (BackendProxy.status response))
        as [thrown|answer] eqn:Hanswer.
      * split; [eexists; reflexivity|].
        split; [intros H; now contradiction H|].
        split; [|discriminate].
        intros health (status & Hanswered & Hsuccessful).
        rewrite Hfetch in Hanswered. injection Hanswered as ->.
        now contradiction Hnot.
      * apply NextResponse_json_returns in Hanswer.
        destruct Hanswer as (-> & _ & _).
        split; [eexists; reflexivity|].
        split; [intros _; exists response; repeat split; exact Hnot|].
        split; [|discriminate].
        intros health (status & Hanswered & Hsuccessful).
        rewrite Hfetch in Hanswered. injection Hanswered as ->.
        now contradiction Hnot.
Qed.

Lemma health_answer_healthy :
  BackendProxy.answerStatus (BackendProxy.healthGET None Vocabulary.healthy)
  = 200%nat
  /\ Runtime.lookup "indexed"
       (Vocabulary.answerProperties
          (BackendProxy.healthGET None Vocabulary.healthy))
     = Some (Json.number 42)
  /\ Runtime.lookup "available"
       (Vocabulary.answerProperties
          (BackendProxy.healthGET None Vocabulary.healthy))
     = Some (Json.bool true).
Proof.
  destruct (health_answer None Vocabulary.healthy) as (_ & _ & Hok & _).
  destruct (Hok (Json.object [("status", Json.string "healthy");
                              ("indexed", Json.number 42)]))
    as (Hstatus & Hcarried & Hflag).
  - exists 200%nat. split; [reflexivity|]. unfold Vocabulary.successful. lia.
  - split; [exact Hstatus|]. split.
    + apply Hcarried; [|reflexivity].
      unfold Vocabulary.distinctKeys. simpl.
      repeat constructor; simpl; intuition discriminate.
    + apply Hflag. reflexivity.
Defined.
